(** * kb_python: the pipeline coordinator of [count.py] and the binary paths
      of [config.py], embedded in Rocq.

    The Python sources are embedded shallowly.  Strings are Rocq strings
    (ASCII text), Python dictionaries are insertion-ordered association
    lists, and every function of [count.py] is a computation in a small
    monad that records, in order, each effect the function has on the outside
    world (the commands handed to [run_executable], files moved, files read
    and written, ...) and that can stop with a Python exception.  What the
    outside world answers (does a path exist, what does a file contain, which
    temporary name was handed out) is taken from an oracle that sees the
    effects recorded so far. *)

From Stdlib Require Import String Ascii List ZArith Bool Lia.
From Stdlib Require Import Decimal DecimalNat DecimalString FinFun.
Import ListNotations.
Open Scope string_scope.
Open Scope list_scope.

Set Implicit Arguments.

(* ===================================================================== *)
(** * Python values and built-ins used by the sources                     *)
(* ===================================================================== *)

(** Exceptions the modelled code can raise. *)
Inductive Exn : Type :=
| Exception (msg : string)
| NotExecutableException (msg : string)
| KeyError (key : string)
| IndexError
| TypeError
| AttributeError
| UnboundLocalError (name : string).

(** An element of a command list: [run_executable] receives strings, the
    integer [threads], and possibly [None] (an unset binary path). *)
Inductive arg : Type :=
| AStr (s : string)
| AInt (z : Z)
| ANone.

(** Values stored in the result dictionaries. *)
#[warnings="-register-all"]
Inductive pyval : Type :=
| PNone
| PStr (s : string)
| PDict (d : list (string * pyval)).

(** A Python dictionary with string keys keeps its keys in insertion order. *)
Definition odict (V : Type) : Type := list (string * V).
Definition dict : Type := odict pyval.

(** [d.get(k)] *)
Fixpoint dict_get {V} (d : odict V) (k : string) : option V :=
  match d with
  | [] => None
  | (k', v) :: d' => if String.eqb k' k then Some v else dict_get d' k
  end.

(** [d[k] = v]: replaces the value in place, or appends a new key. *)
Fixpoint dict_set {V} (d : odict V) (k : string) (v : V) : odict V :=
  match d with
  | [] => [(k, v)]
  | (k', v') :: d' =>
      if String.eqb k' k then (k', v) :: d' else (k', v') :: dict_set d' k v
  end.

(** [d.update(other)] *)
Definition dict_update {V} (d other : odict V) : odict V :=
  fold_left (fun acc kv => dict_set acc (fst kv) (snd kv)) other d.

(** A dictionary display [{k1: v1, ..., kn: vn}]. *)
Definition dict_of {V} (kvs : list (string * V)) : odict V :=
  dict_update [] kvs.

(** [k in d] *)
Definition dict_mem {V} (d : odict V) (k : string) : bool :=
  match dict_get d k with Some _ => true | None => false end.

(** Truth value of an optional string ([None] and [''] are false). *)
Definition truthy (o : option string) : bool :=
  match o with
  | Some s => negb (String.eqb s EmptyString)
  | None => false
  end.

(** Truth value of an optional integer ([None] and [0] are false). *)
Definition truthyZ (o : option Z) : bool :=
  match o with
  | Some z => negb (Z.eqb z 0)
  | None => false
  end.

(** [str(n)] for a non-negative integer. *)
Definition str_of_nat (n : nat) : string :=
  NilEmpty.string_of_uint (Nat.to_uint n).

(** [s.upper()] on ASCII text. *)
Definition upper_ascii (c : ascii) : ascii :=
  let n := nat_of_ascii c in
  if andb (Nat.leb 97 n) (Nat.leb n 122) then ascii_of_nat (n - 32) else c.

Fixpoint upper (s : string) : string :=
  match s with
  | EmptyString => EmptyString
  | String c s' => String (upper_ascii c) (upper s')
  end.

(** Whitespace as [str.isspace] and [str.strip] see it on ASCII text. *)
Definition is_ws (c : ascii) : bool :=
  let n := nat_of_ascii c in
  orb (andb (Nat.leb 9 n) (Nat.leb n 13))
      (andb (Nat.leb 28 n) (Nat.leb n 32)).

Fixpoint all_ws (s : string) : bool :=
  match s with
  | EmptyString => true
  | String c s' => andb (is_ws c) (all_ws s')
  end.

(** [s.isspace()]: at least one character, and all of them whitespace. *)
Definition isspace (s : string) : bool :=
  match s with
  | EmptyString => false
  | _ => all_ws s
  end.

Fixpoint lstrip (s : string) : string :=
  match s with
  | EmptyString => EmptyString
  | String c s' => if is_ws c then lstrip s' else s
  end.

Fixpoint rstrip (s : string) : string :=
  match s with
  | EmptyString => EmptyString
  | String c s' =>
      match rstrip s' with
      | EmptyString => if is_ws c then EmptyString else String c EmptyString
      | r => String c r
      end
  end.

(** [s.strip()] *)
Definition strip (s : string) : string := rstrip (lstrip s).

(** [s.startswith(c)], [s.endswith(c)] for a single character. *)
Definition starts_with_char (c : ascii) (s : string) : bool :=
  match s with
  | String c' _ => Ascii.eqb c c'
  | EmptyString => false
  end.

Fixpoint ends_with_char (c : ascii) (s : string) : bool :=
  match s with
  | EmptyString => false
  | String c' EmptyString => Ascii.eqb c c'
  | String _ s' => ends_with_char c s'
  end.

(** [list(s)]: a string iterated over yields its characters. *)
Fixpoint chars_of (s : string) : list string :=
  match s with
  | EmptyString => []
  | String c s' => String c EmptyString :: chars_of s'
  end.

(** ** [os.path] (POSIX flavour) *)

Definition slash : ascii := "/"%char.

(** [os.path.join(a, b)] *)
Definition join (a b : string) : string :=
  if starts_with_char slash b then b
  else if orb (String.eqb a EmptyString) (ends_with_char slash a) then a ++ b
  else a ++ "/" ++ b.

(** The text after the last slash, and the text up to and including it. *)
Fixpoint after_last_slash (s : string) : string :=
  match s with
  | EmptyString => EmptyString
  | String c s' =>
      if existsb (Ascii.eqb slash) (list_ascii_of_string s')
      then after_last_slash s'
      else if Ascii.eqb c slash then s' else s
  end.

Fixpoint upto_last_slash (s : string) : string :=
  match s with
  | EmptyString => EmptyString
  | String c s' =>
      if existsb (Ascii.eqb slash) (list_ascii_of_string s')
      then String c (upto_last_slash s')
      else if Ascii.eqb c slash then String c EmptyString else EmptyString
  end.

Fixpoint all_slash (s : string) : bool :=
  match s with
  | EmptyString => true
  | String c s' => andb (Ascii.eqb c slash) (all_slash s')
  end.

Fixpoint rstrip_slash (s : string) : string :=
  match s with
  | EmptyString => EmptyString
  | String c s' =>
      match rstrip_slash s' with
      | EmptyString => if Ascii.eqb c slash then EmptyString else String c EmptyString
      | r => String c r
      end
  end.

(** [os.path.basename(p)] *)
Definition basename (p : string) : string := after_last_slash p.

(** [os.path.dirname(p)] *)
Definition dirname (p : string) : string :=
  let head := upto_last_slash p in
  if all_slash head then head else rstrip_slash head.

(* ===================================================================== *)
(** * config.py                                                           *)
(* ===================================================================== *)

Module config.

(** The module-level variables that the setters of [config.py] assign. *)
Record Globals : Type := mkGlobals {
  KALLISTO_PATH : option string;
  BUSTOOLS_PATH : option string;
  DRY : bool;
  VALIDATE : bool
}.

(** What the operating system answers to the calls of the setters:
    [shutil.which], [os.path.isfile], [os.access(_, os.X_OK)] and
    [os.path.abspath]. *)
Record OS : Type := mkOS {
  which : string -> option string;
  isfile : string -> bool;
  access_X_OK : string -> bool;
  abspath : string -> string
}.

Definition get_kallisto_binary_path (g : Globals) : option string :=
  KALLISTO_PATH g.

Definition get_bustools_binary_path (g : Globals) : option string :=
  BUSTOOLS_PATH g.

(** The first half of both setters: the path the argument resolves to.
    [shutil.which] is tried first; its answer counts when it is a non-empty
    string. *)
Definition resolve (os : OS) (path : string) : Exn + string :=
  let otherwise :=
    if isfile os path then inr (abspath os path)
    else inl (Exception ("Unable to resolve path " ++ path)) in
  match which os path with
  | Some shutil_path =>
      if negb (String.eqb shutil_path EmptyString) then inr (abspath os shutil_path)
      else otherwise
  | None => otherwise
  end.

Definition set_kallisto_binary_path (os : OS) (path : string) (g : Globals)
  : Globals * (Exn + unit) :=
  match resolve os path with
  | inl e => (g, inl e)
  | inr actual_path =>
      if negb (access_X_OK os actual_path)
      then (g, inl (NotExecutableException (actual_path ++ " is not executable")))
      else (mkGlobals (Some actual_path) (BUSTOOLS_PATH g) (DRY g) (VALIDATE g),
            inr tt)
  end.

Definition set_bustools_binary_path (os : OS) (path : string) (g : Globals)
  : Globals * (Exn + unit) :=
  match resolve os path with
  | inl e => (g, inl e)
  | inr actual_path =>
      if negb (access_X_OK os actual_path)
      then (g, inl (NotExecutableException (actual_path ++ " is not executable")))
      else (mkGlobals (KALLISTO_PATH g) (Some actual_path) (DRY g) (VALIDATE g),
            inr tt)
  end.

Definition set_dry (g : Globals) : Globals :=
  mkGlobals (KALLISTO_PATH g) (BUSTOOLS_PATH g) true (VALIDATE g).

Definition is_dry (g : Globals) : bool := DRY g.

Definition no_validate (g : Globals) : Globals :=
  mkGlobals (KALLISTO_PATH g) (BUSTOOLS_PATH g) (DRY g) false.

Definition is_validate (g : Globals) : bool := VALIDATE g.

(** The installation as the module sees it when it is imported:
    [platform.system().lower()], the directory [bins] of the package, and
    [os.path.join] of the platform. *)
Record Install : Type := mkInstall {
  PLATFORM : string;
  BINS_DIR : string;
  path_join : list string -> string
}.

Definition COMPILED_DIR (i : Install) : string :=
  path_join i [BINS_DIR i; "compiled"].

Definition get_provided_kallisto_path (os : OS) (i : Install)
  : option string :=
  let bin_filename :=
    if String.eqb (PLATFORM i) "windows" then "kallisto.exe" else "kallisto" in
  let path := path_join i [BINS_DIR i; PLATFORM i; "kallisto"; bin_filename] in
  if negb (isfile os path) then None else Some path.

Definition get_provided_bustools_path (os : OS) (i : Install)
  : option string :=
  let bin_filename :=
    if String.eqb (PLATFORM i) "windows" then "bustools.exe" else "bustools" in
  let path := path_join i [BINS_DIR i; PLATFORM i; "bustools"; bin_filename] in
  if negb (isfile os path) then None else Some path.

Definition get_compiled_kallisto_path (os : OS) (i : Install)
  : option string :=
  let bin_filename :=
    if String.eqb (PLATFORM i) "windows" then "kallisto.exe" else "kallisto" in
  let path := path_join i [COMPILED_DIR i; "kallisto"; bin_filename] in
  if negb (isfile os path) then None else Some path.

Definition get_compiled_bustools_path (os : OS) (i : Install)
  : option string :=
  let bin_filename :=
    if String.eqb (PLATFORM i) "windows" then "bustools.exe" else "bustools" in
  let path := path_join i [COMPILED_DIR i; "bustools"; bin_filename] in
  if negb (isfile os path) then None else Some path.

(** [a or b] on optional strings. *)
Definition or_else (a b : option string) : option string :=
  match a with
  | Some s => if negb (String.eqb s EmptyString) then a else b
  | None => b
  end.

(** The values the module gives its globals when it is imported. *)
Definition initial_globals (os : OS) (i : Install) : Globals :=
  mkGlobals
    (or_else (get_compiled_kallisto_path os i)
             (get_provided_kallisto_path os i))
    (or_else (get_compiled_bustools_path os i)
             (get_provided_bustools_path os i))
    false true.

End config.

(* ===================================================================== *)
(** * count.py                                                            *)
(* ===================================================================== *)

Module count.

(** ** Effects *)

(** One entry per effect on the outside world, in the order the code
    performs them.  [Run] is a call of [utils.run_executable]; the others are
    the remaining helpers of [utils], [stats], [report] and the file and
    matrix input/output the functions of [count.py] do themselves. *)
Inductive Event : Type :=
| Run (command : list arg)
| MoveFile (source destination : string)
| MakeDirectory (path : string)
| StreamFile (url path : string)
| TemporaryFile (dir name : string)
| CopyWhitelist (technology out_dir : string)
| CopyMap (technology out_dir : string)
| ReadLines (path : string)
| WriteLines (path : string) (chunks : list string)
| JsonLoad (path : string)
| JsonDump (path : string) (obj : list (string * list string))
| ReadT2G (path : string)
| MMRead (path : string)
| MMWriteTransposed (path source field : string)
| ImportMatrix (matrix barcodes : string) (genes t2g : option string)
               (name : string)
| ImportTCC (matrix barcodes : string) (ec txnames : option string)
            (threads : Z)
| SumAnndatas (n : nat)
| OverlayAnndatas (n : nat)
| WriteLoom (path : string)
| WriteH5ad (path : string)
| StatsStart
| StatsEnd
| StatsSave (path : string)
| RenderReport (stats info inspect nb html : string)
               (matrix : option string) (barcodes genes t2g : option string)
               (temp_dir : string)
| DryCall (name : string) (args : list string).

(** What has been done so far, most recent effect first. *)
Definition History := list Event.

(** ** What the sources import *)

(** The names imported from [constants.py]. *)
Class Constants : Type := {
  ABUNDANCE_FILENAME : string;
  ABUNDANCE_GENE_FILENAME : string;
  ABUNDANCE_GENE_TPM_FILENAME : string;
  ABUNDANCE_TPM_FILENAME : string;
  ADATA_PREFIX : string;
  BATCH_FILENAME : string;
  BUS_CDNA_PREFIX : string;
  BUS_FILENAME : string;
  BUS_INTRON_PREFIX : string;
  BUS_MASHED_FILENAME : string;
  BUS_MERGED_FILENAME : string;
  CAPTURE_FILENAME : string;
  CELLRANGER_BARCODES : string;
  CELLRANGER_DIR : string;
  CELLRANGER_GENES : string;
  CELLRANGER_MATRIX : string;
  CELLS_FILENAME : string;
  CORRECT_CODE : string;
  COUNTS_PREFIX : string;
  ECMAP_FILENAME : string;
  ECMAP_MERGED_FILENAME : string;
  FEATURE_NAME : string;
  FEATURE_PREFIX : string;
  FILTER_WHITELIST_FILENAME : string;
  FILTERED_CODE : string;
  FILTERED_COUNTS_DIR : string;
  FLD_FILENAME : string;
  FLENS_FILENAME : string;
  GENE_NAME : string;
  GENES_FILENAME : string;
  INSPECT_FILENAME : string;
  INTERNAL_SUFFIX : string;
  KALLISTO_INFO_FILENAME : string;
  KB_INFO_FILENAME : string;
  PROJECT_CODE : string;
  REPORT_HTML_FILENAME : string;
  REPORT_NOTEBOOK_FILENAME : string;
  SAVED_INDEX_FILENAME : string;
  SORT_CODE : string;
  TCC_PREFIX : string;
  TRANSCRIPT_NAME : string;
  TXNAMES_FILENAME : string;
  UMI_SUFFIX : string;
  UNFILTERED_CODE : string;
  UNFILTERED_COUNTS_DIR : string;
  UNFILTERED_QUANT_DIR : string;
  WHITELIST_FILENAME : string
}.

(** Pure helpers the sources call but do not define: [update_filename] and
    [whitelist_provided] of [utils], and the scheme that
    [urllib.parse.urlparse] finds in a string. *)
Class Helpers : Type := {
  update_filename : string -> string -> string;
  whitelist_provided : string -> bool;
  urlparse_scheme : string -> string
}.

(** The outside world, as far as the code only learns names from it: the
    answer may depend on everything done so far. *)
Class World : Type := {
  path_exists : History -> string -> bool;
  temporary_filename : History -> string -> string;
  stream_file_result : History -> string -> string -> string;
  copy_whitelist_result : History -> string -> string -> string;
  copy_map_result : History -> string -> string -> string;
  stats_save_result : History -> string -> string;
  render_report_result : History -> dict;
  dry_call_result : History -> string -> list string -> string
}.

(** The contents of files, as the code reads them: the lines of a text
    file, the items of a JSON object (values kept as text), and the
    transcript-to-gene table [read_t2g] builds. *)
Class Contents : Type := {
  file_lines : History -> string -> list string;
  json_items : History -> string -> list (string * string);
  t2g_table : History -> string -> list (string * list string)
}.

(** ** The monad: effects recorded so far in, new effects (oldest first) and
    outcome out *)

Definition M (A : Type) : Type := History -> list Event * (Exn + A).

Definition ret {A} (a : A) : M A := fun _ => ([], inr a).

Definition bind {A B} (m : M A) (f : A -> M B) : M B := fun h =>
  match m h with
  | (d, inl e) => (d, inl e)
  | (d, inr a) =>
      match f a (rev_append d h) with
      | (d', r) => (d ++ d', r)
      end
  end.

Definition raise {A} (e : Exn) : M A := fun _ => ([], inl e).

Definition emit (e : Event) : M unit := fun _ => ([e], inr tt).

Definition ask {A} (q : History -> A) : M A := fun h => ([], inr (q h)).

Declare Scope py_scope.
Delimit Scope py_scope with py.
Notation "x <- m ;; k" := (bind m (fun x => k))
  (at level 61, m at next level, right associativity) : py_scope.
Notation "m ;; k" := (bind m (fun _ => k))
  (at level 61, right associativity) : py_scope.
Open Scope py_scope.

(** The effects a computation adds after history [h], and its outcome. *)
Definition trace {A} (m : M A) (h : History) : list Event := fst (m h).
Definition outcome {A} (m : M A) (h : History) : Exn + A := snd (m h).

Fixpoint mapM {A B} (f : A -> M B) (l : list A) : M (list B) :=
  match l with
  | [] => ret []
  | x :: l' => y <- f x ;; ys <- mapM f l' ;; ret (y :: ys)
  end.

Fixpoint foldM {A S} (f : S -> A -> M S) (s : S) (l : list A) : M S :=
  match l with
  | [] => ret s
  | x :: l' => s' <- f s x ;; foldM f s' l'
  end.

Definition when (b : bool) (m : M unit) : M unit := if b then m else ret tt.

(** [d[k]] *)
Definition getitem (d : dict) (k : string) : M pyval :=
  match dict_get d k with
  | Some v => ret v
  | None => raise (KeyError k)
  end.

(** [d[k]] where a path is expected. *)
Definition getstr (d : dict) (k : string) : M string :=
  v <- getitem d k ;;
  match v with
  | PStr s => ret s
  | _ => raise TypeError
  end.

(** [d.get(k)] where a path or [None] is expected. *)
Definition getopt (d : dict) (k : string) : option string :=
  match dict_get d k with
  | Some (PStr s) => Some s
  | _ => None
  end.

(** [l[0]] *)
Definition first {A} (l : list A) : M A :=
  match l with
  | x :: _ => ret x
  | [] => raise IndexError
  end.

(** A local variable that is only bound on some paths. *)
Definition bound {A} (name : string) (v : option A) : M A :=
  match v with
  | Some a => ret a
  | None => raise (UnboundLocalError name)
  end.

Definition str_in (s : string) (l : list string) : bool :=
  existsb (String.eqb s) l.

Definition arg_of (o : option string) : arg :=
  match o with
  | Some s => AStr s
  | None => ANone
  end.

(** [fastqs]: a list of FASTQ paths, or the path of a batch file. *)
Inductive Fastqs : Type :=
| Batch (path : string)
| Files (paths : list string).

Definition isinstance_str (f : Fastqs) : bool :=
  match f with Batch _ => true | Files _ => false end.

(** Iterating over [fastqs]: a string yields its characters. *)
Definition iterate (f : Fastqs) : list string :=
  match f with
  | Batch s => chars_of s
  | Files l => l
  end.

(** [s.split(sep)] for a one-character separator. *)
Fixpoint split_on (sep : ascii) (s : string) : list string :=
  match s with
  | EmptyString => [EmptyString]
  | String c s' =>
      if Ascii.eqb c sep then EmptyString :: split_on sep s'
      else match split_on sep s' with
           | w :: ws => String c w :: ws
           | [] => [String c EmptyString]
           end
  end.

Definition tab : ascii := ascii_of_nat 9.
Definition nl : string := String (ascii_of_nat 10) EmptyString.
Definition tabs : string := String tab EmptyString.

(** [sep.join(l)] *)
Fixpoint str_join (sep : string) (l : list string) : string :=
  match l with
  | [] => EmptyString
  | [x] => x
  | x :: l' => x ++ sep ++ str_join sep l'
  end.

Definition contains_char (c : ascii) (s : string) : bool :=
  existsb (Ascii.eqb c) (list_ascii_of_string s).

Section Pipeline.

Context {consts : Constants} {helpers : Helpers} {world : World} {contents : Contents}.

(** The globals of [config.py] as they stand during the run. *)
Variable cfg : config.Globals.

(** ** Helpers with effects *)

Definition run_executable (command : list arg) : M unit := emit (Run command).

Definition move_file (source destination : string) : M unit :=
  emit (MoveFile source destination).

Definition make_directory (path : string) : M unit := emit (MakeDirectory path).

Definition get_temporary_filename (temp_dir : string) : M string :=
  name <- ask (fun h => temporary_filename h temp_dir) ;;
  emit (TemporaryFile temp_dir name) ;;
  ret name.

Definition stream_file (url path : string) : M string :=
  local <- ask (fun h => stream_file_result h url path) ;;
  emit (StreamFile url path) ;;
  ret local.

Definition copy_whitelist (technology out_dir : string) : M string :=
  p <- ask (fun h => copy_whitelist_result h technology out_dir) ;;
  emit (CopyWhitelist technology out_dir) ;;
  ret p.

Definition copy_map (technology out_dir : string) : M string :=
  p <- ask (fun h => copy_map_result h technology out_dir) ;;
  emit (CopyMap technology out_dir) ;;
  ret p.

(** Iterating over an open text file. *)
Definition read_lines (path : string) : M (list string) :=
  ls <- ask (fun h => file_lines h path) ;;
  emit (ReadLines path) ;;
  ret ls.

Definition read_t2g (path : string) : M (list (string * list string)) :=
  t <- ask (fun h => t2g_table h path) ;;
  emit (ReadT2G path) ;;
  ret t.

Definition json_load (path : string) : M (list (string * string)) :=
  o <- ask (fun h => json_items h path) ;;
  emit (JsonLoad path) ;;
  ret o.

Definition stats_save (path : string) : M string :=
  p <- ask (fun h => stats_save_result h path) ;;
  emit (StatsSave path) ;;
  ret p.

(** A function decorated with [dryable]: on a dry run the stand-in of the
    [dry] package is called in its place. *)
Definition dryable (name : string) (args : list string) (body : M string)
  : M string :=
  if config.is_dry cfg then
    r <- ask (fun h => dry_call_result h name args) ;;
    emit (DryCall name args) ;;
    ret r
  else body.

Definition kallisto : arg := arg_of (config.get_kallisto_binary_path cfg).
Definition bustools : arg := arg_of (config.get_bustools_binary_path cfg).

Definition in_url_schemes (fastq : string) : bool :=
  str_in (urlparse_scheme fastq) ["http"; "https"; "ftp"; "ftps"].

(** ** The wrappers, one per sub-command

    Each wrapper builds its command list, hands it to [run_executable] and
    returns the dictionary of the files the command is expected to write.
    The command list of [f] is [f_command]. *)

Definition kallisto_pseudo_command (batch_path index_path out_dir : string)
    (threads : Z) : list arg :=
  let command := [kallisto; AStr "pseudo"] in
  let command := command ++ [AStr "--quant"] in
  let command := command ++ [AStr "-i"; AStr index_path] in
  let command := command ++ [AStr "-o"; AStr out_dir] in
  let command := command ++ [AStr "-b"; AStr batch_path] in
  let command := command ++ [AStr "-t"; AInt threads] in
  command.

Definition kallisto_pseudo (batch_path index_path out_dir : string)
    (threads : Z) : M dict :=
  run_executable (kallisto_pseudo_command batch_path index_path out_dir
                    threads) ;;
  ret (dict_of [("mtx", PStr (join out_dir ABUNDANCE_FILENAME));
                ("ecmap", PStr (join out_dir ECMAP_FILENAME));
                ("cells", PStr (join out_dir CELLS_FILENAME));
                ("txnames", PStr (join out_dir TXNAMES_FILENAME));
                ("info", PStr (join out_dir KALLISTO_INFO_FILENAME))]).

Definition strand_flags (strand : option string) : list arg :=
  match strand with
  | Some s =>
      if String.eqb s "unstranded" then [AStr "--unstranded"]
      else if String.eqb s "forward" then [AStr "--fr-stranded"]
      else if String.eqb s "reverse" then [AStr "--rf-stranded"]
      else []
  | None => []
  end.

Definition kallisto_bus_command (fastqs : Fastqs) (index_path technology
    out_dir : string) (threads : Z) (n k paired : bool)
    (strand : option string) : list arg :=
  let is_batch := isinstance_str fastqs in
  let command := [kallisto; AStr "bus"] in
  let command := command ++ [AStr "-i"; AStr index_path] in
  let command := command ++ [AStr "-o"; AStr out_dir] in
  let command := if negb is_batch then command ++ [AStr "-x"; AStr technology]
                 else command in
  let command := command ++ [AStr "-t"; AInt threads] in
  let command := if n then command ++ [AStr "--num"] else command in
  let command := if k then command ++ [AStr "--kmer"] else command in
  let command := if paired then command ++ [AStr "--paired"] else command in
  let command := command ++ strand_flags strand in
  let command := match fastqs with
                 | Batch path => command ++ [AStr "--batch"; AStr path]
                 | Files paths => command ++ map AStr paths
                 end in
  command.

Definition kallisto_bus (fastqs : Fastqs) (index_path technology out_dir : string)
    (threads : Z) (n k paired : bool) (strand : option string) : M dict :=
  let results := dict_of [("bus", PStr (join out_dir BUS_FILENAME));
                          ("ecmap", PStr (join out_dir ECMAP_FILENAME));
                          ("txnames", PStr (join out_dir TXNAMES_FILENAME));
                          ("info", PStr (join out_dir KALLISTO_INFO_FILENAME))] in
  let results := if paired
                 then dict_set results "flens" (PStr (join out_dir FLENS_FILENAME))
                 else results in
  run_executable (kallisto_bus_command fastqs index_path technology out_dir
                    threads n k paired strand) ;;
  let results := if str_in (upper technology) ["BULK"; "SMARTSEQ3"]
                 then dict_set results "saved_index"
                        (PStr (join out_dir SAVED_INDEX_FILENAME))
                 else results in
  ret results.

Definition kallisto_quant_tcc_command (mtx_path saved_index_path ecmap_path
    t2g_path out_dir : string) (flens_path : option string) (l s : option Z)
    (threads : Z) : list arg :=
  let command := [kallisto; AStr "quant-tcc"] in
  let command := command ++ [AStr "-o"; AStr out_dir] in
  let command := command ++ [AStr "-i"; AStr saved_index_path] in
  let command := command ++ [AStr "-e"; AStr ecmap_path] in
  let command := command ++ [AStr "-g"; AStr t2g_path] in
  let command := command ++ [AStr "-t"; AInt threads] in
  let command := match flens_path with
                 | Some f => if truthy flens_path
                             then command ++ [AStr "-f"; AStr f] else command
                 | None => command
                 end in
  let command := match l with
                 | Some z => if truthyZ l then command ++ [AStr "-l"; AInt z]
                             else command
                 | None => command
                 end in
  let command := match s with
                 | Some z => if truthyZ s then command ++ [AStr "-s"; AInt z]
                             else command
                 | None => command
                 end in
  let command := command ++ [AStr mtx_path] in
  command.

Definition kallisto_quant_tcc (mtx_path saved_index_path ecmap_path t2g_path
    out_dir : string) (flens_path : option string) (l s : option Z)
    (threads : Z) : M dict :=
  run_executable (kallisto_quant_tcc_command mtx_path saved_index_path
                    ecmap_path t2g_path out_dir flens_path l s threads) ;;
  ret (dict_of [("genes", PStr (join out_dir GENES_FILENAME));
                ("gene_mtx", PStr (join out_dir ABUNDANCE_GENE_FILENAME));
                ("gene_tpm_mtx", PStr (join out_dir ABUNDANCE_GENE_TPM_FILENAME));
                ("mtx", PStr (join out_dir ABUNDANCE_FILENAME));
                ("tpm_mtx", PStr (join out_dir ABUNDANCE_TPM_FILENAME));
                ("fld", PStr (join out_dir FLD_FILENAME));
                ("txnames", PStr (join out_dir TXNAMES_FILENAME))]).

(** [run_info.setdefault(key, []).append(value)] *)
Fixpoint setdefault_append (run_info : list (string * list string))
    (key value : string) : list (string * list string) :=
  match run_info with
  | [] => [(key, [value])]
  | (k, vs) :: rest =>
      if String.eqb k key then (k, vs ++ [value]) :: rest
      else (k, vs) :: setdefault_append rest key value
  end.

Definition bustools_mash_command (out_dirs : list string) (out_dir : string)
  : list arg :=
  let command := [bustools; AStr "mash"] in
  let command := command ++ [AStr "-o"; AStr out_dir] in
  let command := command ++ map AStr out_dirs in
  command.

(** The loop of [bustools_mash] that combines the [run_info.json] of the
    parts. *)
Definition combine_run_info (out_dirs : list string)
  : M (list (string * list string)) :=
  foldM (fun run_info o_dir =>
           let info_path := join o_dir KALLISTO_INFO_FILENAME in
           info <- json_load info_path ;;
           ret (fold_left (fun acc kv =>
                  setdefault_append acc (fst kv) (snd kv)) info run_info))
        [] out_dirs.

Definition bustools_mash (out_dirs : list string) (out_dir : string) : M dict :=
  run_executable (bustools_mash_command out_dirs out_dir) ;;
  info_path <-
    (if negb (config.is_dry cfg) then
       run_info <- combine_run_info out_dirs ;;
       let info_path := join out_dir KALLISTO_INFO_FILENAME in
       emit (JsonDump info_path run_info) ;;
       ret (PStr info_path)
     else ret PNone) ;;
  ret (dict_of [("bus", PStr (join out_dir BUS_MASHED_FILENAME));
                ("ecmap", PStr (join out_dir ECMAP_FILENAME));
                ("txnames", PStr (join out_dir TXNAMES_FILENAME));
                ("info", info_path)]).

Definition bustools_merge_command (bus_path out_dir ecmap_path
    txnames_path : string) : list arg :=
  let command := [bustools; AStr "merge"] in
  let command := command ++ [AStr "-o"; AStr out_dir] in
  let command := command ++ [AStr "-e"; AStr ecmap_path] in
  let command := command ++ [AStr "-t"; AStr txnames_path] in
  let command := command ++ [AStr bus_path] in
  command.

Definition bustools_merge (bus_path out_dir ecmap_path txnames_path : string)
  : M dict :=
  run_executable (bustools_merge_command bus_path out_dir ecmap_path
                    txnames_path) ;;
  ret (dict_of [("bus", PStr (join out_dir BUS_MERGED_FILENAME));
                ("ecmap", PStr (join out_dir ECMAP_MERGED_FILENAME))]).

Definition bustools_project_command (bus_path out_path map_path ecmap_path
    txnames_path : string) : list arg :=
  let command := [bustools; AStr "project"] in
  let command := command ++ [AStr "-o"; AStr out_path] in
  let command := command ++ [AStr "-m"; AStr map_path] in
  let command := command ++ [AStr "-e"; AStr ecmap_path] in
  let command := command ++ [AStr "-t"; AStr txnames_path] in
  let command := command ++ [AStr "--barcode"] in
  let command := command ++ [AStr bus_path] in
  command.

Definition bustools_project (bus_path out_path map_path ecmap_path
    txnames_path : string) : M dict :=
  run_executable (bustools_project_command bus_path out_path map_path
                    ecmap_path txnames_path) ;;
  ret (dict_of [("bus", PStr out_path)]).

Definition bustools_sort_command (bus_path out_path temp_dir : string)
    (threads : Z) (memory : string) (flags : bool) : list arg :=
  let command := [bustools; AStr "sort"] in
  let command := command ++ [AStr "-o"; AStr out_path] in
  let command := command ++ [AStr "-T"; AStr temp_dir] in
  let command := command ++ [AStr "-t"; AInt threads] in
  let command := command ++ [AStr "-m"; AStr memory] in
  let command := if flags then command ++ [AStr "--flags"] else command in
  let command := command ++ [AStr bus_path] in
  command.

Definition bustools_sort (bus_path out_path temp_dir : string) (threads : Z)
    (memory : string) (flags : bool) : M dict :=
  run_executable (bustools_sort_command bus_path out_path temp_dir threads
                    memory flags) ;;
  ret (dict_of [("bus", PStr out_path)]).

Definition bustools_inspect_command (bus_path out_path : string)
    (whitelist_path ecmap_path : option string) : list arg :=
  let command := [bustools; AStr "inspect"] in
  let command := command ++ [AStr "-o"; AStr out_path] in
  let command := match whitelist_path with
                 | Some w => if truthy whitelist_path
                             then command ++ [AStr "-w"; AStr w] else command
                 | None => command
                 end in
  let command := match ecmap_path with
                 | Some e => if truthy ecmap_path
                             then command ++ [AStr "-e"; AStr e] else command
                 | None => command
                 end in
  let command := command ++ [AStr bus_path] in
  command.

Definition bustools_inspect (bus_path out_path : string)
    (whitelist_path ecmap_path : option string) : M dict :=
  run_executable (bustools_inspect_command bus_path out_path whitelist_path
                    ecmap_path) ;;
  ret (dict_of [("inspect", PStr out_path)]).

Definition bustools_correct_command (bus_path out_path : string)
    (whitelist_path : option string) : list arg :=
  let command := [bustools; AStr "correct"] in
  let command := command ++ [AStr "-o"; AStr out_path] in
  let command := command ++ [AStr "-w"; arg_of whitelist_path] in
  let command := command ++ [AStr bus_path] in
  command.

Definition bustools_correct (bus_path out_path : string)
    (whitelist_path : option string) : M dict :=
  run_executable (bustools_correct_command bus_path out_path whitelist_path) ;;
  ret (dict_of [("bus", PStr out_path)]).

Definition bustools_count_command (bus_path out_prefix t2g_path ecmap_path
    txnames_path : string) (tcc mm cm umi_gene em : bool) : list arg :=
  let command := [bustools; AStr "count"] in
  let command := command ++ [AStr "-o"; AStr out_prefix] in
  let command := command ++ [AStr "-g"; AStr t2g_path] in
  let command := command ++ [AStr "-e"; AStr ecmap_path] in
  let command := command ++ [AStr "-t"; AStr txnames_path] in
  let command := if negb tcc then command ++ [AStr "--genecounts"] else command in
  let command := if mm then command ++ [AStr "--multimapping"] else command in
  let command := if cm then command ++ [AStr "--cm"] else command in
  let command := if umi_gene then command ++ [AStr "--umi-gene"] else command in
  let command := if em then command ++ [AStr "--em"] else command in
  let command := command ++ [AStr bus_path] in
  command.

Definition bustools_count (bus_path out_prefix t2g_path ecmap_path
    txnames_path : string) (tcc mm cm umi_gene em : bool) : M dict :=
  run_executable (bustools_count_command bus_path out_prefix t2g_path
                    ecmap_path txnames_path tcc mm cm umi_gene em) ;;
  ret (dict_of [("mtx", PStr (out_prefix ++ ".mtx"));
                (if tcc then "ec" else "genes",
                 PStr (if tcc then out_prefix ++ ".ec.txt"
                       else out_prefix ++ ".genes.txt"));
                ("barcodes", PStr (out_prefix ++ ".barcodes.txt"))]).

Definition bustools_capture_command (bus_path out_path capture_path : string)
    (ecmap_path txnames_path : option string) (capture_type : string)
    (complement : bool) : list arg :=
  let command := [bustools; AStr "capture"] in
  let command := command ++ [AStr "-o"; AStr out_path] in
  let command := command ++ [AStr "-c"; AStr capture_path] in
  let command := match ecmap_path with
                 | Some e => if truthy ecmap_path
                             then command ++ [AStr "-e"; AStr e] else command
                 | None => command
                 end in
  let command := match txnames_path with
                 | Some t => if truthy txnames_path
                             then command ++ [AStr "-t"; AStr t] else command
                 | None => command
                 end in
  let command := if complement then command ++ [AStr "--complement"]
                 else command in
  let command := command ++ [AStr ("--" ++ capture_type)] in
  let command := command ++ [AStr bus_path] in
  command.

Definition bustools_capture (bus_path out_path capture_path : string)
    (ecmap_path txnames_path : option string) (capture_type : string)
    (complement : bool) : M dict :=
  run_executable (bustools_capture_command bus_path out_path capture_path
                    ecmap_path txnames_path capture_type complement) ;;
  ret (dict_of [("bus", PStr out_path)]).

Definition bustools_whitelist_command (bus_path out_path : string)
    (threshold : option Z) : list arg :=
  let command := [bustools; AStr "whitelist"] in
  let command := command ++ [AStr "-o"; AStr out_path] in
  let command := match threshold with
                 | Some z => if truthyZ threshold
                             then command ++ [AStr "--threshold"; AInt z]
                             else command
                 | None => command
                 end in
  let command := command ++ [AStr bus_path] in
  command.

Definition bustools_whitelist (bus_path out_path : string)
    (threshold : option Z) : M dict :=
  run_executable (bustools_whitelist_command bus_path out_path threshold) ;;
  ret (dict_of [("whitelist", PStr out_path)]).

(** ** Converters and small file writers *)

Definition write_smartseq_batch (fastq_pairs : list (string * string))
    (cell_ids : list string) (out_path : string) : M dict :=
  let chunks :=
    fold_left (fun out row =>
                 let '(cell_id, (fastq_1, fastq_2)) := row in
                 out ++ [(cell_id ++ tabs ++ fastq_1 ++ tabs ++ fastq_2 ++ nl)%string])
              (combine cell_ids fastq_pairs) [] in
  emit (WriteLines out_path chunks) ;;
  ret (dict_of [("batch", PStr out_path)]).

Definition matrix_to_cellranger (matrix_path barcodes_path genes_path t2g_path
    out_dir : string) : M dict :=
  make_directory out_dir ;;
  let cr_matrix_path := join out_dir CELLRANGER_MATRIX in
  let cr_barcodes_path := join out_dir CELLRANGER_BARCODES in
  let cr_genes_path := join out_dir CELLRANGER_GENES in
  emit (MMRead matrix_path) ;;
  emit (MMWriteTransposed cr_matrix_path matrix_path "integer") ;;
  f <- read_lines barcodes_path ;;
  emit (WriteLines cr_barcodes_path
          (fold_left (fun out line =>
                        if isspace line then out
                        else out ++ [(strip line ++ "-1" ++ nl)%string]) f [])) ;;
  f <- read_lines t2g_path ;;
  let gene_to_name : odict string :=
    fold_left (fun gene_to_name line =>
                 if isspace line then gene_to_name
                 else match split_on tab (strip line) with
                      | _ :: g :: name :: _ => dict_set gene_to_name g name
                      | _ => gene_to_name
                      end) f [] in
  f <- read_lines genes_path ;;
  emit (WriteLines cr_genes_path
          (fold_left (fun out line =>
                        if isspace line then out
                        else let gene := strip line in
                             let gene_name :=
                               match dict_get gene_to_name gene with
                               | Some name => name
                               | None => gene
                               end in
                             out ++ [(gene ++ tabs ++ gene_name ++ nl)%string]) f [])) ;;
  ret (dict_of [("mtx", PStr cr_matrix_path);
                ("barcodes", PStr cr_barcodes_path);
                ("genes", PStr cr_genes_path)]).

(** Writing the combined matrix as loom and/or h5ad. *)
Definition write_adata (counts_dir : string) (loom h5ad : bool) : M dict :=
  let results : dict := [] in
  results <-
    (if loom then
       let loom_path := join counts_dir (ADATA_PREFIX ++ ".loom") in
       emit (WriteLoom loom_path) ;;
       ret (dict_update results [("loom", PStr loom_path)])
     else ret results) ;;
  results <-
    (if h5ad then
       let h5ad_path := join counts_dir (ADATA_PREFIX ++ ".h5ad") in
       emit (WriteH5ad h5ad_path) ;;
       ret (dict_update results [("h5ad", PStr h5ad_path)])
     else ret results) ;;
  ret results.

Definition import_adata (matrix_path barcodes_path : string)
    (genes_path ec_path t2g_path txnames_path : option string) (name : string)
    (tcc : bool) (threads : Z) : M unit :=
  if tcc then emit (ImportTCC matrix_path barcodes_path ec_path txnames_path threads)
  else emit (ImportMatrix matrix_path barcodes_path genes_path t2g_path name).

Definition convert_matrix (counts_dir matrix_path barcodes_path : string)
    (genes_path ec_path t2g_path txnames_path : option string) (name : string)
    (loom h5ad tcc : bool) (threads : Z) : M dict :=
  import_adata matrix_path barcodes_path genes_path ec_path t2g_path
    txnames_path name tcc threads ;;
  write_adata counts_dir loom h5ad.

Definition is_none {A} (o : option A) : bool :=
  match o with None => true | Some _ => false end.

Definition convert_matrices (counts_dir : string) (matrix_paths
    barcodes_paths : list string) (genes_paths ec_paths : list (option string))
    (t2g_path txnames_path : option string) (name : string)
    (loom h5ad nucleus tcc : bool) (threads : Z) : M dict :=
  let genes_ec_paths :=
    if orb (match genes_paths with [] => true | _ => false end)
           (existsb is_none genes_paths)
    then ec_paths else genes_paths in
  adatas <- mapM (fun row =>
              let '(matrix_path, (barcodes_path, genes_ec_path)) := row in
              import_adata matrix_path barcodes_path genes_ec_path genes_ec_path
                t2g_path txnames_path name tcc threads)
            (combine matrix_paths (combine barcodes_paths genes_ec_paths)) ;;
  emit (if nucleus then SumAnndatas (length adatas)
        else OverlayAnndatas (length adatas)) ;;
  write_adata counts_dir loom h5ad.

Definition filter_with_bustools (bus_path ecmap_path txnames_path t2g_path
    whitelist_path filtered_bus_path : string) (filter_threshold : option Z)
    (counts_prefix : option string) (tcc mm kite : bool) (temp_dir : string)
    (threads : Z) (memory : string) (count loom h5ad cellranger umi_gene
    em : bool) : M dict :=
  let results : dict := [] in
  whitelist_result <- bustools_whitelist bus_path whitelist_path filter_threshold ;;
  let results := dict_update results whitelist_result in
  whitelist <- getstr whitelist_result "whitelist" ;;
  correct_result <- bustools_correct bus_path
      (join temp_dir (update_filename (basename bus_path) CORRECT_CODE))
      (Some whitelist) ;;
  corrected <- getstr correct_result "bus" ;;
  sort_result <- bustools_sort corrected filtered_bus_path temp_dir threads
                   memory false ;;
  sorted <- getstr sort_result "bus" ;;
  let results := dict_update results [("bus_scs", PStr sorted)] in
  if count then
    counts_prefix <- match counts_prefix with
                     | Some p => ret p
                     | None => raise TypeError
                     end ;;
    let counts_dir := dirname counts_prefix in
    make_directory counts_dir ;;
    count_result <- bustools_count sorted counts_prefix t2g_path ecmap_path
                      txnames_path tcc mm false umi_gene em ;;
    let results := dict_update results count_result in
    results <-
      (if orb loom h5ad then
         mtx <- getstr count_result "mtx" ;;
         barcodes <- getstr count_result "barcodes" ;;
         converted <- convert_matrix counts_dir mtx barcodes
                        (getopt count_result "genes") (getopt count_result "ec")
                        (Some t2g_path) (Some txnames_path)
                        (if kite then FEATURE_NAME else GENE_NAME)
                        loom h5ad tcc threads ;;
         ret (dict_update results converted)
       else ret results) ;;
    (if cellranger then
       if negb tcc then
         mtx <- getstr count_result "mtx" ;;
         barcodes <- getstr count_result "barcodes" ;;
         genes <- getstr count_result "genes" ;;
         cr_result <- matrix_to_cellranger mtx barcodes genes t2g_path
                        (join counts_dir CELLRANGER_DIR) ;;
         ret (dict_update results [("cellranger", PDict cr_result)])
       else ret results
     else ret results)
  else ret results.

Definition stream_fastqs (fastqs : Fastqs) (temp_dir : string)
  : M (list string) :=
  mapM (fun fastq =>
          if in_url_schemes fastq
          then stream_file fastq (join temp_dir (basename fastq))
          else ret fastq)
       (iterate fastqs).

Definition stream_batch (batch_path temp_dir : string) : M string :=
  dryable "stream_batch" [batch_path; temp_dir]
    (new_batch_path <- get_temporary_filename temp_dir ;;
     f_in <- read_lines batch_path ;;
     chunks <- foldM (fun out line =>
                 if orb (isspace line) (starts_with_char "#"%char line)
                 then ret out
                 else
                   let sep := if contains_char tab line then tab else " "%char in
                   let split := split_on sep (strip line) in
                   let name := hd EmptyString split in
                   fastqs <- stream_fastqs (Files (tl split)) "tmp" ;;
                   ret (out ++ [(name ++ tabs ++ str_join tabs fastqs ++ nl)%string]))
               [] f_in ;;
     emit (WriteLines new_batch_path chunks) ;;
     ret new_batch_path).

Definition copy_or_create_whitelist (technology bus_path out_dir : string)
  : M string :=
  if whitelist_provided technology then copy_whitelist technology out_dir
  else
    r <- bustools_whitelist bus_path (join out_dir WHITELIST_FILENAME) None ;;
    getstr r "whitelist".

(** What the loop of [convert_transcripts_to_genes] writes for one line. *)
Definition gene_or_transcript (t2g : odict (list string)) (line : string)
  : string :=
  let transcript := strip line in
  match dict_get t2g transcript with
  | Some (gene :: _) => (gene ++ nl)%string
  | _ => (transcript ++ nl)%string
  end.

Definition convert_transcripts_to_genes (txnames_path t2g_path
    genes_path : string) : M string :=
  t2g <- read_t2g t2g_path ;;
  f <- read_lines txnames_path ;;
  let out :=
    fold_left (fun out line =>
                 if isspace line then out
                 else
                   let transcript := strip line in
                   let attributes := dict_get t2g transcript in
                   match attributes with
                   | Some (gene :: _) => out ++ [(gene ++ nl)%string]
                   | _ => out ++ [(transcript ++ nl)%string]
                   end) f [] in
  emit (WriteLines genes_path out) ;;
  ret genes_path.

Fixpoint repeat_char (c : ascii) (n : nat) : string :=
  match n with
  | O => EmptyString
  | S n' => String c (repeat_char c n')
  end.

Definition write_smartseq3_capture (capture_path : string) : M string :=
  dryable "write_smartseq3_capture" [capture_path]
    (emit (WriteLines capture_path [(repeat_char "T"%char 32 ++ nl)%string]) ;;
     ret capture_path).

(** ** Split indices *)

(** The body of the loop of [kallisto_bus_split]: one index shard.  The
    loop carries [fastqs], which it reassigns, and [part_dirs]. *)
Definition bus_split_part (technology temp_dir : string) (threads : Z)
    (memory : string) (paired : bool) (strand : option string)
    (st : Fastqs * list string) (row : nat * string)
  : M (Fastqs * list string) :=
  let '(fastqs, part_dirs) := st in
  let '(i, index_path) := row in
  let bus_part_dir := join temp_dir ("bus_part" ++ str_of_nat i) in
  fastqs <- stream_fastqs fastqs temp_dir ;;
  kallisto_bus (Files fastqs) index_path technology bus_part_dir
    threads true true paired strand ;;
  let part_dirs := part_dirs ++ [bus_part_dir] in
  let bus_part := join bus_part_dir BUS_FILENAME in
  tmp <- get_temporary_filename temp_dir ;;
  sort_part <- bustools_sort bus_part tmp temp_dir threads memory true ;;
  sorted <- getstr sort_part "bus" ;;
  move_file sorted bus_part ;;
  ret (Files fastqs, part_dirs).

Definition kallisto_bus_split (fastqs : Fastqs) (index_paths : list string)
    (technology out_dir temp_dir : string) (threads : Z) (memory : string)
    (paired : bool) (strand : option string) : M dict :=
  st <- foldM (bus_split_part technology temp_dir threads memory paired strand)
        (fastqs, [])
        (combine (seq 0 (length index_paths)) index_paths) ;;
  let part_dirs := snd st in
  mash_result <- bustools_mash part_dirs out_dir ;;
  mashed <- getstr mash_result "bus" ;;
  tmp <- get_temporary_filename temp_dir ;;
  sort_result <- bustools_sort mashed tmp temp_dir threads memory true ;;
  sorted <- getstr sort_result "bus" ;;
  move_file sorted mashed ;;
  mash_ecmap <- getstr mash_result "ecmap" ;;
  mash_txnames <- getstr mash_result "txnames" ;;
  merge_result <- bustools_merge mashed out_dir mash_ecmap mash_txnames ;;
  let bus_path := join out_dir BUS_FILENAME in
  let ecmap_path := join out_dir ECMAP_FILENAME in
  merged_bus <- getstr merge_result "bus" ;;
  move_file merged_bus bus_path ;;
  merged_ecmap <- getstr merge_result "ecmap" ;;
  move_file merged_ecmap ecmap_path ;;
  ret (dict_of [("bus", PStr bus_path);
                ("ecmap", PStr ecmap_path);
                ("txnames", PStr (join out_dir TXNAMES_FILENAME));
                ("info", PStr (join out_dir KALLISTO_INFO_FILENAME))]).

(** ** The pipelines *)

(** [index_paths]: a list of index paths, or a single path. *)
Inductive IndexPaths : Type :=
| OneIndex (path : string)
| IndexList (paths : list string).

(** [if not isinstance(index_paths, list): index_paths = [index_paths]] *)
Definition as_list (index_paths : IndexPaths) : list string :=
  match index_paths with
  | OneIndex p => [p]
  | IndexList l => l
  end.

(** [any(not os.path.exists(path) for name, path in d.items())] *)
Definition any_missing (d : dict) : M bool :=
  ask (fun h => existsb (fun kv => match snd kv with
                                   | PStr path => negb (path_exists h path)
                                   | _ => false
                                   end) d).

Definition render_report (stats_path info_path inspect_path nb_path
    html_path : string) (matrix_path barcodes_path genes_path
    t2g_path : option string) (temp_dir : string) : M dict :=
  r <- ask (fun h => render_report_result h) ;;
  emit (RenderReport stats_path info_path inspect_path nb_path html_path
          matrix_path barcodes_path genes_path t2g_path temp_dir) ;;
  ret r.

(** The [kallisto bus] stage shared by the pipelines: run on split indices
    when several are given, else on the single index after streaming any
    remote input. *)
Definition bus_stage (fastqs : Fastqs) (index_paths : list string)
    (technology out_dir temp_dir : string) (threads : Z) (memory : string)
    (paired : bool) (strand : option string) (batch_allowed : bool) : M dict :=
  if Nat.ltb 1 (length index_paths) then
    kallisto_bus_split fastqs index_paths technology out_dir temp_dir threads
      memory paired strand
  else
    fastqs <- match fastqs with
              | Batch path =>
                  if batch_allowed then
                    p <- stream_batch path temp_dir ;; ret (Batch p)
                  else
                    l <- stream_fastqs fastqs temp_dir ;; ret (Files l)
              | Files _ =>
                  l <- stream_fastqs fastqs temp_dir ;; ret (Files l)
              end ;;
    index_path <- first index_paths ;;
    kallisto_bus fastqs index_path technology out_dir threads false false
      paired strand.

Definition count (index_paths : IndexPaths) (t2g_path technology
    out_dir : string) (fastqs : Fastqs) (whitelist_path : option string)
    (tcc mm : bool) (filter : option string) (filter_threshold : option Z)
    (kite FB : bool) (temp_dir : string) (threads : Z) (memory : string)
    (overwrite loom h5ad cellranger inspect report : bool)
    (fragment_l fragment_s : option Z) (paired : bool)
    (strand : option string) (umi_gene em : bool) : M dict :=
  emit StatsStart ;;
  let index_paths := as_list index_paths in
  let is_batch := isinstance_str fastqs in
  make_directory out_dir ;;
  let unfiltered_results : dict := [] in
  let bus_result :=
    dict_of [("bus", PStr (join out_dir BUS_FILENAME));
             ("ecmap", PStr (join out_dir ECMAP_FILENAME));
             ("txnames", PStr (join out_dir TXNAMES_FILENAME));
             ("info", PStr (join out_dir KALLISTO_INFO_FILENAME))] in
  let bus_result :=
    if str_in (upper technology) ["BULK"; "SMARTSEQ2"]
    then dict_set bus_result "saved_index"
           (PStr (join out_dir SAVED_INDEX_FILENAME))
    else bus_result in
  missing <- any_missing bus_result ;;
  bus_result <-
    (if orb missing overwrite then
       let _technology :=
         if String.eqb (upper technology) "SMARTSEQ2" then "BULK"
         else technology in
       bus_stage fastqs index_paths _technology out_dir temp_dir threads
         memory paired strand true
     else ret bus_result) ;;
  let unfiltered_results := dict_update unfiltered_results bus_result in
  bus <- getstr bus_result "bus" ;;
  sort_result <- bustools_sort bus
      (join temp_dir (update_filename (basename bus) SORT_CODE))
      temp_dir threads memory false ;;
  wl <-
    (if andb (negb (truthy whitelist_path)) (negb is_batch) then
       sorted <- getstr sort_result "bus" ;;
       w <- copy_or_create_whitelist technology sorted out_dir ;;
       ret (Some w, dict_update unfiltered_results [("whitelist", PStr w)])
     else ret (whitelist_path, unfiltered_results)) ;;
  let whitelist_path := fst wl in
  let unfiltered_results := snd wl in
  let prev_result := sort_result in
  prev_result <-
    (if FB then
       map_path <- copy_map technology out_dir ;;
       sorted <- getstr sort_result "bus" ;;
       ecmap <- getstr bus_result "ecmap" ;;
       txnames <- getstr bus_result "txnames" ;;
       project_result <- bustools_project sorted
           (join temp_dir (update_filename (basename sorted) PROJECT_CODE))
           map_path ecmap txnames ;;
       projected <- getstr project_result "bus" ;;
       sort2_result <- bustools_sort projected
           (join temp_dir (update_filename (basename projected) SORT_CODE))
           temp_dir threads memory false ;;
       ret sort2_result
     else ret prev_result) ;;
  ins <-
    (if inspect then
       prev <- getstr prev_result "bus" ;;
       inspect_result <- bustools_inspect prev (join out_dir INSPECT_FILENAME)
                           whitelist_path None ;;
       ret (Some inspect_result, dict_update unfiltered_results inspect_result)
     else ret (None, unfiltered_results)) ;;
  let inspect_result := fst ins in
  let unfiltered_results := snd ins in
  cor <-
    (if negb is_batch then
       prev <- getstr prev_result "bus" ;;
       prev_result <- bustools_correct prev
           (join temp_dir (update_filename (basename prev) CORRECT_CODE))
           whitelist_path ;;
       prev <- getstr prev_result "bus" ;;
       prev_result <- bustools_sort prev
           (join out_dir ("output." ++ UNFILTERED_CODE ++ ".bus"))
           temp_dir threads memory false ;;
       prev <- getstr prev_result "bus" ;;
       ret (prev_result, dict_update unfiltered_results [("bus_scs", PStr prev)])
     else ret (prev_result, unfiltered_results)) ;;
  let prev_result := fst cor in
  let unfiltered_results := snd cor in
  let counts_dir := join out_dir UNFILTERED_COUNTS_DIR in
  make_directory counts_dir ;;
  let counts_prefix :=
    join counts_dir (if tcc then TCC_PREFIX
                     else if kite then FEATURE_PREFIX else COUNTS_PREFIX) in
  let cm := str_in (upper technology) ["BULK"; "SMARTSEQ2"] in
  let quant := andb cm tcc in
  prev <- getstr prev_result "bus" ;;
  ecmap <- getstr bus_result "ecmap" ;;
  txnames <- getstr bus_result "txnames" ;;
  count_result <- bustools_count prev counts_prefix t2g_path ecmap txnames
                    tcc (orb mm tcc) cm umi_gene em ;;
  let unfiltered_results := dict_update unfiltered_results count_result in
  let quant_dir := join out_dir UNFILTERED_QUANT_DIR in
  qnt <-
    (if quant then
       make_directory quant_dir ;;
       mtx <- getstr count_result "mtx" ;;
       saved_index <- getstr bus_result "saved_index" ;;
       ecmap <- getstr bus_result "ecmap" ;;
       quant_result <- kallisto_quant_tcc mtx saved_index ecmap t2g_path
                         quant_dir (getopt bus_result "flens") fragment_l
                         fragment_s threads ;;
       ret (Some quant_result, dict_update unfiltered_results quant_result)
     else ret (None, unfiltered_results)) ;;
  let quant_result := fst qnt in
  let unfiltered_results := snd qnt in
  unfiltered_results <-
    (if orb loom h5ad then
       result <- (if quant then bound "quant_result" quant_result
                  else ret count_result) ;;
       let name := if kite then FEATURE_NAME
                   else if quant then TRANSCRIPT_NAME else GENE_NAME in
       mtx <- getstr result "mtx" ;;
       barcodes <- getstr count_result "barcodes" ;;
       genes_path <- (if quant then
                        t <- getstr result "txnames" ;; ret (Some t)
                      else ret (getopt result "genes")) ;;
       txnames <- getstr bus_result "txnames" ;;
       converted <- convert_matrix (if quant then quant_dir else counts_dir)
                      mtx barcodes genes_path (getopt count_result "ec")
                      (Some t2g_path) (Some txnames) name loom h5ad
                      (andb tcc (negb quant)) threads ;;
       ret (dict_update unfiltered_results converted)
     else ret unfiltered_results) ;;
  unfiltered_results <-
    (if cellranger then
       mtx <- getstr count_result "mtx" ;;
       barcodes <- getstr count_result "barcodes" ;;
       genes <- getstr count_result "genes" ;;
       cr_result <- matrix_to_cellranger mtx barcodes genes t2g_path
                      (join counts_dir CELLRANGER_DIR) ;;
       ret (dict_update unfiltered_results [("cellranger", PDict cr_result)])
     else ret unfiltered_results) ;;
  filtered <-
    (if match filter with Some f => String.eqb f "bustools" | None => false end
     then
       let filtered_counts_prefix :=
         join (join out_dir FILTERED_COUNTS_DIR)
              (if tcc then TCC_PREFIX
               else if kite then FEATURE_PREFIX else COUNTS_PREFIX) in
       let filtered_whitelist_path := join out_dir FILTER_WHITELIST_FILENAME in
       let filtered_bus_path :=
         join out_dir ("output." ++ FILTERED_CODE ++ ".bus") in
       prev <- getstr prev_result "bus" ;;
       ecmap <- getstr bus_result "ecmap" ;;
       txnames <- getstr bus_result "txnames" ;;
       r <- filter_with_bustools prev ecmap txnames t2g_path
              filtered_whitelist_path filtered_bus_path filter_threshold
              (Some filtered_counts_prefix) tcc false kite temp_dir threads
              memory true loom h5ad false umi_gene em ;;
       ret (Some r)
     else ret None) ;;
  emit StatsEnd ;;
  stats_path <- stats_save (join out_dir KB_INFO_FILENAME) ;;
  unfiltered_results <-
    (if report then
       let nb_path := join out_dir REPORT_NOTEBOOK_FILENAME in
       let html_path := join out_dir REPORT_HTML_FILENAME in
       info <- getstr bus_result "info" ;;
       inspect_result <- bound "inspect_result" inspect_result ;;
       inspected <- getstr inspect_result "inspect" ;;
       mtx <- getstr count_result "mtx" ;;
       report_result <- render_report stats_path info inspected nb_path
                          html_path (Some mtx) (getopt count_result "barcodes")
                          (getopt count_result "genes") (Some t2g_path)
                          temp_dir ;;
       ret (dict_update unfiltered_results report_result)
     else ret unfiltered_results) ;;
  let results := dict_of [("unfiltered", PDict unfiltered_results)] in
  let results := match filtered with
                 | Some r => dict_set results "filtered" (PDict r)
                 | None => results
                 end in
  ret (dict_update results [("stats", PStr stats_path)]).

(** [{f'{key}{suffix}': value for key, value in d.items()}] *)
Definition suffix_keys (suffix : string) (d : dict) : dict :=
  dict_of (map (fun kv => ((fst kv ++ suffix)%string, snd kv)) d).

Definition count_smartseq3 (index_paths : IndexPaths) (t2g_path
    out_dir : string) (fastqs : Fastqs) (tcc mm : bool) (temp_dir : string)
    (threads : Z) (memory : string) (overwrite loom h5ad inspect : bool)
    (strand : option string) : M dict :=
  emit StatsStart ;;
  let index_paths := as_list index_paths in
  make_directory out_dir ;;
  let unfiltered_results : dict := [] in
  let bus_result :=
    dict_of [("bus", PStr (join out_dir BUS_FILENAME));
             ("ecmap", PStr (join out_dir ECMAP_FILENAME));
             ("txnames", PStr (join out_dir TXNAMES_FILENAME));
             ("info", PStr (join out_dir KALLISTO_INFO_FILENAME));
             ("flens", PStr (join out_dir FLENS_FILENAME));
             ("saved_index", PStr (join out_dir SAVED_INDEX_FILENAME))] in
  missing <- any_missing bus_result ;;
  bus_result <-
    (if orb missing overwrite then
       bus_stage fastqs index_paths "SMARTSEQ3" out_dir temp_dir threads
         memory true strand true
     else ret bus_result) ;;
  let unfiltered_results := dict_update unfiltered_results bus_result in
  bus <- getstr bus_result "bus" ;;
  sort_result <- bustools_sort bus
      (join temp_dir (update_filename (basename bus) SORT_CODE))
      temp_dir threads memory false ;;
  sorted <- getstr sort_result "bus" ;;
  whitelist_path <- copy_or_create_whitelist "SMARTSEQ3" sorted out_dir ;;
  let unfiltered_results :=
    dict_update unfiltered_results [("whitelist", PStr whitelist_path)] in
  let prev_result := sort_result in
  unfiltered_results <-
    (if inspect then
       prev <- getstr prev_result "bus" ;;
       inspect_result <- bustools_inspect prev (join out_dir INSPECT_FILENAME)
                           (Some whitelist_path) None ;;
       ret (dict_update unfiltered_results inspect_result)
     else ret unfiltered_results) ;;
  prev <- getstr prev_result "bus" ;;
  prev_result <- bustools_correct prev
      (join temp_dir (update_filename (basename prev) CORRECT_CODE))
      (Some whitelist_path) ;;
  prev <- getstr prev_result "bus" ;;
  prev_result <- bustools_sort prev
      (join out_dir ("output." ++ UNFILTERED_CODE ++ ".bus"))
      temp_dir threads memory false ;;
  prev <- getstr prev_result "bus" ;;
  let unfiltered_results :=
    dict_update unfiltered_results [("bus_scs", PStr prev)] in
  capture_path <- write_smartseq3_capture (join out_dir CAPTURE_FILENAME) ;;
  prev <- getstr prev_result "bus" ;;
  capture_internal_result <- bustools_capture prev
      (join out_dir ("output" ++ INTERNAL_SUFFIX ++ ".bus"))
      capture_path None None "umis" false ;;
  captured_internal <- getstr capture_internal_result "bus" ;;
  let unfiltered_results :=
    dict_update unfiltered_results
      [(("bus" ++ INTERNAL_SUFFIX)%string, PStr captured_internal)] in
  prev <- getstr prev_result "bus" ;;
  capture_umi_result <- bustools_capture prev
      (join out_dir ("output" ++ UMI_SUFFIX ++ ".bus"))
      capture_path None None "umis" true ;;
  captured_umi <- getstr capture_umi_result "bus" ;;
  let unfiltered_results :=
    dict_update unfiltered_results
      [(("bus" ++ UMI_SUFFIX)%string, PStr captured_umi)] in
  let counts_internal_dir :=
    join out_dir (UNFILTERED_COUNTS_DIR ++ INTERNAL_SUFFIX) in
  make_directory counts_internal_dir ;;
  let counts_internal_prefix :=
    join counts_internal_dir (if tcc then TCC_PREFIX else COUNTS_PREFIX) in
  captured_internal <- getstr capture_internal_result "bus" ;;
  ecmap <- getstr bus_result "ecmap" ;;
  txnames <- getstr bus_result "txnames" ;;
  count_internal_result <- bustools_count captured_internal
      counts_internal_prefix t2g_path ecmap txnames tcc (orb mm tcc) true
      false false ;;
  let unfiltered_results :=
    dict_update unfiltered_results
      (suffix_keys INTERNAL_SUFFIX count_internal_result) in
  let counts_umi_dir := join out_dir (UNFILTERED_COUNTS_DIR ++ UMI_SUFFIX) in
  make_directory counts_umi_dir ;;
  let counts_umi_prefix :=
    join counts_umi_dir (if tcc then TCC_PREFIX else COUNTS_PREFIX) in
  captured_umi <- getstr capture_umi_result "bus" ;;
  ecmap <- getstr bus_result "ecmap" ;;
  txnames <- getstr bus_result "txnames" ;;
  count_umi_result <- bustools_count captured_umi counts_umi_prefix t2g_path
      ecmap txnames tcc (orb mm tcc) false true false ;;
  let unfiltered_results :=
    dict_update unfiltered_results (suffix_keys UMI_SUFFIX count_umi_result) in
  let quant_internal_dir :=
    join out_dir (UNFILTERED_QUANT_DIR ++ INTERNAL_SUFFIX) in
  let quant_umi_dir := join out_dir (UNFILTERED_QUANT_DIR ++ UMI_SUFFIX) in
  qnt <-
    (if tcc then
       make_directory quant_internal_dir ;;
       mtx <- getstr count_internal_result "mtx" ;;
       saved_index <- getstr bus_result "saved_index" ;;
       ecmap <- getstr bus_result "ecmap" ;;
       flens <- getstr bus_result "flens" ;;
       quant_internal_result <- kallisto_quant_tcc mtx saved_index ecmap
           t2g_path quant_internal_dir (Some flens) None None threads ;;
       let unfiltered_results :=
         dict_update unfiltered_results
           (suffix_keys INTERNAL_SUFFIX quant_internal_result) in
       make_directory quant_umi_dir ;;
       mtx <- getstr count_umi_result "mtx" ;;
       saved_index <- getstr bus_result "saved_index" ;;
       ecmap <- getstr bus_result "ecmap" ;;
       quant_umi_result <- kallisto_quant_tcc mtx saved_index ecmap t2g_path
           quant_umi_dir None None None threads ;;
       let unfiltered_results :=
         dict_update unfiltered_results
           (suffix_keys UMI_SUFFIX quant_umi_result) in
       ret (Some quant_internal_result, Some quant_umi_result,
            unfiltered_results)
     else ret (None, None, unfiltered_results)) ;;
  let quant_internal_result := fst (fst qnt) in
  let quant_umi_result := snd (fst qnt) in
  let unfiltered_results := snd qnt in
  unfiltered_results <-
    (if orb loom h5ad then
       let name := if tcc then TRANSCRIPT_NAME else GENE_NAME in
       result_internal <- (if tcc then bound "quant_internal_result"
                                         quant_internal_result
                           else ret count_internal_result) ;;
       mtx <- getstr result_internal "mtx" ;;
       barcodes <- getstr count_internal_result "barcodes" ;;
       genes_path <- (if tcc then
                        t <- getstr result_internal "txnames" ;; ret (Some t)
                      else ret (getopt result_internal "genes")) ;;
       txnames <- getstr bus_result "txnames" ;;
       convert_internal_result <- convert_matrix
           (if tcc then quant_internal_dir else counts_internal_dir)
           mtx barcodes genes_path (getopt count_internal_result "ec")
           (Some t2g_path) (Some txnames) name loom h5ad false threads ;;
       let unfiltered_results :=
         dict_update unfiltered_results
           (suffix_keys INTERNAL_SUFFIX convert_internal_result) in
       result_umi <- (if tcc then bound "quant_umi_result" quant_umi_result
                      else ret count_umi_result) ;;
       mtx <- getstr result_umi "mtx" ;;
       barcodes <- getstr count_umi_result "barcodes" ;;
       genes_path <- (if tcc then
                        t <- getstr result_umi "txnames" ;; ret (Some t)
                      else ret (getopt result_umi "genes")) ;;
       txnames <- getstr bus_result "txnames" ;;
       convert_umi_result <- convert_matrix
           (if tcc then quant_umi_dir else counts_umi_dir)
           mtx barcodes genes_path (getopt count_umi_result "ec")
           (Some t2g_path) (Some txnames) name loom h5ad false threads ;;
       ret (dict_update unfiltered_results
              (suffix_keys UMI_SUFFIX convert_umi_result))
     else ret unfiltered_results) ;;
  emit StatsEnd ;;
  stats_path <- stats_save (join out_dir KB_INFO_FILENAME) ;;
  let results := dict_of [("unfiltered", PDict unfiltered_results)] in
  ret (dict_update results [("stats", PStr stats_path)]).

Definition count_smartseq (index_paths : IndexPaths) (t2g_path technology
    out_dir : string) (fastq_pairs : list (string * string))
    (cell_ids : option (list string)) (temp_dir : string) (threads : Z)
    (memory : string) (overwrite loom h5ad : bool) : M dict :=
  emit StatsStart ;;
  let index_paths := as_list index_paths in
  (if Nat.ltb 1 (length index_paths) then
     raise (Exception ("Technology " ++ technology ++
                       " does not support multiple indices."))
   else ret tt) ;;
  (if existsb (fun pair => orb (in_url_schemes (fst pair))
                               (in_url_schemes (snd pair))) fastq_pairs then
     raise (Exception ("Technology " ++ technology ++
                       " does not support FASTQ streaming."))
   else ret tt) ;;
  let results : dict := [] in
  make_directory out_dir ;;
  let pseudo_result :=
    dict_of [("mtx", PStr (join out_dir ABUNDANCE_FILENAME));
             ("ecmap", PStr (join out_dir ECMAP_FILENAME));
             ("cells", PStr (join out_dir CELLS_FILENAME));
             ("txnames", PStr (join out_dir TXNAMES_FILENAME));
             ("info", PStr (join out_dir KALLISTO_INFO_FILENAME))] in
  missing <- any_missing pseudo_result ;;
  ps <-
    (if orb missing overwrite then
       batch_result <- write_smartseq_batch fastq_pairs
           (match cell_ids with
            | Some (c :: cs) => c :: cs
            | _ => map str_of_nat (seq 0 (length fastq_pairs))
            end)
           (join out_dir BATCH_FILENAME) ;;
       let results := dict_update results batch_result in
       batch <- getstr batch_result "batch" ;;
       index_path <- first index_paths ;;
       pseudo_result <- kallisto_pseudo batch index_path out_dir threads ;;
       ret (pseudo_result, results)
     else ret (pseudo_result, results)) ;;
  let pseudo_result := fst ps in
  let results := dict_update (snd ps) pseudo_result in
  let genes_path := join out_dir GENES_FILENAME in
  txnames <- getstr pseudo_result "txnames" ;;
  genes <- convert_transcripts_to_genes txnames t2g_path genes_path ;;
  let results := dict_set results "genes" (PStr genes) in
  results <-
    (if orb loom h5ad then
       mtx <- getstr pseudo_result "mtx" ;;
       cells <- getstr pseudo_result "cells" ;;
       genes <- getstr results "genes" ;;
       converted <- convert_matrix out_dir mtx cells (Some genes) None
                      (Some t2g_path) None "gene" loom h5ad false threads ;;
       ret (dict_update results converted)
     else ret results) ;;
  emit StatsEnd ;;
  stats_path <- stats_save (join out_dir KB_INFO_FILENAME) ;;
  ret (dict_update results [("stats", PStr stats_path)]).

(** [d[k].update(other)] *)
Definition sub_update (d : dict) (k : string) (other : dict) : M dict :=
  v <- getitem d k ;;
  match v with
  | PDict sub => ret (dict_set d k (PDict (dict_update sub other)))
  | _ => raise AttributeError
  end.

(** [d[k][key]] *)
Definition sub_getstr (d : dict) (k key : string) : M string :=
  v <- getitem d k ;;
  match v with
  | PDict sub => getstr sub key
  | _ => raise TypeError
  end.

(** [d[k].get(key)] *)
Definition sub_getopt (d : dict) (k key : string) : M (option string) :=
  v <- getitem d k ;;
  match v with
  | PDict sub => ret (getopt sub key)
  | _ => raise AttributeError
  end.

(** [d.setdefault(k, {}).update(other)] *)
Definition setdefault_update (d : dict) (k : string) (other : dict) : M dict :=
  let d := if dict_mem d k then d else dict_set d k (PDict []) in
  sub_update d k other.

Definition count_velocity (index_paths : IndexPaths) (t2g_path cdna_t2c_path
    intron_t2c_path technology out_dir : string) (fastqs : Fastqs)
    (whitelist_path : option string) (tcc mm : bool) (filter : option string)
    (filter_threshold : option Z) (temp_dir : string) (threads : Z)
    (memory : string) (overwrite loom h5ad cellranger report inspect
    nucleus : bool) (strand : option string) (umi_gene em : bool) : M dict :=
  emit StatsStart ;;
  let index_paths := as_list index_paths in
  make_directory out_dir ;;
  let unfiltered_results : dict := [] in
  let bus_result :=
    dict_of [("bus", PStr (join out_dir BUS_FILENAME));
             ("ecmap", PStr (join out_dir ECMAP_FILENAME));
             ("txnames", PStr (join out_dir TXNAMES_FILENAME));
             ("info", PStr (join out_dir KALLISTO_INFO_FILENAME))] in
  missing <- any_missing bus_result ;;
  bus_result <-
    (if orb missing overwrite then
       bus_stage fastqs index_paths technology out_dir temp_dir threads
         memory false strand false
     else ret bus_result) ;;
  let unfiltered_results := dict_update unfiltered_results bus_result in
  bus <- getstr bus_result "bus" ;;
  sort_result <- bustools_sort bus
      (join temp_dir (update_filename (basename bus) SORT_CODE))
      temp_dir threads memory false ;;
  wl <-
    (if negb (truthy whitelist_path) then
       sorted <- getstr sort_result "bus" ;;
       w <- copy_or_create_whitelist technology sorted out_dir ;;
       ret (Some w, dict_update unfiltered_results [("whitelist", PStr w)])
     else ret (whitelist_path, unfiltered_results)) ;;
  let whitelist_path := fst wl in
  let unfiltered_results := snd wl in
  unfiltered_results <-
    (if inspect then
       sorted <- getstr sort_result "bus" ;;
       inspect_result <- bustools_inspect sorted
           (join out_dir INSPECT_FILENAME) whitelist_path None ;;
       ret (dict_update unfiltered_results inspect_result)
     else ret unfiltered_results) ;;
  sorted <- getstr sort_result "bus" ;;
  correct_result <- bustools_correct sorted
      (join temp_dir (update_filename (basename sorted) CORRECT_CODE))
      whitelist_path ;;
  corrected <- getstr correct_result "bus" ;;
  sort2_result <- bustools_sort corrected
      (join out_dir ("output." ++ UNFILTERED_CODE ++ ".bus"))
      temp_dir threads memory false ;;
  sorted2 <- getstr sort2_result "bus" ;;
  let unfiltered_results :=
    dict_update unfiltered_results [("bus_scs", PStr sorted2)] in
  let prefixes := [BUS_CDNA_PREFIX; BUS_INTRON_PREFIX] in
  let prefix_to_t2c : odict string :=
    dict_of [(BUS_CDNA_PREFIX, intron_t2c_path);
             (BUS_INTRON_PREFIX, cdna_t2c_path)] in
  let counts_dir := join out_dir UNFILTERED_COUNTS_DIR in
  make_directory counts_dir ;;
  unfiltered_results <-
    foldM (fun unfiltered_results (item : string * string) =>
        let '(prefix, t2c_path) := item in
        sorted2 <- getstr sort2_result "bus" ;;
        ecmap <- getstr bus_result "ecmap" ;;
        txnames <- getstr bus_result "txnames" ;;
        capture_result <- bustools_capture sorted2
            (join temp_dir (prefix ++ ".bus")) t2c_path (Some ecmap)
            (Some txnames) "transcripts" true ;;
        captured <- getstr capture_result "bus" ;;
        sort_result <- bustools_sort captured
            (join out_dir (prefix ++ "." ++ UNFILTERED_CODE ++ ".bus"))
            temp_dir threads memory false ;;
        let unfiltered_results :=
          if negb (dict_mem unfiltered_results prefix)
          then dict_set unfiltered_results prefix (PDict [])
          else unfiltered_results in
        unfiltered_results <- sub_update unfiltered_results prefix sort_result ;;
        unfiltered_results <-
          (if inspect then
             sorted <- getstr sort_result "bus" ;;
             inspect_result <- bustools_inspect sorted
                 (join out_dir (update_filename INSPECT_FILENAME prefix))
                 whitelist_path None ;;
             sub_update unfiltered_results prefix inspect_result
           else ret unfiltered_results) ;;
        let counts_prefix := join counts_dir prefix in
        sorted <- getstr sort_result "bus" ;;
        ecmap <- getstr bus_result "ecmap" ;;
        txnames <- getstr bus_result "txnames" ;;
        count_result <- bustools_count sorted counts_prefix t2g_path ecmap
                          txnames tcc (orb mm tcc) false umi_gene em ;;
        unfiltered_results <- sub_update unfiltered_results prefix count_result ;;
        (if cellranger then
           if negb tcc then
             mtx <- getstr count_result "mtx" ;;
             barcodes <- getstr count_result "barcodes" ;;
             genes <- getstr count_result "genes" ;;
             cr_result <- matrix_to_cellranger mtx barcodes genes t2g_path
                 (join counts_dir (CELLRANGER_DIR ++ "_" ++ prefix)) ;;
             sub_update unfiltered_results prefix
               [("cellranger", PDict cr_result)]
           else ret unfiltered_results
         else ret unfiltered_results))
      unfiltered_results prefix_to_t2c ;;
  unfiltered_results <-
    (if orb loom h5ad then
       mtxs <- mapM (fun prefix => sub_getstr unfiltered_results prefix "mtx")
                 prefixes ;;
       barcodes <- mapM (fun prefix =>
                           sub_getstr unfiltered_results prefix "barcodes")
                     prefixes ;;
       genes <- mapM (fun prefix => sub_getopt unfiltered_results prefix "genes")
                  prefixes ;;
       ecs <- mapM (fun prefix => sub_getopt unfiltered_results prefix "ec")
                prefixes ;;
       txnames <- getstr bus_result "txnames" ;;
       converted <- convert_matrices counts_dir mtxs barcodes genes ecs
                      (Some t2g_path) (Some txnames) "gene" loom h5ad nucleus
                      tcc 8 ;;
       ret (dict_update unfiltered_results converted)
     else ret unfiltered_results) ;;
  flt <-
    (if truthy filter then
       let filtered_results : dict := [] in
       st <-
         (if match filter with
             | Some f => String.eqb f "bustools"
             | None => false
             end
          then
            sorted2 <- getstr sort2_result "bus" ;;
            ecmap <- getstr bus_result "ecmap" ;;
            txnames <- getstr bus_result "txnames" ;;
            r <- filter_with_bustools sorted2 ecmap txnames t2g_path
                   (join out_dir FILTER_WHITELIST_FILENAME)
                   (join out_dir ("output." ++ FILTERED_CODE ++ ".bus"))
                   filter_threshold None false false false temp_dir 8 memory
                   false false false false umi_gene em ;;
            let filtered_results := dict_update filtered_results r in
            foldM (fun (st : dict * dict * option string)
                       (item : string * string) =>
                let '(filtered_results, unfiltered_results, _) := st in
                let '(prefix, t2c_path) := item in
                filtered_bus <- getstr filtered_results "bus_scs" ;;
                ecmap <- getstr bus_result "ecmap" ;;
                txnames <- getstr bus_result "txnames" ;;
                filtered_capture_result <- bustools_capture filtered_bus
                    (join temp_dir (prefix ++ ".bus")) t2c_path (Some ecmap)
                    (Some txnames) "transcripts" true ;;
                captured <- getstr filtered_capture_result "bus" ;;
                filtered_sort_result <- bustools_sort captured
                    (join out_dir (prefix ++ "." ++ FILTERED_CODE ++ ".bus"))
                    temp_dir threads memory false ;;
                filtered_results <- setdefault_update filtered_results prefix
                                      filtered_sort_result ;;
                let filtered_counts_dir := join out_dir FILTERED_COUNTS_DIR in
                make_directory filtered_counts_dir ;;
                let filtered_counts_prefix := join filtered_counts_dir prefix in
                sorted <- getstr filtered_sort_result "bus" ;;
                ecmap <- getstr bus_result "ecmap" ;;
                txnames <- getstr bus_result "txnames" ;;
                count_result <- bustools_count sorted filtered_counts_prefix
                    t2g_path ecmap txnames tcc (orb mm tcc) false umi_gene em ;;
                filtered_results <- sub_update filtered_results prefix
                                      count_result ;;
                unfiltered_results <-
                  (if cellranger then
                     if negb tcc then
                       mtx <- getstr count_result "mtx" ;;
                       barcodes <- getstr count_result "barcodes" ;;
                       genes <- getstr count_result "genes" ;;
                       cr_result <- matrix_to_cellranger mtx barcodes genes
                           t2g_path
                           (join filtered_counts_dir
                                 (CELLRANGER_DIR ++ "_" ++ prefix)) ;;
                       sub_update unfiltered_results prefix
                         [("cellranger", PDict cr_result)]
                     else ret unfiltered_results
                   else ret unfiltered_results) ;;
                ret (filtered_results, unfiltered_results,
                     Some filtered_counts_dir))
              (filtered_results, unfiltered_results, None) prefix_to_t2c
          else ret (filtered_results, unfiltered_results, None)) ;;
       let '(filtered_results, unfiltered_results, filtered_counts_dir) := st in
       filtered_results <-
         (if orb loom h5ad then
            filtered_counts_dir <- bound "filtered_counts_dir"
                                     filtered_counts_dir ;;
            mtxs <- mapM (fun prefix =>
                            sub_getstr filtered_results prefix "mtx") prefixes ;;
            barcodes <- mapM (fun prefix =>
                                sub_getstr filtered_results prefix "barcodes")
                          prefixes ;;
            genes <- mapM (fun prefix =>
                             sub_getopt filtered_results prefix "genes")
                       prefixes ;;
            ecs <- mapM (fun prefix => sub_getopt filtered_results prefix "ec")
                     prefixes ;;
            txnames <- getstr bus_result "txnames" ;;
            converted <- convert_matrices filtered_counts_dir mtxs barcodes
                           genes ecs (Some t2g_path) (Some txnames) "gene"
                           loom h5ad nucleus tcc 8 ;;
            ret (dict_update filtered_results converted)
          else ret filtered_results) ;;
       ret (Some filtered_results, unfiltered_results)
     else ret (None, unfiltered_results)) ;;
  let filtered := fst flt in
  let unfiltered_results := snd flt in
  emit StatsEnd ;;
  stats_path <- stats_save (join out_dir KB_INFO_FILENAME) ;;
  unfiltered_results <-
    (if report then
       let nb_path := join out_dir REPORT_NOTEBOOK_FILENAME in
       let html_path := join out_dir REPORT_HTML_FILENAME in
       info <- getstr bus_result "info" ;;
       inspected <- getstr unfiltered_results "inspect" ;;
       report_result <- render_report stats_path info inspected nb_path
                          html_path None None None None temp_dir ;;
       let unfiltered_results := dict_update unfiltered_results report_result in
       foldM (fun unfiltered_results (item : string * string) =>
           let prefix := fst item in
           let nb_path :=
             join out_dir (update_filename REPORT_NOTEBOOK_FILENAME prefix) in
           let html_path :=
             join out_dir (update_filename REPORT_HTML_FILENAME prefix) in
           info <- getstr bus_result "info" ;;
           inspected <- sub_getstr unfiltered_results prefix "inspect" ;;
           mtx <- sub_getstr unfiltered_results prefix "mtx" ;;
           barcodes <- sub_getopt unfiltered_results prefix "barcodes" ;;
           genes <- sub_getopt unfiltered_results prefix "genes" ;;
           report_result <- render_report stats_path info inspected nb_path
                              html_path (Some mtx) barcodes genes
                              (Some t2g_path) temp_dir ;;
           sub_update unfiltered_results prefix report_result)
         unfiltered_results prefix_to_t2c
     else ret unfiltered_results) ;;
  let results := dict_of [("unfiltered", PDict unfiltered_results)] in
  let results := match filtered with
                 | Some r => dict_set results "filtered" (PDict r)
                 | None => results
                 end in
  ret (dict_update results [("stats", PStr stats_path)]).

End Pipeline.

(** ** A sample environment

    Concrete file names and a concrete outside world, used where a statement
    is evaluated on an explicit input. *)

Definition sample_constants : Constants := {|
  ABUNDANCE_FILENAME := "matrix.abundance.mtx";
  ABUNDANCE_GENE_FILENAME := "matrix.abundance.gene.mtx";
  ABUNDANCE_GENE_TPM_FILENAME := "matrix.abundance.gene.tpm.mtx";
  ABUNDANCE_TPM_FILENAME := "matrix.abundance.tpm.mtx";
  ADATA_PREFIX := "adata";
  BATCH_FILENAME := "batch.txt";
  BUS_CDNA_PREFIX := "spliced";
  BUS_FILENAME := "output.bus";
  BUS_INTRON_PREFIX := "unspliced";
  BUS_MASHED_FILENAME := "mashed.bus";
  BUS_MERGED_FILENAME := "merged.bus";
  CAPTURE_FILENAME := "capture.txt";
  CELLRANGER_BARCODES := "barcodes.tsv";
  CELLRANGER_DIR := "cellranger";
  CELLRANGER_GENES := "genes.tsv";
  CELLRANGER_MATRIX := "matrix.mtx";
  CELLS_FILENAME := "matrix.cells";
  CORRECT_CODE := "c";
  COUNTS_PREFIX := "cells_x_genes";
  ECMAP_FILENAME := "matrix.ec";
  ECMAP_MERGED_FILENAME := "merged.ec";
  FEATURE_NAME := "feature";
  FEATURE_PREFIX := "cells_x_features";
  FILTER_WHITELIST_FILENAME := "filter_barcodes.txt";
  FILTERED_CODE := "filtered";
  FILTERED_COUNTS_DIR := "counts_filtered";
  FLD_FILENAME := "fld.txt";
  FLENS_FILENAME := "flens.txt";
  GENE_NAME := "gene";
  GENES_FILENAME := "genes.txt";
  INSPECT_FILENAME := "inspect.json";
  INTERNAL_SUFFIX := "_internal";
  KALLISTO_INFO_FILENAME := "run_info.json";
  KB_INFO_FILENAME := "kb_info.json";
  PROJECT_CODE := "p";
  REPORT_HTML_FILENAME := "report.html";
  REPORT_NOTEBOOK_FILENAME := "report.ipynb";
  SAVED_INDEX_FILENAME := "index.saved";
  SORT_CODE := "s";
  TCC_PREFIX := "cells_x_tcc";
  TRANSCRIPT_NAME := "transcript";
  TXNAMES_FILENAME := "transcripts.txt";
  UMI_SUFFIX := "_umi";
  UNFILTERED_CODE := "unfiltered";
  UNFILTERED_COUNTS_DIR := "counts_unfiltered";
  UNFILTERED_QUANT_DIR := "quant_unfiltered";
  WHITELIST_FILENAME := "whitelist.txt"
|}.

(** No whitelist is packaged, nothing is remote, and a file name is updated
    by appending the code. *)
Definition sample_helpers : Helpers := {|
  update_filename := fun filename code => (filename ++ "." ++ code)%string;
  whitelist_provided := fun _ => false;
  urlparse_scheme := fun _ => EmptyString
|}.

(** Nothing exists yet; the n-th effect gets the temporary name [tmp/n]. *)
Definition sample_world : World := {|
  path_exists := fun _ _ => false;
  temporary_filename := fun h dir => join dir (str_of_nat (length h));
  stream_file_result := fun _ _ path => path;
  copy_whitelist_result := fun _ _ out_dir => join out_dir "whitelist.txt";
  copy_map_result := fun _ _ out_dir => join out_dir "map.txt";
  stats_save_result := fun _ path => path;
  render_report_result := fun _ => [];
  dry_call_result := fun _ _ args => hd EmptyString args
|}.

(** Every text file holds the two lines [ENST1] and a blank line; every
    table maps [ENST1] to [ENSG1]. *)
Definition sample_contents : Contents := {|
  file_lines := fun _ _ => [("ENST1" ++ nl)%string; nl];
  json_items := fun _ _ => [("n_processed", "10")];
  t2g_table := fun _ _ => [("ENST1", ["ENSG1"; "GENE1"])]
|}.

Definition sample_globals : config.Globals :=
  config.mkGlobals (Some "kallisto") (Some "bustools") false true.

End count.

Import count.

(* ===================================================================== *)
(** * Properties of config.py                                             *)
(* ===================================================================== *)

Section ConfigProperties.

Import config.

(** The path a setter works with when its argument resolves: the absolute
    path of what [shutil.which] found, else of the argument itself when it is
    an existing file. *)
Definition resolved_path (os : OS) (path : string) : option string :=
  match which os path with
  | Some p =>
      if truthy (Some p) then Some (abspath os p)
      else if isfile os path then Some (abspath os path) else None
  | None => if isfile os path then Some (abspath os path) else None
  end.

Lemma resolve_resolved os path :
  resolve os path =
  match resolved_path os path with
  | Some p => inr p
  | None => inl (Exception ("Unable to resolve path " ++ path))
  end.
Proof.
  unfold resolve, resolved_path.
  destruct (which os path) as [p|]; simpl.
  - destruct (negb (p =? EmptyString)); [reflexivity|].
    destruct (isfile os path); reflexivity.
  - destruct (isfile os path); reflexivity.
Qed.

Lemma resolved_path_none os path :
  resolved_path os path = None <->
  truthy (which os path) = false /\ isfile os path = false.
Proof.
  unfold resolved_path.
  destruct (which os path) as [p|]; simpl.
  - destruct (negb (p =? EmptyString)); simpl.
    + split; [discriminate | intros [H _]; discriminate].
    + destruct (isfile os path); split; try discriminate; auto.
      intros [_ H]; discriminate.
  - destruct (isfile os path); split; try discriminate; auto.
    intros [_ H]; discriminate.
Qed.

(** The behaviour shared by the two setters, stated for a setter [set] and
    the projection [proj] of the global it assigns. *)
Definition setter_spec
    (set : OS -> string -> Globals -> Globals * (Exn + unit))
    (proj : Globals -> option string) : Prop :=
  forall os path g,
    let g' := fst (set os path g) in
    let r := snd (set os path g) in
    (* the plain exception, exactly when nothing resolves *)
    (r = inl (Exception ("Unable to resolve path " ++ path)) <->
       (truthy (which os path) = false /\ isfile os path = false)) /\
    (* resolved but not executable *)
    (forall p, resolved_path os path = Some p -> access_X_OK os p = false ->
       r = inl (NotExecutableException (p ++ " is not executable"))) /\
    (* every error leaves the globals as they were *)
    (forall e, r = inl e -> g' = g) /\
    (* success: resolved, executable, and the global holds the absolute path *)
    (r = inr tt <->
       exists p, resolved_path os path = Some p /\ access_X_OK os p = true) /\
    (r = inr tt ->
       exists p, resolved_path os path = Some p /\ proj g' = Some p) /\
    (* one of the three outcomes always happens *)
    (r = inr tt \/ (exists m, r = inl (Exception m)) \/
       (exists m, r = inl (NotExecutableException m))).

Lemma setter_spec_gen set proj
  (Hset : forall os path g,
     set os path g =
     match resolve os path with
     | inl e => (g, inl e)
     | inr p =>
         if negb (access_X_OK os p)
         then (g, inl (NotExecutableException (p ++ " is not executable")))
         else (fst (set os path g), inr tt)
     end)
  (Hproj : forall os path g p,
     resolve os path = inr p -> access_X_OK os p = true ->
     proj (fst (set os path g)) = Some p) :
  setter_spec set proj.
Proof.
  intros os path g g' r. subst g' r.
  specialize (Hset os path g). specialize (Hproj os path g).
  rewrite resolve_resolved in Hset, Hproj.
  pose proof (resolved_path_none os path) as Hnone.
  destruct (resolved_path os path) as [p|] eqn:Hres.
  - assert (Hne : ~ (truthy (which os path) = false /\ isfile os path = false)).
    { intro H. apply Hnone in H. discriminate. }
    destruct (access_X_OK os p) eqn:Hx; simpl in Hset; rewrite Hset; simpl.
    + split; [split; [discriminate | tauto]|].
      split; [intros q Hq Hq'; injection Hq as <-; congruence|].
      split; [discriminate|].
      split; [split; [intros _; exists p; auto | reflexivity]|].
      split; [intros _; exists p; split; auto | left; reflexivity].
    + split; [split; [discriminate | tauto]|].
      split; [intros q Hq Hq'; injection Hq as <-; reflexivity|].
      split; [reflexivity|].
      split; [split; [discriminate
                     | intros (q & Hq & Hq'); injection Hq as <-; congruence]|].
      split; [discriminate | right; right; eexists; reflexivity].
  - rewrite Hset; simpl.
    split; [split; [intros _; apply Hnone; reflexivity | reflexivity]|].
    split; [discriminate|].
    split; [reflexivity|].
    split; [split; [discriminate | intros (q & Hq & _); discriminate]|].
    split; [discriminate | right; left; eexists; reflexivity].
Qed.

(** C8. [set_kallisto_binary_path], and in the same way
    [set_bustools_binary_path], raises the plain [Exception] exactly when the
    argument resolves neither through the executable search path nor to an
    existing file, raises [NotExecutableException] when the resolved file is
    not executable, leaves the globals untouched in every error case, and on
    success stores the absolute resolved path in [KALLISTO_PATH]
    (respectively [BUSTOOLS_PATH]). *)
Theorem C8_set_binary_path :
  setter_spec set_kallisto_binary_path KALLISTO_PATH /\
  setter_spec set_bustools_binary_path BUSTOOLS_PATH.
Proof.
  split; apply setter_spec_gen.
  - intros os path g. unfold set_kallisto_binary_path.
    destruct (resolve os path); [reflexivity|].
    destruct (negb (access_X_OK os s)); reflexivity.
  - intros os path g p Hr Hx. unfold set_kallisto_binary_path.
    rewrite Hr, Hx. reflexivity.
  - intros os path g. unfold set_bustools_binary_path.
    destruct (resolve os path); [reflexivity|].
    destruct (negb (access_X_OK os s)); reflexivity.
  - intros os path g p Hr Hx. unfold set_bustools_binary_path.
    rewrite Hr, Hx. reflexivity.
Qed.

End ConfigProperties.

(* ===================================================================== *)
(** * Running the computations of count.py                                *)
(* ===================================================================== *)

(** ** Running a computation step by step *)

Definition cons_trace {A} (e : Event) (p : list Event * (Exn + A))
  : list Event * (Exn + A) := (e :: fst p, snd p).

Definition app_trace {A} (d : list Event) (p : list Event * (Exn + A))
  : list Event * (Exn + A) := (d ++ fst p, snd p).

Lemma rev_append_app {A} (d d1 h : list A) :
  rev_append (d ++ d1) h = rev_append d1 (rev_append d h).
Proof. revert h. induction d as [|x d IH]; intros h; simpl; auto. Qed.

Lemma run_ret {A} (a : A) h : ret a h = ([], inr a).
Proof. reflexivity. Qed.

Lemma run_bind_ret {A B} (a : A) (k : A -> M B) h : bind (ret a) k h = k a h.
Proof. unfold bind, ret. simpl. now destruct (k a h). Qed.

Lemma run_bind_emit {B} (e : Event) (k : unit -> M B) h :
  bind (emit e) k h = cons_trace e (k tt (e :: h)).
Proof. unfold bind, emit, cons_trace. simpl. now destruct (k tt (e :: h)). Qed.

Lemma run_bind_ask {A B} (q : History -> A) (k : A -> M B) h :
  bind (ask q) k h = k (q h) h.
Proof. unfold bind, ask. simpl. now destruct (k (q h) h). Qed.

Lemma run_bind_raise {A B} (e : Exn) (k : A -> M B) h :
  bind (raise e) k h = ([], inl e).
Proof. reflexivity. Qed.

Lemma run_bind_bind {A B C} (m : M A) (f : A -> M B) (k : B -> M C) h :
  bind (bind m f) k h = bind m (fun a => bind (f a) k) h.
Proof.
  unfold bind. destruct (m h) as [d [e|a]]; [reflexivity|].
  destruct (f a (rev_append d h)) as [d1 [e|b]]; [reflexivity|].
  rewrite rev_append_app.
  destruct (k b _) as [d2 r2]. now rewrite app_assoc.
Qed.

Lemma run_bind_if {A B} (b : bool) (m1 m2 : M A) (k : A -> M B) h :
  bind (if b then m1 else m2) k h = if b then bind m1 k h else bind m2 k h.
Proof. now destruct b. Qed.

Lemma run_bind_known {A B} {m : M A} (k : A -> M B) {h d a} :
  m h = (d, inr a) -> bind m k h = app_trace d (k a (rev_append d h)).
Proof.
  unfold bind, app_trace. intros ->. now destruct (k a (rev_append d h)).
Qed.

Lemma run_bind_failed {A B} {m : M A} (k : A -> M B) {h d e} :
  m h = (d, inl e) -> bind m k h = (d, inl e).
Proof. unfold bind. now intros ->. Qed.

Lemma run_bind_getstr {B} (d : dict) key (k : string -> M B) h :
  bind (getstr d key) k h =
  match dict_get d key with
  | Some (PStr s) => k s h
  | Some _ => ([], inl TypeError)
  | None => ([], inl (KeyError key))
  end.
Proof.
  unfold getstr, getitem. rewrite run_bind_bind.
  destruct (dict_get d key) as [[| s | d']|]; try reflexivity.
  now rewrite !run_bind_ret.
Qed.

Lemma run_bind_first {A B} (l : list A) (k : A -> M B) h :
  bind (first l) k h =
  match l with
  | x :: _ => k x h
  | [] => ([], inl IndexError)
  end.
Proof. destruct l; [reflexivity|]. apply run_bind_ret. Qed.

Lemma run_bind_bound {A B} name (v : option A) (k : A -> M B) h :
  bind (bound name v) k h =
  match v with
  | Some a => k a h
  | None => ([], inl (UnboundLocalError name))
  end.
Proof. destruct v; [|reflexivity]. apply run_bind_ret. Qed.

Lemma cons_trace_pair {A} e tr (r : Exn + A) :
  cons_trace e (tr, r) = (e :: tr, r).
Proof. reflexivity. Qed.

Lemma app_trace_pair {A} d tr (r : Exn + A) :
  app_trace d (tr, r) = (d ++ tr, r).
Proof. reflexivity. Qed.

Lemma run_bind_run {B} c (r : dict) (k : dict -> M B) h :
  bind (bind (emit (Run c)) (fun _ => ret r)) k h =
  cons_trace (Run c) (k r (Run c :: h)).
Proof. now rewrite run_bind_bind, run_bind_emit, run_bind_ret. Qed.

Create HintDb py.
#[global] Hint Unfold run_executable move_file make_directory
  get_temporary_filename stream_file copy_whitelist copy_map read_lines
  read_t2g json_load stats_save render_report any_missing
  kallisto_pseudo kallisto_bus kallisto_quant_tcc bustools_merge
  bustools_project bustools_sort bustools_inspect bustools_correct
  bustools_count bustools_capture bustools_whitelist
  write_smartseq_batch convert_transcripts_to_genes matrix_to_cellranger
  write_adata import_adata convert_matrix copy_or_create_whitelist
  bustools_mash filter_with_bustools
  : py.

Ltac norm := cbv beta iota zeta; cbn [fst snd].

(** One step of evaluation at the head of the computation. *)
Ltac step :=
  lazymatch goal with
  | H : ?X ?h = (_, inr _) |- context [@bind _ _ ?X ?k ?h] =>
      rewrite (run_bind_known k H); norm
  | H : ?X ?h = (_, inl _) |- context [@bind _ _ ?X ?k ?h] =>
      rewrite (run_bind_failed k H); norm
  | |- context [@bind ?A ?B ?X ?k ?h] =>
      lazymatch X with
      | bind _ _ => rewrite (@run_bind_bind _ _ _ _ _ k h)
      | ret _ => rewrite (@run_bind_ret _ _ _ k h); norm
      | emit _ => rewrite (@run_bind_emit _ _ k h); norm
      | ask _ => rewrite (@run_bind_ask _ _ _ k h); norm
      | raise _ => rewrite (@run_bind_raise _ _ _ k h)
      | getstr ?d ?key =>
          lazymatch goal with
          | H : dict_get d key = _ |- _ =>
              rewrite (@run_bind_getstr _ d key k h), H; norm
          | _ =>
          let v := eval hnf in (dict_get d key) in
          lazymatch v with
          | Some _ =>
              rewrite (@run_bind_getstr _ d key k h);
              change (dict_get d key) with v; norm
          | None =>
              rewrite (@run_bind_getstr _ d key k h);
              change (dict_get d key) with v; norm
          | _ =>
              lazymatch d with
              | context [if ?b then _ else _] =>
                  let E := fresh "E" in destruct b eqn:E
              end
          end
          end
      | first _ => rewrite (@run_bind_first _ _ _ k h); norm
      | bound _ _ => rewrite (@run_bind_bound _ _ _ _ k h); norm
      | (if ?b then _ else _) =>
          let b' := eval cbn in b in
          first [ is_constructor b'; change b with b'; norm
                | let E := fresh "E" in destruct b eqn:E ]
      | (match ?b with _ => _ end) =>
          first [ progress norm
                | let E := fresh "E" in destruct b eqn:E ]
      | (let _ := _ in _) => norm
      | _ => progress (autounfold with py); norm
      end
  | |- context [@ret ?A ?a ?h] => rewrite (@run_ret A a h)
  end.

Ltac steps :=
  repeat step; cbv beta iota delta [cons_trace app_trace fst snd];
  rewrite ?app_nil_r.


(* ===================================================================== *)
(** * Properties                                                          *)
(* ===================================================================== *)

(** ** Shapes of traces *)

(** A computation that does nothing but hand one command to
    [run_executable] and return. *)
Definition shells_out_once {A} (m : M A) : Prop :=
  forall h, exists command r, m h = ([Run command], inr r).

Definition is_run (e : Event) : bool :=
  match e with Run _ => true | _ => false end.

Definition is_stream (e : Event) : bool :=
  match e with StreamFile _ _ => true | _ => false end.

(** Effects that read or write the contents of a file. *)
Definition touches_contents (e : Event) : bool :=
  match e with
  | ReadLines _ | WriteLines _ _ | JsonLoad _ | JsonDump _ _ | ReadT2G _
  | MMRead _ | MMWriteTransposed _ _ _ => true
  | _ => false
  end.

(** A computation that runs no command but reads or writes file contents. *)
Definition processes_files_itself {A} (m : M A) : Prop :=
  forall h, existsb is_run (trace m h) = false /\
            existsb touches_contents (trace m h) = true.

(** The optional flags of a [bustools count] command: what stands between
    the ten leading elements and the BUS file at the end. *)
Definition count_flags (command : list arg) : list arg :=
  removelast (skipn 10 command).

Definition nonblank (line : string) : bool := negb (isspace line).

(** The directory of the [i]-th part of a split run. *)
Definition part_dir (temp_dir : string) (i : nat) : string :=
  join temp_dir ("bus_part" ++ str_of_nat i).

(** One index shard of [kallisto_bus_split]: its index, its part directory,
    and what the outside world contributed while it was processed (the
    streaming of remote inputs, the local FASTQ names, the temporary name). *)
Record Shard : Type := mkShard {
  shard_index : string;
  shard_dir : string;
  shard_streamed : list Event;
  shard_fastqs : list string;
  shard_tmp : string
}.

(** ** Auxiliary facts on lists and strings *)

Lemma fold_left_snoc_filter {A B} (p : A -> bool) (g : A -> B) l acc :
  fold_left (fun out x => if p x then out else out ++ [g x]) l acc =
  acc ++ map g (filter (fun x => negb (p x)) l).
Proof.
  revert acc. induction l as [|x l IH]; intros acc; simpl.
  - now rewrite app_nil_r.
  - rewrite IH. destruct (p x); simpl; [reflexivity|].
    now rewrite <- app_assoc.
Qed.

Lemma str_of_nat_inj n m : str_of_nat n = str_of_nat m -> n = m.
Proof.
  unfold str_of_nat. intros E.
  apply (f_equal NilEmpty.uint_of_string) in E.
  rewrite !NilEmpty.usu in E. injection E as E.
  apply (f_equal Nat.of_uint) in E.
  now rewrite !Unsigned.of_to in E.
Qed.

Lemma append_inj_l (a b c : string) : (a ++ b = a ++ c)%string -> b = c.
Proof. induction a as [|x a IH]; simpl; [auto|]. intros E. injection E. auto. Qed.

Lemma join_relative_inj a b c :
  starts_with_char slash b = false -> starts_with_char slash c = false ->
  join a b = join a c -> b = c.
Proof.
  unfold join. intros -> ->.
  destruct (orb (a =? EmptyString) (ends_with_char slash a)); intros E.
  - now apply append_inj_l in E.
  - apply append_inj_l in E. now injection E.
Qed.

Lemma part_dir_inj temp_dir i j :
  part_dir temp_dir i = part_dir temp_dir j -> i = j.
Proof.
  unfold part_dir. intros E. apply join_relative_inj in E; try reflexivity.
  apply str_of_nat_inj. now apply (append_inj_l "bus_part").
Qed.

Lemma part_dirs_NoDup temp_dir i0 n :
  NoDup (map (part_dir temp_dir) (seq i0 n)).
Proof.
  apply Injective_map_NoDup; [|apply seq_NoDup].
  intros i j. apply part_dir_inj.
Qed.

Section Properties.

Context {consts : Constants} {helpers : Helpers} {world : World}
        {contents : Contents}.
Variable cfg : config.Globals.

(** A pair of FASTQs one of which is remote. *)
Definition remote_pair (pair : string * string) : bool :=
  orb (in_url_schemes (fst pair)) (in_url_schemes (snd pair)).

(** ** The wrappers *)

(** C4. [bustools_count] passes [--genecounts] exactly when [tcc] is false,
    and its result maps [mtx] and [barcodes] to the prefixed names, [ec] to
    the [.ec.txt] file when [tcc] is true and [genes] to the [.genes.txt]
    file when it is false (and has no other key). *)
Theorem C4_bustools_count :
  forall bus_path out_prefix t2g_path ecmap_path txnames_path
         tcc mm cm umi_gene em h,
  exists command result,
    bustools_count cfg bus_path out_prefix t2g_path ecmap_path txnames_path
      tcc mm cm umi_gene em h = ([Run command], inr result) /\
    command = [bustools cfg; AStr "count"; AStr "-o"; AStr out_prefix;
               AStr "-g"; AStr t2g_path; AStr "-e"; AStr ecmap_path;
               AStr "-t"; AStr txnames_path]
              ++ count_flags command ++ [AStr bus_path] /\
    (In (AStr "--genecounts") (count_flags command) <-> tcc = false) /\
    dict_get result "mtx" = Some (PStr (out_prefix ++ ".mtx")) /\
    dict_get result "barcodes" = Some (PStr (out_prefix ++ ".barcodes.txt")) /\
    dict_get result "ec" =
      (if tcc then Some (PStr (out_prefix ++ ".ec.txt")) else None) /\
    dict_get result "genes" =
      (if tcc then None else Some (PStr (out_prefix ++ ".genes.txt"))) /\
    map fst result = ["mtx"; if tcc then "ec" else "genes"; "barcodes"].
Proof.
  intros. unfold bustools_count, bustools_count_command, run_executable.
  destruct tcc, mm, cm, umi_gene, em; cbn;
    do 2 eexists; (split; [reflexivity|]); cbn;
    repeat split; try reflexivity; try discriminate;
    cbn; intuition discriminate.
Qed.

(** The loop of [bustools_mash] reads the run information of every part. *)
Lemma combine_run_info_runs out_dirs h :
  exists run_info,
    combine_run_info out_dirs h =
    (map (fun o => JsonLoad (join o KALLISTO_INFO_FILENAME)) out_dirs,
     inr run_info).
Proof.
  unfold combine_run_info, json_load.
  generalize (@nil (string * list string)).
  revert h. induction out_dirs as [|o l IH]; intros h run_info; cbn [foldM map].
  - eexists; reflexivity.
  - repeat step.
    match goal with |- context [foldM ?f ?s l ?h'] =>
      destruct (IH h' s) as [ri Hri]; rewrite Hri end.
    steps. eexists; reflexivity.
Qed.

Lemma bustools_mash_runs out_dirs out_dir h :
  exists run_info,
    bustools_mash cfg out_dirs out_dir h =
    (Run (bustools_mash_command cfg out_dirs out_dir)
       :: (if config.is_dry cfg then []
           else map (fun o => JsonLoad (join o KALLISTO_INFO_FILENAME)) out_dirs
                ++ [JsonDump (join out_dir KALLISTO_INFO_FILENAME) run_info]),
     inr [("bus", PStr (join out_dir BUS_MASHED_FILENAME));
          ("ecmap", PStr (join out_dir ECMAP_FILENAME));
          ("txnames", PStr (join out_dir TXNAMES_FILENAME));
          ("info", if config.is_dry cfg then PNone
                   else PStr (join out_dir KALLISTO_INFO_FILENAME))]).
Proof.
  unfold bustools_mash, run_executable.
  destruct (config.is_dry cfg); cbn [negb].
  - steps. exists []. reflexivity.
  - repeat step.
    match goal with |- context [bind (combine_run_info _) _ ?h'] =>
      destruct (combine_run_info_runs out_dirs h') as [ri Hri] end.
    steps. exists ri. reflexivity.
Qed.


(** ** Split indices *)

Lemma stream_fastqs_runs fastqs temp_dir h :
  exists d l, stream_fastqs fastqs temp_dir h = (d, inr l) /\
              forallb is_stream d = true /\ length l = length (iterate fastqs).
Proof.
  unfold stream_fastqs, stream_file. generalize (iterate fastqs) as fs.
  intros fs. revert h.
  induction fs as [|f fs IH]; intros h; cbn [mapM length].
  - exists [], []. repeat split.
  - repeat step;
      match goal with |- context [bind (mapM ?g fs) ?k ?h'] =>
        destruct (IH h') as (d & l & Hrun & Hd & Hl) end;
      steps; do 2 eexists; (split; [reflexivity|]); simpl;
      (split; [assumption | now rewrite Hl]).
Qed.

Lemma kallisto_bus_command_num_kmer fastqs index_path technology out_dir
    threads paired strand :
  let command := kallisto_bus_command cfg fastqs index_path technology out_dir
                   threads true true paired strand in
  In (AStr "--num") command /\ In (AStr "--kmer") command.
Proof.
  unfold kallisto_bus_command.
  destruct fastqs, paired; cbn [isinstance_str negb]; cbv zeta;
    split;
    repeat first [ apply in_or_app; right; simpl; tauto
                 | apply in_or_app; left ].
Qed.

Section Split.

Variables (technology out_dir temp_dir : string) (threads : Z)
  (memory : string) (paired : bool) (strand : option string).

(** What one shard contributes to the trace: the streaming of its remote
    inputs, [kallisto bus] with [--num] and [--kmer] into the part
    directory, [bustools sort --flags] of the part into a temporary file,
    and the move of that file over the part's BUS file. *)
Definition shard_events (s : Shard) : list Event :=
  shard_streamed s ++
  [Run (kallisto_bus_command cfg (Files (shard_fastqs s)) (shard_index s)
          technology (shard_dir s) threads true true paired strand);
   TemporaryFile temp_dir (shard_tmp s);
   Run (bustools_sort_command cfg (join (shard_dir s) BUS_FILENAME)
          (shard_tmp s) temp_dir threads memory true);
   MoveFile (shard_tmp s) (join (shard_dir s) BUS_FILENAME)].

Lemma split_loop index_paths : forall i0 fastqs part_dirs h,
  exists shards fastqs',
    map shard_index shards = index_paths /\
    map shard_dir shards = map (part_dir temp_dir) (seq i0 (length index_paths)) /\
    Forall (fun s => forallb is_stream (shard_streamed s) = true) shards /\
    foldM (bus_split_part cfg technology temp_dir threads memory paired strand)
      (fastqs, part_dirs)
      (combine (seq i0 (length index_paths)) index_paths) h =
    (concat (map shard_events shards),
     inr (fastqs', part_dirs ++ map shard_dir shards)).
Proof.
  induction index_paths as [|ip ips IH]; intros i0 fastqs part_dirs h.
  - exists [], fastqs. simpl. rewrite app_nil_r. repeat split. constructor.
  - cbn [length seq combine foldM]. unfold bus_split_part at 1.
    destruct (stream_fastqs_runs fastqs temp_dir h) as (d & l & Hs & Hd & _).
    norm. repeat step.
    match goal with |- context [foldM _ ?s _ ?h'] =>
      destruct (IH (S i0) (fst s) (snd s) h')
        as (shards & fq & Hi & Hdirs & Hst & Hrun) end.
    cbn [fst snd] in Hrun. steps.
    rewrite Hrun.
    exists (mkShard ip (part_dir temp_dir i0) d l
              (temporary_filename
                 (Run (kallisto_bus_command cfg (Files l) ip technology
                         (part_dir temp_dir i0) threads true true paired strand)
                    :: rev_append d h) temp_dir) :: shards), fq.
    cbn [map shard_index shard_dir concat]. rewrite Hi, Hdirs.
    repeat split.
    + constructor; [exact Hd | exact Hst].
    + set (rest := concat (map shard_events shards)).
      unfold shard_events, part_dir.
      cbn [shard_streamed shard_fastqs shard_index shard_dir shard_tmp map].
      rewrite <- !app_assoc. reflexivity.
Qed.

(** What a run of [kallisto_bus_split] looks like. *)
Definition split_run (fastqs : Fastqs) (index_paths : list string)
    (h : History) : Prop :=
  exists shards run_info tmp,
    let part_dirs := map shard_dir shards in
    let mashed := join out_dir BUS_MASHED_FILENAME in
    map shard_index shards = index_paths /\
    part_dirs = map (part_dir temp_dir) (seq 0 (length index_paths)) /\
    NoDup part_dirs /\
    Forall (fun s => forallb is_stream (shard_streamed s) = true) shards /\
    (forall s, In (AStr "--num")
                 (kallisto_bus_command cfg (Files (shard_fastqs s))
                    (shard_index s) technology (shard_dir s) threads true
                    true paired strand) /\
               In (AStr "--kmer")
                 (kallisto_bus_command cfg (Files (shard_fastqs s))
                    (shard_index s) technology (shard_dir s) threads true
                    true paired strand)) /\
    kallisto_bus_split cfg fastqs index_paths technology out_dir temp_dir
      threads memory paired strand h =
    (concat (map shard_events shards)
     ++ Run (bustools_mash_command cfg part_dirs out_dir)
     :: (if config.is_dry cfg then []
         else map (fun o => JsonLoad (join o KALLISTO_INFO_FILENAME)) part_dirs
              ++ [JsonDump (join out_dir KALLISTO_INFO_FILENAME) run_info])
     ++ [TemporaryFile temp_dir tmp;
         Run (bustools_sort_command cfg mashed tmp temp_dir threads memory true);
         MoveFile tmp mashed;
         Run (bustools_merge_command cfg mashed out_dir
                (join out_dir ECMAP_FILENAME) (join out_dir TXNAMES_FILENAME));
         MoveFile (join out_dir BUS_MERGED_FILENAME) (join out_dir BUS_FILENAME);
         MoveFile (join out_dir ECMAP_MERGED_FILENAME)
                  (join out_dir ECMAP_FILENAME)],
     inr [("bus", PStr (join out_dir BUS_FILENAME));
          ("ecmap", PStr (join out_dir ECMAP_FILENAME));
          ("txnames", PStr (join out_dir TXNAMES_FILENAME));
          ("info", PStr (join out_dir KALLISTO_INFO_FILENAME))]).

Lemma kallisto_bus_split_runs fastqs index_paths h :
  split_run fastqs index_paths h.
Proof.
  unfold split_run, kallisto_bus_split.
  destruct (split_loop index_paths 0 fastqs [] h)
    as (shards & fq & Hi & Hdirs & Hst & Hloop).
  change ([] ++ map shard_dir shards) with (map shard_dir shards) in Hloop.
  step.
  match goal with |- context [bind (bustools_mash _ _ _) _ ?h'] =>
    destruct (bustools_mash_runs (map shard_dir shards) out_dir h')
      as (ri & Hmash) end.
  repeat step.
  eexists shards, ri, _. cbv zeta.
  split; [exact Hi|]. split; [exact Hdirs|].
  split; [rewrite Hdirs; apply part_dirs_NoDup|].
  split; [exact Hst|].
  split; [intros s; apply kallisto_bus_command_num_kmer|].
  cbv beta iota delta [cons_trace app_trace fst snd].
  reflexivity.
Qed.


End Split.

(** ** Transcripts to genes *)

Lemma convert_loop (t2g : odict (list string)) lines acc :
  fold_left (fun out line =>
               if isspace line then out
               else match dict_get t2g (strip line) with
                    | Some (gene :: _) => out ++ [(gene ++ nl)%string]
                    | _ => out ++ [(strip line ++ nl)%string]
                    end) lines acc =
  acc ++ map (gene_or_transcript t2g) (filter nonblank lines).
Proof.
  rewrite <- (fold_left_snoc_filter isspace (gene_or_transcript t2g)).
  revert acc. induction lines as [|l ls IH]; intros acc; simpl; [reflexivity|].
  unfold gene_or_transcript at 2.
  destruct (isspace l); [apply IH|].
  destruct (dict_get t2g (strip l)) as [[|g gs]|]; apply IH.
Qed.

(** C9. [convert_transcripts_to_genes] writes one line per non-blank line
    of the transcripts file, in order: the first attribute of the stripped
    transcript when the table maps it to a non-empty tuple, else the
    stripped transcript itself; and it returns [genes_path]. *)
Theorem C9_convert_transcripts_to_genes :
  forall txnames_path t2g_path genes_path h,
    let t2g := t2g_table h t2g_path in
    let lines := file_lines (ReadT2G t2g_path :: h) txnames_path in
    let written := map (gene_or_transcript t2g) (filter nonblank lines) in
    convert_transcripts_to_genes txnames_path t2g_path genes_path h =
      ([ReadT2G t2g_path; ReadLines txnames_path;
        WriteLines genes_path written], inr genes_path) /\
    length written = length (filter nonblank lines) /\
    (forall line,
        gene_or_transcript t2g line =
        match dict_get t2g (strip line) with
        | Some (gene :: _) => (gene ++ nl)%string
        | Some [] => (strip line ++ nl)%string
        | None => (strip line ++ nl)%string
        end).
Proof.
  intros. split; [|split].
  - unfold convert_transcripts_to_genes, read_t2g, read_lines.
    steps. fold t2g. fold lines. subst written.
    rewrite (convert_loop t2g lines []). reflexivity.
  - subst written. apply length_map.
  - intros line. unfold gene_or_transcript.
    destruct (dict_get t2g (strip line)) as [[|g gs]|]; reflexivity.
Qed.

(** ** Smart-seq *)

(** C10. [count_smartseq] raises an [Exception] before any command is run
    when more than one index is supplied, and likewise when some FASTQ of
    [fastq_pairs] has one of the four URL schemes; with one index and only
    local FASTQs it goes on (and returns). *)
Theorem C10_count_smartseq_checks :
  forall index_paths t2g_path technology out_dir fastq_pairs cell_ids temp_dir
         threads memory overwrite loom h5ad h,
    let run := count_smartseq cfg index_paths t2g_path technology out_dir
                 fastq_pairs cell_ids temp_dir threads memory overwrite loom
                 h5ad h in
    let several := Nat.ltb 1 (length (as_list index_paths)) in
    let remote := existsb remote_pair fastq_pairs in
    (several = true ->
       run = ([StatsStart],
              inl (Exception ("Technology " ++ technology ++
                              " does not support multiple indices.")))) /\
    (several = false -> remote = true ->
       run = ([StatsStart],
              inl (Exception ("Technology " ++ technology ++
                              " does not support FASTQ streaming.")))) /\
    (orb several remote = true -> existsb is_run (fst run) = false) /\
    (length (as_list index_paths) = 1 -> remote = false ->
       exists rest results,
         run = (StatsStart :: MakeDirectory out_dir :: rest, inr results)).
Proof.
  intros. subst run several remote. unfold count_smartseq.
  change (existsb (fun pair : string * string =>
            in_url_schemes (fst pair) || in_url_schemes (snd pair)) fastq_pairs)
    with (existsb remote_pair fastq_pairs).
  destruct (Nat.ltb 1 (length (as_list index_paths))) eqn:Hn.
  - repeat split; try discriminate; try reflexivity.
    intros Hlen. rewrite Hlen in Hn. discriminate.
  - destruct (existsb remote_pair fastq_pairs) eqn:Hr.
    + repeat split; try discriminate; try reflexivity.
    + repeat split; try discriminate.
      intros Hlen _.
      destruct (as_list index_paths) as [|i [|j l]]; try discriminate.
      steps; do 2 eexists; reflexivity.
Qed.

End Properties.


(* ===================================================================== *)
(** * BUS files are never opened                                          *)
(* ===================================================================== *)

Section BusContents.

Context {consts : Constants} {helpers : Helpers} {world : World}.
Variable cfg : config.Globals.

(** Two views of the contents of files that agree on every path outside
    [bus]. *)
Definition same_outside (bus : string -> bool) (c1 c2 : Contents) : Prop :=
  forall h path, bus path = false ->
    @file_lines c1 h path = @file_lines c2 h path /\
    @json_items c1 h path = @json_items c2 h path /\
    @t2g_table c1 h path = @t2g_table c2 h path.

(** The file an effect reads or writes the contents of, if any. *)
Definition opened (e : Event) : option string :=
  match e with
  | ReadLines p | WriteLines p _ | JsonLoad p | JsonDump p _ | ReadT2G p
  | MMRead p | MMWriteTransposed p _ _ => Some p
  | _ => None
  end.

Lemma bind_ext {A B} (m1 m2 : M A) (k1 k2 : A -> M B) h :
  m1 h = m2 h ->
  (forall a d, m1 h = (d, inr a) ->
               k1 a (rev_append d h) = k2 a (rev_append d h)) ->
  bind m1 k1 h = bind m2 k2 h.
Proof.
  intros Hm Hk. unfold bind. rewrite <- Hm.
  destruct (m1 h) as [d [e|a]]; [reflexivity|].
  now rewrite (Hk a d eq_refl).
Qed.

Lemma combine_run_info_same bus c1 c2 out_dirs h :
  same_outside bus c1 c2 ->
  (forall o, In o out_dirs -> bus (join o KALLISTO_INFO_FILENAME) = false) ->
  @combine_run_info consts c1 out_dirs h = @combine_run_info consts c2 out_dirs h.
Proof.
  intros Hsame. unfold combine_run_info.
  generalize (@nil (string * list string)). revert h.
  induction out_dirs as [|o l IH]; intros h run_info Hout; cbn [foldM].
  - reflexivity.
  - pose proof (Hsame h (join o KALLISTO_INFO_FILENAME)
                  (Hout o (or_introl eq_refl))) as (_ & Hj & _).
    apply bind_ext.
    + apply bind_ext; [|reflexivity].
      unfold json_load. apply bind_ext; [|reflexivity].
      unfold ask. now rewrite Hj.
    + intros a d _. apply IH. intros o' Ho'. apply Hout. now right.
Qed.

Lemma bustools_mash_same bus c1 c2 out_dirs out_dir h :
  same_outside bus c1 c2 ->
  (forall o, In o out_dirs -> bus (join o KALLISTO_INFO_FILENAME) = false) ->
  @bustools_mash consts c1 cfg out_dirs out_dir h =
  @bustools_mash consts c2 cfg out_dirs out_dir h.
Proof.
  intros Hsame Hout. unfold bustools_mash.
  apply bind_ext; [reflexivity|]. intros _ d _.
  apply bind_ext; [|reflexivity].
  destruct (negb (config.is_dry cfg)); [|reflexivity].
  apply bind_ext; [|reflexivity].
  now apply combine_run_info_same with (bus := bus).
Qed.

Lemma kallisto_bus_split_same bus c1 c2 fastqs index_paths technology out_dir
    temp_dir threads memory paired strand h :
  same_outside bus c1 c2 ->
  (forall i, i < length index_paths ->
             bus (join (part_dir temp_dir i) KALLISTO_INFO_FILENAME) = false) ->
  @kallisto_bus_split consts helpers world c1 cfg fastqs index_paths technology
    out_dir temp_dir threads memory paired strand h =
  @kallisto_bus_split consts helpers world c2 cfg fastqs index_paths technology
    out_dir temp_dir threads memory paired strand h.
Proof.
  intros Hsame Hparts. unfold kallisto_bus_split.
  apply bind_ext; [reflexivity|]. intros st d Hst.
  destruct (split_loop cfg technology temp_dir threads memory paired strand
              index_paths 0 fastqs [] h)
    as (shards & fq & _ & Hdirs & _ & Hloop).
  rewrite Hloop in Hst. injection Hst as _ <-. cbn [snd app].
  apply bind_ext; [|reflexivity].
  apply bustools_mash_same with (bus := bus); [exact Hsame|].
  intros o Ho. rewrite Hdirs in Ho. apply in_map_iff in Ho.
  destruct Ho as (i & <- & Hi). apply Hparts.
  apply in_seq in Hi. lia.
Qed.

Lemma opened_split_run (c : Contents) technology out_dir temp_dir threads
    memory paired strand fastqs index_paths h :
  Forall (fun e => forall p, opened e = Some p ->
                   exists d, p = join d KALLISTO_INFO_FILENAME)
    (trace (@kallisto_bus_split consts helpers world c cfg fastqs index_paths
              technology out_dir temp_dir threads memory paired strand) h).
Proof.
  destruct (@kallisto_bus_split_runs consts helpers world c cfg technology
              out_dir temp_dir threads memory paired strand fastqs
              index_paths h)
    as (shards & ri & tmp & _ & _ & _ & Hst & _ & Hrun).
  unfold trace. rewrite Hrun. cbn [fst].
  apply Forall_app. split.
  - apply Forall_concat. apply Forall_map.
    eapply Forall_impl; [|exact Hst]. intros s Hs. unfold shard_events.
    apply Forall_app. split.
    + rewrite forallb_forall in Hs. apply Forall_forall.
      intros e He p Hp. apply Hs in He. destruct e; discriminate.
    + repeat constructor; intros p Hp; discriminate.
  - constructor; [intros p Hp; discriminate|].
    apply Forall_app. split.
    + destruct (config.is_dry cfg); [constructor|].
      apply Forall_app. split.
      * apply Forall_map. apply Forall_forall. intros o _ p Hp.
        injection Hp as <-. eexists; reflexivity.
      * constructor; [|constructor]. intros p Hp.
        injection Hp as <-. eexists; reflexivity.
    + repeat constructor; intros p Hp; discriminate.
Qed.


End BusContents.

(* ===================================================================== *)
(** * The pipelines                                                       *)
(* ===================================================================== *)

Section Pipelines.

Context {consts : Constants} {helpers : Helpers} {world : World}
        {contents : Contents}.
Variable cfg : config.Globals.

(** ** The [kallisto bus] stage *)

Lemma foldM_runs {A S} (f : S -> A -> M S) :
  (forall s x h, exists d s', f s x h = (d, inr s')) ->
  forall l s h, exists d s', foldM f s l h = (d, inr s').
Proof.
  intros Hf. induction l as [|x l IH]; intros s h; cbn [foldM].
  - do 2 eexists; reflexivity.
  - destruct (Hf s x h) as (d & s' & Hx).
    destruct (IH s' (rev_append d h)) as (d' & s'' & Hl).
    rewrite (run_bind_known _ Hx), Hl. do 2 eexists; reflexivity.
Qed.

Lemma stream_batch_runs batch_path temp_dir h :
  exists d p, stream_batch cfg batch_path temp_dir h = (d, inr p).
Proof.
  unfold stream_batch, dryable.
  destruct (config.is_dry cfg).
  - steps. do 2 eexists; reflexivity.
  - unfold get_temporary_filename, read_lines. repeat step.
    match goal with |- context [bind (foldM ?f ?s0 ?l0) ?k ?h'] =>
      assert (Hf : forall s x h, exists d s', f s x h = (d, inr s'));
      [|destruct (foldM_runs f Hf l0 s0 h') as (d & out & Hrun)] end.
    { intros s x h0.
      destruct (isspace x || starts_with_char "#" x).
      - do 2 eexists; reflexivity.
      - match goal with |- context [stream_fastqs ?f ?t] =>
          destruct (stream_fastqs_runs f t h0) as (d & l' & Hs & _) end.
        steps. do 2 eexists; reflexivity. }
    steps. do 2 eexists; reflexivity.
Qed.

(** The stage returns when at least one index is given, and its result has
    the four paths every pipeline reads from it. *)
Lemma bus_stage_runs fastqs index_paths technology out_dir temp_dir threads
    memory paired strand batch_allowed h :
  index_paths <> [] ->
  exists d r,
    bus_stage cfg fastqs index_paths technology out_dir temp_dir threads
      memory paired strand batch_allowed h = (d, inr r) /\
    dict_get r "bus" = Some (PStr (join out_dir BUS_FILENAME)) /\
    dict_get r "ecmap" = Some (PStr (join out_dir ECMAP_FILENAME)) /\
    dict_get r "txnames" = Some (PStr (join out_dir TXNAMES_FILENAME)) /\
    dict_get r "info" = Some (PStr (join out_dir KALLISTO_INFO_FILENAME)) /\
    (Nat.ltb 1 (length index_paths) = true ->
     dict_get r "saved_index" = None).
Proof.
  intros Hne. unfold bus_stage.
  destruct (Nat.ltb 1 (length index_paths)) eqn:Hn.
  - destruct (kallisto_bus_split_runs cfg technology out_dir temp_dir threads
                memory paired strand fastqs index_paths h)
      as (shards & ri & tmp & _ & _ & _ & _ & _ & Hrun).
    rewrite Hrun. do 2 eexists. split; [reflexivity|].
    repeat split; reflexivity.
  - destruct index_paths as [|i l]; [contradiction|].
    assert (Hstream : exists d f,
      match fastqs with
      | Batch path =>
          if batch_allowed
          then p <- stream_batch cfg path temp_dir;; ret (Batch p)
          else l0 <- stream_fastqs fastqs temp_dir;; ret (Files l0)
      | Files _ => l0 <- stream_fastqs fastqs temp_dir;; ret (Files l0)
      end h = (d, inr f)).
    { destruct fastqs as [path|paths]; [destruct batch_allowed|].
      - destruct (stream_batch_runs path temp_dir h) as (d & p & Hp).
        steps. do 2 eexists; reflexivity.
      - destruct (stream_fastqs_runs (Batch path) temp_dir h) as (d & p & Hp & _).
        steps. do 2 eexists; reflexivity.
      - destruct (stream_fastqs_runs (Files paths) temp_dir h) as (d & p & Hp & _).
        steps. do 2 eexists; reflexivity. }
    destruct Hstream as (d & f & Hstream).
    step. step. unfold kallisto_bus, run_executable.
    destruct paired, (str_in (upper technology) ["BULK"; "SMARTSEQ3"]);
      steps; do 2 eexists; (split; [reflexivity|]);
      repeat split; try reflexivity; discriminate.
Qed.

(** ** The whitelist *)

(** In the trace [tr] of a run after history [h], the raw BUS file is
    sorted, a whitelist is obtained right after (copied when one is packaged
    for the technology, else generated from the sorted BUS file into
    [out_dir]), and a later [bustools correct] receives exactly that
    whitelist after [-w]. *)
Definition whitelist_obtained_then_used (technology out_dir temp_dir : string)
    (threads : Z) (memory : string) (h : History) (tr : list Event) : Prop :=
  let raw := join out_dir BUS_FILENAME in
  let sorted := join temp_dir (update_filename (basename raw) SORT_CODE) in
  let sort_raw :=
    Run (bustools_sort_command cfg raw sorted temp_dir threads memory false) in
  exists before rest corrected_in corrected_out,
    let whitelist :=
      if whitelist_provided technology
      then copy_whitelist_result (sort_raw :: rev_append before h)
             technology out_dir
      else join out_dir WHITELIST_FILENAME in
    tr = before ++ sort_raw
         :: (if whitelist_provided technology
             then CopyWhitelist technology out_dir
             else Run (bustools_whitelist_command cfg sorted
                         (join out_dir WHITELIST_FILENAME) None))
         :: rest /\
    In (Run (bustools_correct_command cfg corrected_in corrected_out
               (Some whitelist))) rest /\
    bustools_correct_command cfg corrected_in corrected_out (Some whitelist) =
    [bustools cfg; AStr "correct"; AStr "-o"; AStr corrected_out;
     AStr "-w"; AStr whitelist; AStr corrected_in].

(** The effects of [tr] that precede its first [bustools sort] outside the
    [kallisto bus] stage. *)
Ltac before_sort tr :=
  lazymatch tr with
  | Run (bustools_sort_command _ _ _ _ _ _ _) :: _ => constr:(@nil Event)
  | ?d ++ Run (bustools_sort_command _ _ _ _ _ _ _) :: _ => constr:(d)
  | ?e :: ?tr' => let p := before_sort tr' in constr:(e :: p)
  end.

(** Evaluate up to and including the first [bustools correct]. *)
Ltac steps_to_correct :=
  repeat (lazymatch goal with
          | |- context [cons_trace (Run (bustools_correct_command _ _ _ _)) _] =>
              fail
          | _ => step
          end).


End Pipelines.

(* ===================================================================== *)
(** * The order of the stages                                             *)
(* ===================================================================== *)

(** The five stages, recognised by the sub-command of a command line. *)
Inductive Stage : Type := Sort | Correct | Capture | Count | Quant.

Definition stage_named (s : string) : option Stage :=
  if String.eqb s "sort" then Some Sort
  else if String.eqb s "correct" then Some Correct
  else if String.eqb s "capture" then Some Capture
  else if String.eqb s "count" then Some Count
  else if String.eqb s "quant-tcc" then Some Quant
  else None.

Definition stage_of (e : Event) : option Stage :=
  match e with
  | Run (_ :: AStr s :: _) => stage_named s
  | _ => None
  end.

(** The file a command works on stands last; its output follows [-o]. *)
Definition input_of (e : Event) : option string :=
  match e with
  | Run command =>
      match last command ANone with AStr p => Some p | _ => None end
  | _ => None
  end.

Definition output_of (e : Event) : option string :=
  match e with
  | Run (_ :: _ :: AStr f :: AStr o :: _) =>
      if String.eqb f "-o" then Some o else None
  | _ => None
  end.

(** ** What a trace has to look like *)

(** Among [past], the raw BUS file was sorted. *)
Definition sorted_raw (raw : string) (past : list Event) : Prop :=
  exists e, In e past /\ stage_of e = Some Sort /\ input_of e = Some raw.

(** Among [past], a [bustools correct] ran and its output was sorted
    afterwards. *)
Definition corrected_then_sorted (past : list Event) : Prop :=
  exists l1 c l2 s l3 p,
    past = l1 ++ c :: l2 ++ s :: l3 /\
    stage_of c = Some Correct /\ output_of c = Some p /\
    stage_of s = Some Sort /\ input_of s = Some p.

Definition ran (st : Stage) (past : list Event) : Prop :=
  exists e, In e past /\ stage_of e = Some st.

(** Whatever precedes an event of stage [st] in [tr] satisfies [P]. *)
Definition always_after (P : list Event -> Prop) (st : Stage)
    (tr : list Event) : Prop :=
  forall before e after,
    tr = before ++ e :: after -> stage_of e = Some st -> P before.

(** sort -> correct -> capture -> count -> quant.  [captures] tells whether
    the pipeline is one that captures; one that does not runs no
    [bustools capture] at all. *)
Definition sequenced (captures : bool) (raw : string) (tr : list Event)
    : Prop :=
  always_after (sorted_raw raw) Correct tr /\
  always_after corrected_then_sorted Capture tr /\
  (if captures then always_after (ran Capture) Count tr
   else ~ ran Capture tr) /\
  always_after (ran Count) Quant tr.

(** ** A monitor for it *)

Record Seen : Type := mkSeen {
  raw_sorted : bool;
  corrected : list string;
  resorted : bool;
  captured : bool;
  counted : bool
}.

Definition nothing_seen : Seen := mkSeen false [] false false false.

Definition is_path (p : string) (o : option string) : bool :=
  match o with Some x => String.eqb x p | None => false end.

Definition advance (raw : string) (s : Seen) (e : Event) : Seen :=
  match stage_of e with
  | Some Sort =>
      mkSeen (raw_sorted s || is_path raw (input_of e)) (corrected s)
             (resorted s
              || existsb (fun p => is_path p (input_of e)) (corrected s))
             (captured s) (counted s)
  | Some Correct =>
      mkSeen (raw_sorted s)
             (match output_of e with
              | Some p => p :: corrected s
              | None => corrected s
              end)
             (resorted s) (captured s) (counted s)
  | Some Capture =>
      mkSeen (raw_sorted s) (corrected s) (resorted s) true (counted s)
  | Some Count =>
      mkSeen (raw_sorted s) (corrected s) (resorted s) (captured s) true
  | _ => s
  end.

Definition admissible (captures : bool) (s : Seen) (e : Event) : bool :=
  match stage_of e with
  | Some Correct => raw_sorted s
  | Some Capture => captures && resorted s
  | Some Count => implb captures (captured s)
  | Some Quant => counted s
  | _ => true
  end.

Fixpoint well_sequenced (captures : bool) (raw : string) (s : Seen)
    (tr : list Event) : bool :=
  match tr with
  | [] => true
  | e :: tr' =>
      admissible captures s e && well_sequenced captures raw (advance raw s e) tr'
  end.

(** What the monitor has seen did happen. *)
Definition reflects (raw : string) (past : list Event) (s : Seen) : Prop :=
  (raw_sorted s = true -> sorted_raw raw past) /\
  (forall p, In p (corrected s) ->
             exists l1 c l2, past = l1 ++ c :: l2 /\
                             stage_of c = Some Correct /\
                             output_of c = Some p) /\
  (resorted s = true -> corrected_then_sorted past) /\
  (captured s = true -> ran Capture past) /\
  (counted s = true -> ran Count past).

(** A lower bound on what has been seen. *)
Definition below (q s : Seen) : Prop :=
  (raw_sorted q = true -> raw_sorted s = true) /\
  incl (corrected q) (corrected s) /\
  (resorted q = true -> resorted s = true) /\
  (captured q = true -> captured s = true) /\
  (counted q = true -> counted s = true).

Definition meet (q1 q2 : Seen) : Seen :=
  mkSeen (raw_sorted q1 && raw_sorted q2) []
         (resorted q1 && resorted q2) (captured q1 && captured q2)
         (counted q1 && counted q2).

(** Started with at least [q] seen, [m] keeps to the order, and when it
    returns at least [q'] has been seen. *)
Definition sound (captures : bool) (raw : string) {A} (m : M A)
    (q q' : Seen) : Prop :=
  forall h s, below q s ->
    well_sequenced captures raw s (trace m h) = true /\
    (forall a, snd (m h) = inr a ->
               below q' (fold_left (advance raw) (trace m h) s)).

(** ** The monitor is right *)

Lemma sorted_raw_snoc raw past e :
  sorted_raw raw past -> sorted_raw raw (past ++ [e]).
Proof.
  intros (x & Hin & Hx). exists x. split; [|assumption].
  apply in_or_app; now left.
Qed.

Lemma ran_snoc st past e : ran st past -> ran st (past ++ [e]).
Proof.
  intros (x & Hin & Hx). exists x. split; [|assumption].
  apply in_or_app; now left.
Qed.

Lemma ran_last st past e : stage_of e = Some st -> ran st (past ++ [e]).
Proof.
  intros He. exists e. split; [|assumption].
  apply in_or_app; right; now left.
Qed.

Lemma corrected_then_sorted_snoc past e :
  corrected_then_sorted past -> corrected_then_sorted (past ++ [e]).
Proof.
  intros (l1 & c & l2 & s & l3 & p & -> & H).
  exists l1, c, l2, s, (l3 ++ [e]), p. split; [|assumption].
  now rewrite <- app_assoc, <- app_comm_cons, <- app_assoc, <- app_comm_cons.
Qed.

Lemma reflects_nothing raw : reflects raw [] nothing_seen.
Proof.
  repeat split; cbn; try discriminate. intros p [].
Qed.

Lemma reflects_step raw past s e :
  reflects raw past s -> reflects raw (past ++ [e]) (advance raw s e).
Proof.
  intros (Hraw & Hcor & Hre & Hcap & Hcnt).
  assert (Hcor' : forall p, In p (corrected s) ->
            exists l1 c l2, past ++ [e] = l1 ++ c :: l2 /\
                            stage_of c = Some Correct /\ output_of c = Some p).
  { intros p Hp. destruct (Hcor p Hp) as (l1 & c & l2 & -> & H).
    exists l1, c, (l2 ++ [e]). split; [|assumption].
    now rewrite <- app_assoc. }
  unfold advance. destruct (stage_of e) as [[| | | |]|] eqn:Hst;
    unfold reflects; cbn [raw_sorted corrected resorted captured counted].
  - (* sort *)
    split; [|split; [assumption|split; [|split]]].
    + intros H. apply orb_true_iff in H as [H|H].
      * now apply sorted_raw_snoc, Hraw.
      * exists e. split; [apply in_or_app; right; now left|].
        split; [assumption|].
        destruct (input_of e) as [x|]; [|discriminate].
        cbn in H. apply String.eqb_eq in H. now subst.
    + intros H. apply orb_true_iff in H as [H|H].
      * now apply corrected_then_sorted_snoc, Hre.
      * apply existsb_exists in H as (p & Hp & Hin).
        destruct (Hcor p Hp) as (l1 & c & l2 & -> & Hc & Ho).
        exists l1, c, l2, e, [], p.
        split; [now rewrite <- app_assoc|].
        repeat split; try assumption.
        destruct (input_of e) as [x|]; [|discriminate].
        cbn in Hin. apply String.eqb_eq in Hin. now subst.
    + intros H. now apply ran_snoc, Hcap.
    + intros H. now apply ran_snoc, Hcnt.
  - (* correct *)
    split; [|split; [|split; [|split]]].
    + intros H. now apply sorted_raw_snoc, Hraw.
    + intros p Hp. destruct (output_of e) as [o|] eqn:Ho.
      * destruct Hp as [<-|Hp]; [|now apply Hcor'].
        exists past, e, []. repeat split; assumption.
      * now apply Hcor'.
    + intros H. now apply corrected_then_sorted_snoc, Hre.
    + intros H. now apply ran_snoc, Hcap.
    + intros H. now apply ran_snoc, Hcnt.
  - (* capture *)
    split; [|split; [assumption|split; [|split]]].
    + intros H. now apply sorted_raw_snoc, Hraw.
    + intros H. now apply corrected_then_sorted_snoc, Hre.
    + intros _. now apply ran_last.
    + intros H. now apply ran_snoc, Hcnt.
  - (* count *)
    split; [|split; [assumption|split; [|split]]].
    + intros H. now apply sorted_raw_snoc, Hraw.
    + intros H. now apply corrected_then_sorted_snoc, Hre.
    + intros H. now apply ran_snoc, Hcap.
    + intros _. now apply ran_last.
  - (* quant *)
    split; [|split; [assumption|split; [|split]]].
    + intros H. now apply sorted_raw_snoc, Hraw.
    + intros H. now apply corrected_then_sorted_snoc, Hre.
    + intros H. now apply ran_snoc, Hcap.
    + intros H. now apply ran_snoc, Hcnt.
  - split; [|split; [assumption|split; [|split]]].
    + intros H. now apply sorted_raw_snoc, Hraw.
    + intros H. now apply corrected_then_sorted_snoc, Hre.
    + intros H. now apply ran_snoc, Hcap.
    + intros H. now apply ran_snoc, Hcnt.
Qed.

(** Every event of an accepted trace was admissible in a state that
    reflects what came before it. *)
Lemma well_sequenced_at captures raw tr :
  forall past s before e after,
    well_sequenced captures raw s tr = true ->
    reflects raw past s ->
    tr = before ++ e :: after ->
    exists s', reflects raw (past ++ before) s' /\
               admissible captures s' e = true.
Proof.
  induction tr as [|x tr IH]; intros past s before e after Hws Hre Htr.
  - destruct before; discriminate.
  - cbn [well_sequenced] in Hws. apply andb_true_iff in Hws as [Hadm Hws].
    destruct before as [|y before]; simpl in Htr;
      injection Htr as -> ->.
    + exists s. rewrite app_nil_r. now split.
    + destruct (IH (past ++ [y]) (advance raw s y) before e after Hws
                  (reflects_step y Hre) eq_refl) as (s' & Hs' & Hadm').
      exists s'. split; [|assumption].
      rewrite <- app_assoc in Hs'. exact Hs'.
Qed.

Lemma well_sequenced_sequenced captures raw tr :
  well_sequenced captures raw nothing_seen tr = true ->
  sequenced captures raw tr.
Proof.
  intros Hws.
  assert (Hat : forall before e after, tr = before ++ e :: after ->
            exists s', reflects raw before s' /\
                       admissible captures s' e = true).
  { intros before e after Htr.
    exact (@well_sequenced_at captures raw tr [] nothing_seen before e after Hws
             (reflects_nothing raw) Htr). }
  unfold sequenced.
  split; [|split; [|split]].
  - intros before e after Htr He.
    destruct (Hat _ _ _ Htr) as (s' & (Hraw & _) & Hadm).
    unfold admissible in Hadm. rewrite He in Hadm. now apply Hraw.
  - intros before e after Htr He.
    destruct (Hat _ _ _ Htr) as (s' & (_ & _ & Hre & _) & Hadm).
    unfold admissible in Hadm. rewrite He in Hadm.
    apply andb_true_iff in Hadm as [_ Hadm]. now apply Hre.
  - destruct captures.
    + intros before e after Htr He.
      destruct (Hat _ _ _ Htr) as (s' & (_ & _ & _ & Hcap & _) & Hadm).
      unfold admissible in Hadm. rewrite He in Hadm. now apply Hcap.
    + intros (e & Hin & He).
      apply in_split in Hin as (before & after & Htr).
      destruct (Hat _ _ _ Htr) as (s' & _ & Hadm).
      unfold admissible in Hadm. rewrite He in Hadm. discriminate.
  - intros before e after Htr He.
    destruct (Hat _ _ _ Htr) as (s' & (_ & _ & _ & _ & Hcnt) & Hadm).
    unfold admissible in Hadm. rewrite He in Hadm. now apply Hcnt.
Qed.

(** ** Reasoning about computations, one bind at a time *)

Section Hoare.

Variable captures : bool.
Variable raw : string.

Lemma below_refl q : below q q.
Proof. repeat split; auto using incl_refl. Qed.

Lemma below_trans q1 q2 q3 : below q1 q2 -> below q2 q3 -> below q1 q3.
Proof.
  intros (A1 & B1 & C1 & D1 & E1) (A2 & B2 & C2 & D2 & E2).
  repeat split; auto. eapply incl_tran; eassumption.
Qed.

Lemma below_advance q s e :
  below q s -> below (advance raw q e) (advance raw s e).
Proof.
  intros (A & B & C & D & E). unfold advance.
  destruct (stage_of e) as [[| | | |]|];
    unfold below; cbn [raw_sorted corrected resorted captured counted];
    repeat split; auto.
  - intros H. apply orb_true_iff in H as [H|H]; apply orb_true_iff; auto.
  - intros H. apply orb_true_iff in H as [H|H]; apply orb_true_iff; auto.
    right. apply existsb_exists in H as (p & Hp & H).
    apply existsb_exists. exists p. auto.
  - destruct (output_of e); [|assumption].
    intros p [<-|Hp]; [now left|right; auto].
Qed.

Lemma below_inflate s e : below s (advance raw s e).
Proof.
  unfold advance.
  destruct (stage_of e) as [[| | | |]|];
    unfold below; cbn [raw_sorted corrected resorted captured counted];
    repeat split; auto using incl_refl.
  - intros ->. reflexivity.
  - intros ->. reflexivity.
  - destruct (output_of e); auto using incl_refl, incl_tl.
Qed.

Lemma below_meet_l q1 q2 : below (meet q1 q2) q1.
Proof.
  unfold below, meet; cbn [raw_sorted corrected resorted captured counted].
  repeat split; try (intros H; apply andb_true_iff in H; tauto).
  intros p [].
Qed.

Lemma below_meet_r q1 q2 : below (meet q1 q2) q2.
Proof.
  unfold below, meet; cbn [raw_sorted corrected resorted captured counted].
  repeat split; try (intros H; apply andb_true_iff in H; tauto).
  intros p [].
Qed.

Lemma admissible_mono q s e :
  below q s -> admissible captures q e = true ->
  admissible captures s e = true.
Proof.
  intros (A & B & C & D & E). unfold admissible.
  destruct (stage_of e) as [[| | | |]|]; auto.
  - intros H. apply andb_true_iff in H as [-> H]. cbn. auto.
  - destruct captures; cbn; auto.
Qed.

Lemma well_sequenced_app s d d' :
  well_sequenced captures raw s (d ++ d') =
  well_sequenced captures raw s d
  && well_sequenced captures raw (fold_left (advance raw) d s) d'.
Proof.
  revert s. induction d as [|e d IH]; intros s; simpl; [reflexivity|].
  now rewrite IH, andb_assoc.
Qed.

Lemma sound_ret {A} (a : A) q : sound captures raw (ret a) q q.
Proof. intros h s Hq. split; [reflexivity|]. intros _ _. exact Hq. Qed.

Lemma sound_raise {A} e q q' : sound captures raw (@raise A e) q q'.
Proof. intros h s Hq. split; [reflexivity|]. intros a Ha. discriminate Ha. Qed.

Lemma sound_ask {A} (f : History -> A) q : sound captures raw (ask f) q q.
Proof. intros h s Hq. split; [reflexivity|]. intros _ _. exact Hq. Qed.

Lemma sound_emit e q :
  admissible captures q e = true ->
  sound captures raw (emit e) q (advance raw q e).
Proof.
  intros Hadm h s Hq. split.
  - cbn. now rewrite (admissible_mono e Hq Hadm).
  - intros _ _. cbn. now apply below_advance.
Qed.

Lemma sound_post {A} (m : M A) q q1 q2 :
  sound captures raw m q q1 -> below q2 q1 -> sound captures raw m q q2.
Proof.
  intros Hm H21 h s Hq. destruct (Hm h s Hq) as [Hws Hpost].
  split; [assumption|]. intros a Ha.
  eapply below_trans; [exact H21|exact (Hpost a Ha)].
Qed.

Lemma sound_pre {A} (m : M A) q q0 q' :
  sound captures raw m q0 q' -> below q0 q -> sound captures raw m q q'.
Proof.
  intros Hm H0 h s Hq. apply Hm. eapply below_trans; eassumption.
Qed.

Lemma sound_ext {A} (m m' : M A) q q' :
  (forall h, m h = m' h) -> sound captures raw m' q q' ->
  sound captures raw m q q'.
Proof. intros E Hm h s Hq. unfold trace. rewrite E. now apply Hm. Qed.

Lemma sound_bind {A B} (m : M A) (k : A -> M B) q q1 q2 :
  sound captures raw m q q1 ->
  (forall a, sound captures raw (k a) q1 q2) ->
  sound captures raw (bind m k) q q2.
Proof.
  intros Hm Hk h s Hq. destruct (Hm h s Hq) as [Hws Hpost].
  unfold trace, bind in *. destruct (m h) as [d [e|a]]; cbn [fst snd] in *.
  - split; [assumption|]. intros b Hb. discriminate Hb.
  - specialize (Hpost a eq_refl).
    destruct (Hk a (rev_append d h) _ Hpost) as [Hws' Hpost'].
    unfold trace in *.
    destruct (k a (rev_append d h)) as [d' r]; cbn [fst snd] in *.
    split.
    + now rewrite well_sequenced_app, Hws, Hws'.
    + intros b Hb. rewrite fold_left_app. exact (Hpost' b Hb).
Qed.

Lemma sound_bind_ret {A B} (a : A) (k : A -> M B) q q' :
  sound captures raw (k a) q q' -> sound captures raw (bind (ret a) k) q q'.
Proof.
  intros Hk. apply sound_ext with (m' := k a); [|exact Hk].
  intros h. now rewrite run_bind_ret.
Qed.

Lemma sound_bind_assoc {A B C} (m : M A) (f : A -> M B) (k : B -> M C) q q' :
  sound captures raw (bind m (fun a => bind (f a) k)) q q' ->
  sound captures raw (bind (bind m f) k) q q'.
Proof.
  intros Hk.
  apply sound_ext with (m' := bind m (fun a => bind (f a) k)); [|exact Hk].
  intros h. now rewrite run_bind_bind.
Qed.

Lemma sound_if {A} (b : bool) (m1 m2 : M A) q q1 q2 :
  sound captures raw m1 q q1 -> sound captures raw m2 q q2 ->
  sound captures raw (if b then m1 else m2) q (meet q1 q2).
Proof.
  intros H1 H2. destruct b.
  - eapply sound_post; [exact H1|apply below_meet_l].
  - eapply sound_post; [exact H2|apply below_meet_r].
Qed.

Lemma sound_foldM {A S} (f : S -> A -> M S) q :
  (forall s x, sound captures raw (f s x) q q) ->
  forall l s, sound captures raw (foldM f s l) q q.
Proof.
  intros Hf. induction l as [|x l IH]; intros s; cbn [foldM].
  - apply sound_ret.
  - eapply sound_bind; [apply Hf|]. intros s'. apply IH.
Qed.

Lemma sound_mapM {A B} (f : A -> M B) q :
  (forall x, sound captures raw (f x) q q) ->
  forall l, sound captures raw (mapM f l) q q.
Proof.
  intros Hf. induction l as [|x l IH]; cbn [mapM].
  - apply sound_ret.
  - eapply sound_bind; [apply Hf|]. intros y.
    eapply sound_bind; [apply IH|]. intros ys. apply sound_ret.
Qed.

(** From the empty state, soundness gives the order of the stages. *)
Lemma sound_sequenced {A} (m : M A) q' h :
  sound captures raw m nothing_seen q' -> sequenced captures raw (trace m h).
Proof.
  intros Hm. apply well_sequenced_sequenced.
  apply (Hm h nothing_seen). apply below_refl.
Qed.

End Hoare.

(** ** The stage of each command *)

Section Stages.

Context {consts : Constants} {helpers : Helpers} {world : World}
        {contents : Contents}.
Variable cfg : config.Globals.

Ltac by_cases :=
  intros;
  repeat match goal with
         | |- context [if ?b then _ else _] => destruct b
         | |- context [match ?o with Some _ => _ | None => _ end] => destruct o
         | |- context [match ?f with Batch _ => _ | Files _ => _ end] =>
             destruct f
         end;
  reflexivity.

Lemma stage_of_sort i o td th m f :
  stage_of (Run (bustools_sort_command cfg i o td th m f)) = Some Sort.
Proof. unfold bustools_sort_command. by_cases. Qed.

Lemma input_of_sort i o td th m f :
  input_of (Run (bustools_sort_command cfg i o td th m f)) = Some i.
Proof. unfold bustools_sort_command. by_cases. Qed.

Lemma stage_of_correct i o w :
  stage_of (Run (bustools_correct_command cfg i o w)) = Some Correct.
Proof. reflexivity. Qed.

Lemma output_of_correct i o w :
  output_of (Run (bustools_correct_command cfg i o w)) = Some o.
Proof. reflexivity. Qed.

Lemma stage_of_capture i o c e t ty co :
  stage_of (Run (bustools_capture_command cfg i o c e t ty co)) = Some Capture.
Proof. unfold bustools_capture_command, truthy. by_cases. Qed.

Lemma stage_of_count i o g e t tcc mm cm ug em :
  stage_of (Run (bustools_count_command cfg i o g e t tcc mm cm ug em))
  = Some Count.
Proof. unfold bustools_count_command. by_cases. Qed.

Lemma stage_of_quant_tcc mtx i e g o f l s th :
  stage_of (Run (kallisto_quant_tcc_command cfg mtx i e g o f l s th))
  = Some Quant.
Proof. unfold kallisto_quant_tcc_command, truthy, truthyZ. by_cases. Qed.

Lemma stage_of_pseudo b i o th :
  stage_of (Run (kallisto_pseudo_command cfg b i o th)) = None.
Proof. unfold kallisto_pseudo_command. by_cases. Qed.

Lemma stage_of_bus f i t o th n k p s :
  stage_of (Run (kallisto_bus_command cfg f i t o th n k p s)) = None.
Proof. unfold kallisto_bus_command, truthy. by_cases. Qed.

Lemma stage_of_mash ds o :
  stage_of (Run (bustools_mash_command cfg ds o)) = None.
Proof. unfold bustools_mash_command. by_cases. Qed.

Lemma stage_of_merge b o e t :
  stage_of (Run (bustools_merge_command cfg b o e t)) = None.
Proof. reflexivity. Qed.

Lemma stage_of_project b o m e t :
  stage_of (Run (bustools_project_command cfg b o m e t)) = None.
Proof. unfold bustools_project_command. by_cases. Qed.

Lemma stage_of_inspect b o w e :
  stage_of (Run (bustools_inspect_command cfg b o w e)) = None.
Proof. unfold bustools_inspect_command, truthy. by_cases. Qed.

Lemma stage_of_whitelist b o t :
  stage_of (Run (bustools_whitelist_command cfg b o t)) = None.
Proof. unfold bustools_whitelist_command, truthyZ. by_cases. Qed.

End Stages.

Create HintDb sound.
Create Rewrite HintDb stages.

#[global] Hint Rewrite @stage_of_sort @input_of_sort @stage_of_correct
  @output_of_correct @stage_of_capture @stage_of_count @stage_of_quant_tcc
  @stage_of_pseudo @stage_of_bus @stage_of_mash @stage_of_merge
  @stage_of_project @stage_of_inspect @stage_of_whitelist : stages.

(** Everything has been seen: what holds after a computation that never
    returns. *)
Definition all_seen : Seen := mkSeen true [] true true true.

(** The same, without the names of the corrected files. *)
Definition forget (q : Seen) : Seen :=
  mkSeen (raw_sorted q) [] (resorted q) (captured q) (counted q).

Section Rules.

Variable captures : bool.
Variable raw : string.

Lemma sound_raise_all {A} e q : sound captures raw (@raise A e) q all_seen.
Proof. apply sound_raise. Qed.

Lemma sound_ret_eq {A} (a : A) q q' :
  q' = forget q -> sound captures raw (ret a) q q'.
Proof.
  intros ->. eapply sound_post; [apply sound_ret|].
  unfold below, forget; cbn. repeat split; auto. intros p [].
Qed.

Lemma sound_emit_eq e q q' :
  admissible captures q e = true -> q' = advance raw q e ->
  sound captures raw (emit e) q q'.
Proof. intros Hadm ->. now apply sound_emit. Qed.

Lemma sound_emit_keep e q :
  admissible captures q e = true -> sound captures raw (emit e) q q.
Proof.
  intros Hadm. eapply sound_post; [apply sound_emit, Hadm|].
  apply below_inflate.
Qed.

Lemma sound_if_eq {A} (b : bool) (m1 m2 : M A) q q1 q2 q' :
  sound captures raw m1 q q1 -> sound captures raw m2 q q2 ->
  q' = meet q1 q2 ->
  sound captures raw (if b then m1 else m2) q q'.
Proof. intros H1 H2 ->. now apply sound_if. Qed.

Lemma sound_if_keep {A} (b : bool) (m1 m2 : M A) q :
  sound captures raw m1 q q -> sound captures raw m2 q q ->
  sound captures raw (if b then m1 else m2) q q.
Proof. intros H1 H2. now destruct b. Qed.

Lemma sound_getitem d k q : sound captures raw (getitem d k) q q.
Proof.
  unfold getitem. destruct (dict_get d k); [apply sound_ret|].
  eapply sound_post; [apply sound_raise|apply below_refl].
Qed.

Lemma sound_bind_getstr {B} d key (k : string -> M B) q q' :
  (forall s, dict_get d key = Some (PStr s) -> sound captures raw (k s) q q') ->
  sound captures raw (bind (getstr d key) k) q q'.
Proof.
  intros Hk h s Hq. unfold trace. rewrite run_bind_getstr.
  destruct (dict_get d key) as [[| x |]|].
  - split; [reflexivity|]. intros a Ha. discriminate Ha.
  - now apply (Hk x eq_refl).
  - split; [reflexivity|]. intros a Ha. discriminate Ha.
  - split; [reflexivity|]. intros a Ha. discriminate Ha.
Qed.

Lemma sound_getstr d key q : sound captures raw (getstr d key) q q.
Proof.
  apply sound_ext with (m' := bind (getstr d key) (fun s => ret s)).
  - intros h. unfold bind. destruct (getstr d key h) as [t [e|a]];
      [reflexivity|]. cbn. now rewrite app_nil_r.
  - apply sound_bind_getstr. intros s _. apply sound_ret.
Qed.

Lemma sound_first {A} (l : list A) q : sound captures raw (first l) q q.
Proof.
  destruct l; [|apply sound_ret].
  eapply sound_post; [apply sound_raise|apply below_refl].
Qed.

Lemma sound_bound {A} name (v : option A) q :
  sound captures raw (bound name v) q q.
Proof.
  destruct v; [apply sound_ret|].
  eapply sound_post; [apply sound_raise|apply below_refl].
Qed.

Lemma sound_sub_update d k other q :
  sound captures raw (sub_update d k other) q q.
Proof.
  unfold sub_update. eapply sound_bind; [apply sound_getitem|].
  intros [| |sub]; try apply sound_ret;
    (eapply sound_post; [apply sound_raise|apply below_refl]).
Qed.

Lemma sound_sub_getstr d k key q :
  sound captures raw (sub_getstr d k key) q q.
Proof.
  unfold sub_getstr. eapply sound_bind; [apply sound_getitem|].
  intros [| |sub]; try apply sound_getstr;
    (eapply sound_post; [apply sound_raise|apply below_refl]).
Qed.

Lemma sound_sub_getopt d k key q :
  sound captures raw (sub_getopt d k key) q q.
Proof.
  unfold sub_getopt. eapply sound_bind; [apply sound_getitem|].
  intros [| |sub]; try apply sound_ret;
    (eapply sound_post; [apply sound_raise|apply below_refl]).
Qed.

Lemma sound_setdefault_update d k other q :
  sound captures raw (setdefault_update d k other) q q.
Proof. unfold setdefault_update. apply sound_sub_update. Qed.

Lemma sound_foldM_eq {A S} (f : S -> A -> M S) q q0 :
  q0 = forget q ->
  (forall s x, sound captures raw (f s x) q0 q0) ->
  forall l s, sound captures raw (foldM f s l) q q0.
Proof.
  intros -> Hf l s. eapply sound_pre; [now apply sound_foldM|].
  unfold below, forget; cbn. repeat split; auto. intros p [].
Qed.

Lemma sound_mapM_eq {A B} (f : A -> M B) q q0 :
  q0 = forget q ->
  (forall x, sound captures raw (f x) q0 q0) ->
  forall l, sound captures raw (mapM f l) q q0.
Proof.
  intros -> Hf l. eapply sound_pre; [now apply sound_mapM|].
  unfold below, forget; cbn. repeat split; auto. intros p [].
Qed.

(** The result of [m] is known to satisfy [P]. *)
Lemma sound_bind_val {A B} (m : M A) (k : A -> M B) (P : A -> Prop) q q1 q2 :
  (forall h d a, m h = (d, inr a) -> P a) ->
  sound captures raw m q q1 ->
  (forall a, P a -> sound captures raw (k a) q1 q2) ->
  sound captures raw (bind m k) q q2.
Proof.
  intros HP Hm Hk h s Hq. destruct (Hm h s Hq) as [Hws Hpost].
  unfold trace, bind in *. destruct (m h) as [d [e|a]] eqn:Hrun;
    cbn [fst snd] in *.
  - split; [assumption|]. intros b Hb. discriminate Hb.
  - specialize (Hpost a eq_refl).
    destruct (Hk a (HP _ _ _ Hrun) (rev_append d h) _ Hpost) as [Hws' Hpost'].
    unfold trace in *.
    destruct (k a (rev_append d h)) as [d' r]; cbn [fst snd] in *.
    split.
    + now rewrite well_sequenced_app, Hws, Hws'.
    + intros b Hb. rewrite fold_left_app. exact (Hpost' b Hb).
Qed.

End Rules.

#[global] Hint Resolve sound_getitem sound_getstr sound_first sound_bound
  sound_sub_update sound_sub_getstr sound_sub_getopt sound_setdefault_update
  : sound.

(** ** Walking through a computation *)

Ltac seen_fields :=
  cbv [meet forget advance all_seen nothing_seen raw_sorted corrected resorted
       captured counted is_path existsb orb andb implb];
  rewrite ?String.eqb_refl;
  cbv [orb andb implb].

Ltac solve_admissible :=
  unfold admissible; autorewrite with stages; cbn [stage_of];
  seen_fields; first [reflexivity | assumption].

Ltac solve_advance :=
  unfold advance; autorewrite with stages; cbn [stage_of];
  seen_fields; reflexivity.

Ltac solve_below :=
  unfold below; seen_fields;
  solve [ repeat split;
          auto using incl_refl, incl_tl, incl_nil_l;
          try (intros H; discriminate H) ].

(** [emit] either tracks what the event adds ([track]) or keeps what was
    known ([keep]). *)
Ltac emit_track := eapply sound_emit_eq; [solve_admissible | solve_advance].
Ltac emit_keep := apply sound_emit_keep; solve_admissible.

Ltac known_key Hs :=
  lazymatch type of Hs with
  | dict_get ?d ?key = _ =>
      first
        [ match goal with
          | H : dict_get d key = _ |- _ =>
              tryif constr_eq H Hs then fail else rewrite H in Hs
          end
        | let v := eval hnf in (dict_get d key) in
          change (dict_get d key) with v in Hs ]
  end.

Ltac walk keep :=
  norm;
  lazymatch goal with
  | |- sound _ _ (bind ?m ?k) _ _ =>
      lazymatch m with
      | bind _ _ => apply sound_bind_assoc; walk keep
      | ret _ => apply sound_bind_ret; walk keep
      | getstr _ _ =>
          let s := fresh "s" in
          let Hs := fresh "Hs" in
          apply sound_bind_getstr; intros s Hs;
          try known_key Hs;
          first [ discriminate Hs
                | try (injection Hs as Hs; try subst s); walk keep ]
      | emit _ => eapply sound_bind; [walk keep | intro; walk keep]
      | ask _ => eapply sound_bind; [walk keep | intro; walk keep]
      | raise _ => eapply sound_bind; [walk keep | intro; walk keep]
      | (if _ then _ else _) =>
          eapply sound_bind; [walk keep | intro; walk keep]
      | (match _ with _ => _ end) =>
          eapply sound_bind; [walk keep | intro; walk keep]
      | foldM _ _ _ => eapply sound_bind; [walk keep | intro; walk keep]
      | mapM _ _ => eapply sound_bind; [walk keep | intro; walk keep]
      | _ =>
          first [ eapply sound_bind;
                  [solve [eauto with sound nocore] | intro; walk keep]
                | let f := head_of m in unfold f; walk keep ]
      end
  | |- sound _ _ (ret _) _ _ =>
      lazymatch keep with
      | true => apply sound_ret
      | false => apply sound_ret_eq; seen_fields; reflexivity
      end
  | |- sound _ _ (raise _) _ _ =>
      first [apply sound_raise_all | apply sound_raise]
  | |- sound _ _ (ask _) _ _ => apply sound_ask
  | |- sound _ _ (emit (if ?b then _ else _)) _ _ => destruct b; walk keep
  | |- sound _ _ (emit _) _ _ =>
      lazymatch keep with
      | true => emit_keep
      | false => emit_track
      end
  | |- sound _ _ (getstr _ _) _ _ => apply sound_getstr
  | |- sound _ _ (foldM _ _ _) ?q _ =>
      lazymatch keep with
      | true => apply sound_foldM; intros; walk keep
      | false =>
          eapply sound_foldM_eq; [seen_fields; reflexivity|]; intros;
          eapply sound_post; [walk keep | solve_below]
      end
  | |- sound _ _ (mapM _ _) ?q _ =>
      lazymatch keep with
      | true => apply sound_mapM; intros; walk keep
      | false =>
          eapply sound_mapM_eq; [seen_fields; reflexivity|]; intros;
          eapply sound_post; [walk keep | solve_below]
      end
  | |- sound _ _ (if _ then _ else _) _ _ =>
      lazymatch keep with
      | true => apply sound_if_keep; walk keep
      | false =>
          eapply sound_if_eq; [walk keep | walk keep | seen_fields; reflexivity]
      end
  | |- sound _ _ (match ?x with _ => _ end) _ _ => destruct x; walk keep
  | |- sound _ _ ?m _ _ =>
      first [ solve [eauto with sound nocore]
            | let f := head_of m in unfold f; walk keep ]
  end
with head_of m :=
  lazymatch m with
  | ?f _ => head_of f
  | _ => m
  end.

(** ** The parts that run no stage *)

Section Neutral.

Context {consts : Constants} {helpers : Helpers} {world : World}
        {contents : Contents}.
Variable cfg : config.Globals.
Variable captures : bool.
Variable raw : string.

Lemma sound_convert_matrix counts_dir matrix_path barcodes_path genes_path
    ec_path t2g_path txnames_path name loom h5ad tcc threads q :
  sound captures raw
    (convert_matrix counts_dir matrix_path barcodes_path genes_path ec_path
       t2g_path txnames_path name loom h5ad tcc threads) q q.
Proof. unfold convert_matrix. walk true. Qed.

Lemma sound_convert_matrices counts_dir matrix_paths barcodes_paths
    genes_paths ec_paths t2g_path txnames_path name loom h5ad nucleus tcc
    threads q :
  sound captures raw
    (convert_matrices counts_dir matrix_paths barcodes_paths genes_paths
       ec_paths t2g_path txnames_path name loom h5ad nucleus tcc threads) q q.
Proof. unfold convert_matrices. walk true. Qed.

Lemma sound_matrix_to_cellranger matrix_path barcodes_path genes_path
    t2g_path out_dir q :
  sound captures raw
    (matrix_to_cellranger matrix_path barcodes_path genes_path t2g_path
       out_dir) q q.
Proof. unfold matrix_to_cellranger. walk true. Qed.

Lemma sound_render_report stats_path info_path inspect_path nb_path html_path
    matrix_path barcodes_path genes_path t2g_path temp_dir q :
  sound captures raw
    (render_report stats_path info_path inspect_path nb_path html_path
       matrix_path barcodes_path genes_path t2g_path temp_dir) q q.
Proof. unfold render_report. walk true. Qed.

Lemma sound_copy_or_create_whitelist technology bus_path out_dir q :
  sound captures raw
    (copy_or_create_whitelist cfg technology bus_path out_dir) q q.
Proof. unfold copy_or_create_whitelist. walk true. Qed.

Lemma sound_stream_fastqs fastqs temp_dir q :
  sound captures raw (stream_fastqs fastqs temp_dir) q q.
Proof. unfold stream_fastqs. walk true. Qed.

Lemma sound_stream_batch batch_path temp_dir q :
  sound captures raw (stream_batch cfg batch_path temp_dir) q q.
Proof.
  unfold stream_batch, dryable.
  apply sound_if_keep; [walk true|].
  eapply sound_bind; [walk true|]. intros new_batch_path.
  eapply sound_bind; [walk true|]. intros f_in.
  eapply sound_bind.
  - apply sound_foldM. intros out line.
    apply sound_if_keep; [walk true|].
    norm. eapply sound_bind; [apply sound_stream_fastqs|]. intros fs.
    apply sound_ret.
  - intros chunks. walk true.
Qed.

Lemma sound_kallisto_bus_split fastqs index_paths technology out_dir temp_dir
    threads memory paired strand q :
  sound captures raw
    (kallisto_bus_split cfg fastqs index_paths technology out_dir temp_dir
       threads memory paired strand) q q.
Proof.
  unfold kallisto_bus_split.
  eapply sound_bind.
  - apply sound_foldM. intros [fs part_dirs] [i index_path].
    unfold bus_split_part. norm.
    eapply sound_bind; [apply sound_stream_fastqs|]. intros fs'.
    walk true.
  - intros st. walk true.
Qed.

Lemma sound_bus_stage fastqs index_paths technology out_dir temp_dir threads
    memory paired strand batch_allowed q :
  sound captures raw
    (bus_stage cfg fastqs index_paths technology out_dir temp_dir threads
       memory paired strand batch_allowed) q q.
Proof.
  unfold bus_stage.
  apply sound_if_keep; [apply sound_kallisto_bus_split|].
  eapply sound_bind.
  - destruct fastqs as [path|paths].
    + apply sound_if_keep.
      * eapply sound_bind; [apply sound_stream_batch|]. intros p.
        apply sound_ret.
      * eapply sound_bind; [apply sound_stream_fastqs|]. intros l.
        apply sound_ret.
    + eapply sound_bind; [apply sound_stream_fastqs|]. intros l.
      apply sound_ret.
  - intros fs. walk true.
Qed.

End Neutral.

#[global] Hint Resolve sound_convert_matrix sound_convert_matrices
  sound_matrix_to_cellranger sound_render_report
  sound_copy_or_create_whitelist sound_stream_fastqs sound_stream_batch
  sound_kallisto_bus_split sound_bus_stage : sound.

(** ** The three pipelines *)

Section Order.

Context {consts : Constants} {helpers : Helpers} {world : World}
        {contents : Contents}.
Variable cfg : config.Globals.

(** Whenever the [kallisto bus] stage returns, its BUS file is
    [output.bus] in [out_dir]. *)
Lemma bus_stage_bus fastqs index_paths technology out_dir temp_dir threads
    memory paired strand batch_allowed h d r :
  bus_stage cfg fastqs index_paths technology out_dir temp_dir threads memory
    paired strand batch_allowed h = (d, inr r) ->
  dict_get r "bus" = Some (PStr (join out_dir BUS_FILENAME)).
Proof.
  intros Hrun. destruct index_paths as [|i l].
  - exfalso. revert Hrun. unfold bus_stage. cbn [length Nat.ltb Nat.leb].
    unfold bind at 1.
    match goal with |- context [match ?x h with _ => _ end] =>
      destruct (x h) as [d0 [e|a]] end; [discriminate|].
    cbn [first]. rewrite run_bind_raise. discriminate.
  - assert (Hne : i :: l <> []) by discriminate.
    destruct (@bus_stage_runs _ _ _ _ cfg fastqs (i :: l) technology out_dir
                temp_dir threads memory paired strand batch_allowed h Hne)
      as (d' & r' & Hrun' & Hbus & _).
    rewrite Hrun' in Hrun. injection Hrun as _ <-. exact Hbus.
Qed.

(** The stage that produces the raw BUS file, or the dictionary that
    stands for it when the stage is skipped. *)
Ltac bus_stage_or_skip walk_rest :=
  lazymatch goal with
  | |- sound _ _ (bind (if ?c then bus_stage _ _ _ _ ?out_dir _ _ _ _ _ _
                        else ret ?skipped) _) _ _ =>
      eapply sound_bind_val
        with (P := fun r => dict_get r "bus"
                            = Some (PStr (join out_dir BUS_FILENAME)));
      [ let h := fresh "h" in
        let d := fresh "d" in
        let a := fresh "a" in
        let H := fresh "H" in
        intros h d a H; destruct c;
        [ eapply bus_stage_bus; exact H
        | injection H as _ <-;
          repeat match goal with
                 | |- context [if ?b then _ else _] => destruct b
                 end; reflexivity ]
      | apply sound_if_keep; [apply sound_bus_stage | apply sound_ret]
      | let r := fresh "r" in
        let Hr := fresh "Hr" in
        intros r Hr; walk_rest ]
  end.

Ltac start :=
  norm;
  eapply sound_bind; [walk false|]; intros _; norm;
  eapply sound_bind; [walk false|]; intros _; norm;
  eapply sound_bind; [walk false|]; intros missing; norm;
  bus_stage_or_skip ltac:(walk false).

Lemma sound_count index_paths t2g_path technology out_dir fastqs
    whitelist_path tcc mm filter filter_threshold kite FB temp_dir threads
    memory overwrite loom h5ad cellranger inspect report fragment_l
    fragment_s paired strand umi_gene em :
  exists q,
    sound false (join out_dir BUS_FILENAME)
      (count cfg index_paths t2g_path technology out_dir fastqs
         whitelist_path tcc mm filter filter_threshold kite FB temp_dir
         threads memory overwrite loom h5ad cellranger inspect report
         fragment_l fragment_s paired strand umi_gene em)
      nothing_seen q.
Proof.
  eexists. unfold count. start.
Qed.

Lemma sound_count_smartseq3 index_paths t2g_path out_dir fastqs tcc mm
    temp_dir threads memory overwrite loom h5ad inspect strand :
  exists q,
    sound true (join out_dir BUS_FILENAME)
      (count_smartseq3 cfg index_paths t2g_path out_dir fastqs tcc mm
         temp_dir threads memory overwrite loom h5ad inspect strand)
      nothing_seen q.
Proof.
  eexists. unfold count_smartseq3. start.
Qed.

Lemma sound_count_velocity index_paths t2g_path cdna_t2c_path intron_t2c_path
    technology out_dir fastqs whitelist_path tcc mm filter filter_threshold
    temp_dir threads memory overwrite loom h5ad cellranger report inspect
    nucleus strand umi_gene em :
  exists q,
    sound true (join out_dir BUS_FILENAME)
      (count_velocity cfg index_paths t2g_path cdna_t2c_path intron_t2c_path
         technology out_dir fastqs whitelist_path tcc mm filter
         filter_threshold temp_dir threads memory overwrite loom h5ad
         cellranger report inspect nucleus strand umi_gene em)
      nothing_seen q.
Proof.
  eexists. unfold count_velocity. start.
Qed.


End Order.

(* ===================================================================== *)
(** * Split indices and [quant-tcc]                                       *)
(* ===================================================================== *)

Section SplitIndex.

Context {consts : Constants} {helpers : Helpers} {world : World}
        {contents : Contents}.
Variable cfg : config.Globals.

(** On a split index, a bulk technology and [tcc], every run of [count]
    that redoes the [kallisto bus] stage stops with [KeyError 'saved_index']:
    the failure of the sample run does not depend on the sample. *)
Lemma count_split_index_tcc_raises index_paths t2g_path technology out_dir
    fastqs whitelist_path mm filter filter_threshold kite FB temp_dir threads
    memory loom h5ad cellranger inspect report fragment_l fragment_s paired
    strand umi_gene em h :
  Nat.ltb 1 (length (as_list index_paths)) = true ->
  str_in (upper technology) ["BULK"; "SMARTSEQ2"] = true ->
  snd (count cfg index_paths t2g_path technology out_dir fastqs
         whitelist_path true mm filter filter_threshold kite FB temp_dir
         threads memory true loom h5ad cellranger inspect report fragment_l
         fragment_s paired strand umi_gene em h)
  = inl (KeyError "saved_index").
Proof.
  intros Hsplit Hbulk. unfold count. rewrite Hbulk.
  assert (Hne : as_list index_paths <> []).
  { intros E. rewrite E in Hsplit. discriminate Hsplit. }
  do 4 step.
  rewrite orb_true_r.
  match goal with |- context [bind (bus_stage ?c ?f ?i ?t ?o ?td ?th ?m ?p ?s ?b) _ ?h'] =>
    destruct (@bus_stage_runs _ _ _ _ cfg f i t o td th m p s b h' Hne)
      as (d0 & r & Hrun & Hbus & Hecmap & Htxnames & Hinfo & Hsaved) end.
  specialize (Hsaved Hsplit).
  repeat step; reflexivity.
Qed.

End SplitIndex.

(* ===================================================================== *)
(** * Concrete runs                                                       *)
(* ===================================================================== *)

(** The commands of a trace whose sub-command (the word after the binary)
    is [sub]. *)
Definition commands_of (sub : string) (tr : list Event) : list (list arg) :=
  flat_map (fun e => match e with
                     | Run ((_ :: AStr s :: _) as command) =>
                         if String.eqb s sub then [command] else []
                     | _ => []
                     end) tr.

Definition has_flag (flag : string) (command : list arg) : bool :=
  existsb (fun a => match a with AStr s => String.eqb s flag | _ => false end)
          command.

(** [count] in the sample environment, on two local FASTQs, with [tcc] and
    [overwrite] set and every other optional argument at its default. *)
Definition sample_count (index_paths : list string) (technology : string)
    : list Event * (Exn + dict) :=
  @count sample_constants sample_helpers sample_world sample_contents
    sample_globals (IndexList index_paths) "t2g.txt" technology "out"
    (Files ["r1.fq"; "r2.fq"]) None true false None None false false "tmp"
    8%Z "4G" true false false false true false None None false None false
    false [].

(** C3. [count] on a split index: with technology [BULK], [tcc] set and two
    indices, [bustools count] is run with [--cm] but the run then stops with
    [KeyError 'saved_index'] and [kallisto quant-tcc] is never run, because
    the dictionary [kallisto_bus_split] returns has no such key.  With one
    index the same call runs [quant-tcc] once, also for [smartseq2] (which
    reaches [kallisto bus] as [-x BULK]); for [10xv2] neither [--cm] nor
    [quant-tcc] appears. *)
Theorem C3_count_quant_tcc_split_index :
  (snd (sample_count ["a.idx"; "b.idx"] "BULK") = inl (KeyError "saved_index") /\
   map (has_flag "--cm")
       (commands_of "count" (fst (sample_count ["a.idx"; "b.idx"] "BULK")))
   = [true] /\
   commands_of "quant-tcc" (fst (sample_count ["a.idx"; "b.idx"] "BULK")) = []) /\
  ((exists r, snd (sample_count ["a.idx"] "BULK") = inr r) /\
   map (has_flag "--cm") (commands_of "count" (fst (sample_count ["a.idx"] "BULK")))
   = [true] /\
   length (commands_of "quant-tcc" (fst (sample_count ["a.idx"] "BULK"))) = 1) /\
  (map (has_flag "--cm")
       (commands_of "count" (fst (sample_count ["a.idx"] "smartseq2")))
   = [true] /\
   length (commands_of "quant-tcc" (fst (sample_count ["a.idx"] "smartseq2"))) = 1 /\
   map (fun c => nth 7 c ANone)
       (commands_of "bus" (fst (sample_count ["a.idx"] "smartseq2")))
   = [AStr "BULK"]) /\
  (map (has_flag "--cm")
       (commands_of "count" (fst (sample_count ["a.idx"] "10xv2")))
   = [false] /\
   commands_of "quant-tcc" (fst (sample_count ["a.idx"] "10xv2")) = []).
Proof.
  repeat split; try (vm_compute; reflexivity).
  vm_compute. eexists. reflexivity.
Qed.


(** Whether a path names a BUS file. *)
Definition is_bus_file (path : string) : bool :=
  String.eqb (substring (String.length path - 4) 4 path) ".bus".

(** The sample file system with other bytes in every BUS file. *)
Definition scrambled_contents : Contents := {|
  file_lines := fun h path =>
    if is_bus_file path then ["BUS"]
    else @file_lines sample_contents h path;
  json_items := fun h path =>
    if is_bus_file path then []
    else @json_items sample_contents h path;
  t2g_table := fun h path =>
    if is_bus_file path then []
    else @t2g_table sample_contents h path
|}.



(** The stages of a trace, in order. *)
Definition stages_of (tr : list Event) : list Stage :=
  flat_map (fun e => match stage_of e with Some st => [st] | None => [] end)
           tr.

(** The order is not vacuous: a correction without a sort before it is
    refused, and the sample runs of the two capturing pipelines go through
    every stage. *)
Lemma sequenced_refuses_unsorted :
  ~ sequenced true "out/output.bus"
      [Run [AStr "bustools"; AStr "correct"; AStr "-o";
            AStr "tmp/output.bus.c"; AStr "-w"; AStr "out/whitelist.txt";
            AStr "out/output.bus"]].
Proof.
  intros (Hsort & _).
  destruct (Hsort [] _ [] eq_refl eq_refl) as (e & [] & _).
Qed.

Lemma sample_count_smartseq3_stages :
  stages_of
    (fst (@count_smartseq3 sample_constants sample_helpers sample_world
            sample_contents sample_globals (IndexList ["a.idx"]) "t2g.txt"
            "out" (Files ["r1.fq"; "r2.fq"]) true false "tmp" 8%Z "4G" true
            false false false None []))
  = [Sort; Correct; Sort; Capture; Capture; Count; Count; Quant; Quant].
Proof. vm_compute. reflexivity. Qed.

Lemma sample_count_velocity_stages :
  stages_of
    (fst (@count_velocity sample_constants sample_helpers sample_world
            sample_contents sample_globals (IndexList ["a.idx"]) "t2g.txt"
            "cdna_t2c.txt" "intron_t2c.txt" "10xv2" "out"
            (Files ["r1.fq"; "r2.fq"]) None false false None None "tmp" 8%Z
            "4G" true false false false false false false None false false
            []))
  = [Sort; Correct; Sort; Capture; Sort; Count; Capture; Sort; Count].
Proof. vm_compute. reflexivity. Qed.

(* ===================================================================== *)
(** * What a computation never does                                       *)
(* ===================================================================== *)

(** Every effect of [m] satisfies [Q], whatever was done before. *)
Definition always (Q : Event -> Prop) {A} (m : M A) : Prop :=
  forall h, Forall Q (trace m h).

(** [m] ends in an exception, whatever was done before. *)
Definition never_returns {A} (m : M A) : Prop :=
  forall h, exists e, snd (m h) = inl e.

(** The word after the binary in a command line. *)
Definition subcommand (e : Event) : option string :=
  match e with
  | Run (_ :: AStr s :: _) => Some s
  | _ => None
  end.

Section Always.

Variable Q : Event -> Prop.

Lemma always_ret {A} (a : A) : always Q (ret a).
Proof. intros h. constructor. Qed.

Lemma always_raise {A} e : always Q (@raise A e).
Proof. intros h. constructor. Qed.

Lemma always_ask {A} (f : History -> A) : always Q (ask f).
Proof. intros h. constructor. Qed.

Lemma always_emit e : Q e -> always Q (emit e).
Proof. intros He h. constructor; [exact He|constructor]. Qed.

Lemma always_ext {A} (m m' : M A) :
  (forall h, m h = m' h) -> always Q m' -> always Q m.
Proof. intros E Hm h. unfold trace. rewrite E. apply Hm. Qed.

Lemma always_bind_val {A B} (m : M A) (k : A -> M B) (P : A -> Prop) :
  (forall h d a, m h = (d, inr a) -> P a) ->
  always Q m -> (forall a, P a -> always Q (k a)) -> always Q (bind m k).
Proof.
  intros HP Hm Hk h. specialize (Hm h). unfold trace, bind in *.
  destruct (m h) as [d [e|a]] eqn:Hrun; cbn [fst] in *; [assumption|].
  specialize (Hk a (HP _ _ _ Hrun) (rev_append d h)). unfold trace in Hk.
  destruct (k a (rev_append d h)) as [d' r]; cbn [fst] in *.
  apply Forall_app. now split.
Qed.

Lemma always_bind {A B} (m : M A) (k : A -> M B) :
  always Q m -> (forall a, always Q (k a)) -> always Q (bind m k).
Proof.
  intros Hm Hk. apply always_bind_val with (P := fun _ => True); auto.
Qed.

Lemma always_bind_ret {A B} (a : A) (k : A -> M B) :
  always Q (k a) -> always Q (bind (ret a) k).
Proof.
  intros Hk. apply always_ext with (m' := k a); [|exact Hk].
  intros h. now rewrite run_bind_ret.
Qed.

Lemma always_bind_assoc {A B C} (m : M A) (f : A -> M B) (k : B -> M C) :
  always Q (bind m (fun a => bind (f a) k)) -> always Q (bind (bind m f) k).
Proof.
  intros Hk. apply always_ext with (m' := bind m (fun a => bind (f a) k));
    [|exact Hk].
  intros h. now rewrite run_bind_bind.
Qed.

Lemma always_bind_getstr {B} d key (k : string -> M B) :
  (forall s, dict_get d key = Some (PStr s) -> always Q (k s)) ->
  always Q (bind (getstr d key) k).
Proof.
  intros Hk h. unfold trace. rewrite run_bind_getstr.
  destruct (dict_get d key) as [[| x |]|]; try constructor.
  now apply (Hk x eq_refl).
Qed.

Lemma always_getitem d k : always Q (getitem d k).
Proof.
  unfold getitem. destruct (dict_get d k); [apply always_ret|apply always_raise].
Qed.

Lemma always_getstr d key : always Q (getstr d key).
Proof.
  unfold getstr. apply always_bind; [apply always_getitem|].
  intros [| |]; first [apply always_ret | apply always_raise].
Qed.

Lemma always_first {A} (l : list A) : always Q (first l).
Proof. destruct l; [apply always_raise|apply always_ret]. Qed.

Lemma always_bound {A} name (v : option A) : always Q (bound name v).
Proof. destruct v; [apply always_ret|apply always_raise]. Qed.

Lemma always_sub_update d k other : always Q (sub_update d k other).
Proof.
  unfold sub_update. apply always_bind; [apply always_getitem|].
  intros [| |]; first [apply always_ret | apply always_raise].
Qed.

Lemma always_sub_getstr d k key : always Q (sub_getstr d k key).
Proof.
  unfold sub_getstr. apply always_bind; [apply always_getitem|].
  intros [| |]; first [apply always_getstr | apply always_raise].
Qed.

Lemma always_sub_getopt d k key : always Q (sub_getopt d k key).
Proof.
  unfold sub_getopt. apply always_bind; [apply always_getitem|].
  intros [| |]; first [apply always_ret | apply always_raise].
Qed.

Lemma always_setdefault_update d k other :
  always Q (setdefault_update d k other).
Proof. unfold setdefault_update. apply always_sub_update. Qed.

Lemma always_foldM {A S} (f : S -> A -> M S) l :
  (forall s x, In x l -> always Q (f s x)) ->
  forall s, always Q (foldM f s l).
Proof.
  induction l as [|x l IH]; intros Hf s; cbn [foldM].
  - apply always_ret.
  - apply always_bind; [apply Hf; now left|].
    intros s'. apply IH. intros s0 y Hy. apply Hf. now right.
Qed.

Lemma always_mapM {A B} (f : A -> M B) l :
  (forall x, In x l -> always Q (f x)) -> always Q (mapM f l).
Proof.
  induction l as [|x l IH]; intros Hf; cbn [mapM].
  - apply always_ret.
  - apply always_bind; [apply Hf; now left|]. intros y.
    apply always_bind; [apply IH; intros z Hz; apply Hf; now right|].
    intros ys. apply always_ret.
Qed.

End Always.

Create HintDb always.
#[global] Hint Resolve always_getitem always_getstr always_first always_bound
  always_sub_update always_sub_getstr always_sub_getopt
  always_setdefault_update : always.

(** Walk through a computation; [leaf] proves the property of one event. *)
Ltac hush leaf :=
  norm;
  lazymatch goal with
  | |- always _ (bind ?m ?k) =>
      lazymatch m with
      | bind _ _ => apply always_bind_assoc; hush leaf
      | ret _ => apply always_bind_ret; hush leaf
      | getstr _ _ =>
          let s := fresh "s" in
          let Hs := fresh "Hs" in
          apply always_bind_getstr; intros s Hs;
          try known_key Hs;
          first [ discriminate Hs
                | try (injection Hs as Hs; try subst s); hush leaf ]
      | emit _ => apply always_bind; [hush leaf | intro; hush leaf]
      | ask _ => apply always_bind; [hush leaf | intro; hush leaf]
      | raise _ => apply always_bind; [hush leaf | intro; hush leaf]
      | (if _ then _ else _) =>
          apply always_bind; [hush leaf | intro; hush leaf]
      | (match _ with _ => _ end) =>
          apply always_bind; [hush leaf | intro; hush leaf]
      | foldM _ _ _ => apply always_bind; [hush leaf | intro; hush leaf]
      | mapM _ _ => apply always_bind; [hush leaf | intro; hush leaf]
      | _ =>
          first [ apply always_bind;
                  [solve [eauto with always nocore] | intro; hush leaf]
                | let f := head_of m in unfold f; hush leaf ]
      end
  | |- always _ (ret _) => apply always_ret
  | |- always _ (raise _) => apply always_raise
  | |- always _ (ask _) => apply always_ask
  | |- always _ (emit (if ?b then _ else _)) => destruct b; hush leaf
  | |- always _ (emit _) => apply always_emit; leaf
  | |- always _ (foldM _ _ _) => apply always_foldM; intros; hush leaf
  | |- always _ (mapM _ _) => apply always_mapM; intros; hush leaf
  | |- always _ (if ?b then _ else _) =>
      first [ match goal with H : b = _ |- _ => rewrite H end
            | destruct b eqn:? ];
      hush leaf
  | |- always _ (match ?x with _ => _ end) => destruct x; hush leaf
  | |- always _ ?m =>
      first [ solve [eauto with always nocore]
            | let f := head_of m in unfold f; hush leaf ]
  end.

Section NeverReturns.

Lemma never_returns_raise {A} e : never_returns (@raise A e).
Proof. intros h. now exists e. Qed.

Lemma never_returns_ext {A} (m m' : M A) :
  (forall h, m h = m' h) -> never_returns m' -> never_returns m.
Proof. intros E Hm h. rewrite E. apply Hm. Qed.

Lemma never_returns_first {A B} (m : M A) (k : A -> M B) :
  never_returns m -> never_returns (bind m k).
Proof.
  intros Hm h. destruct (Hm h) as [e He]. unfold bind.
  destruct (m h) as [d [e'|a]]; cbn in *; [now exists e'|discriminate].
Qed.

Lemma never_returns_rest {A B} (m : M A) (k : A -> M B) :
  (forall a, never_returns (k a)) -> never_returns (bind m k).
Proof.
  intros Hk h. unfold bind. destruct (m h) as [d [e|a]]; [now exists e|].
  destruct (Hk a (rev_append d h)) as [e He].
  destruct (k a (rev_append d h)) as [d' r]. cbn in *. now exists e.
Qed.

Lemma never_returns_bind_ret {A B} (a : A) (k : A -> M B) :
  never_returns (k a) -> never_returns (bind (ret a) k).
Proof.
  intros Hk. apply never_returns_ext with (m' := k a); [|exact Hk].
  intros h. now rewrite run_bind_ret.
Qed.

Lemma never_returns_bind_assoc {A B C} (m : M A) (f : A -> M B)
    (k : B -> M C) :
  never_returns (bind m (fun a => bind (f a) k)) ->
  never_returns (bind (bind m f) k).
Proof.
  intros Hk.
  apply never_returns_ext with (m' := bind m (fun a => bind (f a) k));
    [|exact Hk].
  intros h. now rewrite run_bind_bind.
Qed.

Lemma never_returns_bind_getstr {B} d key (k : string -> M B) :
  (forall s, dict_get d key = Some (PStr s) -> never_returns (k s)) ->
  never_returns (bind (getstr d key) k).
Proof.
  intros Hk h. rewrite run_bind_getstr.
  destruct (dict_get d key) as [[| x |]|]; try (eexists; reflexivity).
  now apply (Hk x eq_refl).
Qed.

Lemma never_returns_bound_none {A} name : never_returns (@bound A name None).
Proof. apply never_returns_raise. Qed.

End NeverReturns.

(** Follow the computation to the statement that raises. *)
Ltac sink :=
  norm;
  lazymatch goal with
  | |- never_returns (raise _) => apply never_returns_raise
  | |- never_returns (bound _ None) => apply never_returns_bound_none
  | |- never_returns (bind ?m ?k) =>
      lazymatch m with
      | bind _ _ => apply never_returns_bind_assoc; sink
      | ret _ => apply never_returns_bind_ret; sink
      | raise _ => apply never_returns_first, never_returns_raise
      | bound _ None => apply never_returns_first, never_returns_bound_none
      | getstr _ _ =>
          let s := fresh "s" in
          let Hs := fresh "Hs" in
          apply never_returns_bind_getstr; intros s Hs;
          try known_key Hs;
          first [ discriminate Hs
                | try (injection Hs as Hs; try subst s); sink ]
      | emit _ => apply never_returns_rest; intro; sink
      | ask _ => apply never_returns_rest; intro; sink
      | (if _ then _ else _) => apply never_returns_rest; intro; sink
      | (match _ with _ => _ end) => apply never_returns_rest; intro; sink
      | foldM _ _ _ => apply never_returns_rest; intro; sink
      | mapM _ _ => apply never_returns_rest; intro; sink
      | bound _ _ => apply never_returns_rest; intro; sink
      | first _ => apply never_returns_rest; intro; sink
      | _ =>
          tryif (let f := head_of m in progress (unfold f))
          then sink
          else (apply never_returns_rest; intro; sink)
      end
  end.

(** ** The sub-command of each command *)

Section Subcommands.

Context {consts : Constants} {helpers : Helpers} {world : World}
        {contents : Contents}.
Variable cfg : config.Globals.

Ltac by_cases :=
  intros;
  repeat match goal with
         | |- context [if ?b then _ else _] => destruct b
         | |- context [match ?o with Some _ => _ | None => _ end] => destruct o
         | |- context [match ?f with Batch _ => _ | Files _ => _ end] =>
             destruct f
         end;
  reflexivity.

Lemma subcommand_sort i o td th m f :
  subcommand (Run (bustools_sort_command cfg i o td th m f)) = Some "sort".
Proof. unfold bustools_sort_command. by_cases. Qed.

Lemma subcommand_correct i o w :
  subcommand (Run (bustools_correct_command cfg i o w)) = Some "correct".
Proof. reflexivity. Qed.

Lemma subcommand_capture i o c e t ty co :
  subcommand (Run (bustools_capture_command cfg i o c e t ty co))
  = Some "capture".
Proof. unfold bustools_capture_command, truthy. by_cases. Qed.

Lemma subcommand_count i o g e t tcc mm cm ug em :
  subcommand (Run (bustools_count_command cfg i o g e t tcc mm cm ug em))
  = Some "count".
Proof. unfold bustools_count_command. by_cases. Qed.

Lemma subcommand_quant_tcc mtx i e g o f l s th :
  subcommand (Run (kallisto_quant_tcc_command cfg mtx i e g o f l s th))
  = Some "quant-tcc".
Proof. unfold kallisto_quant_tcc_command, truthy, truthyZ. by_cases. Qed.

Lemma subcommand_pseudo b i o th :
  subcommand (Run (kallisto_pseudo_command cfg b i o th)) = Some "pseudo".
Proof. unfold kallisto_pseudo_command. by_cases. Qed.

Lemma subcommand_bus f i t o th n k p s :
  subcommand (Run (kallisto_bus_command cfg f i t o th n k p s)) = Some "bus".
Proof. unfold kallisto_bus_command, truthy. by_cases. Qed.

Lemma subcommand_mash ds o :
  subcommand (Run (bustools_mash_command cfg ds o)) = Some "mash".
Proof. unfold bustools_mash_command. by_cases. Qed.

Lemma subcommand_merge b o e t :
  subcommand (Run (bustools_merge_command cfg b o e t)) = Some "merge".
Proof. reflexivity. Qed.

Lemma subcommand_project b o m e t :
  subcommand (Run (bustools_project_command cfg b o m e t)) = Some "project".
Proof. unfold bustools_project_command. by_cases. Qed.

Lemma subcommand_inspect b o w e :
  subcommand (Run (bustools_inspect_command cfg b o w e)) = Some "inspect".
Proof. unfold bustools_inspect_command, truthy. by_cases. Qed.

Lemma subcommand_whitelist b o t :
  subcommand (Run (bustools_whitelist_command cfg b o t)) = Some "whitelist".
Proof. unfold bustools_whitelist_command, truthyZ. by_cases. Qed.

End Subcommands.

Create Rewrite HintDb subcommands.
#[global] Hint Rewrite @subcommand_sort @subcommand_correct
  @subcommand_capture @subcommand_count @subcommand_quant_tcc
  @subcommand_pseudo @subcommand_bus @subcommand_mash @subcommand_merge
  @subcommand_project @subcommand_inspect @subcommand_whitelist
  : subcommands.

(** The sub-command of an event is none of the listed ones. *)
Ltac other_subcommand :=
  autorewrite with subcommands; cbn [subcommand];
  repeat split; discriminate.

(* ===================================================================== *)
(** * Further properties of count.py                                      *)
(* ===================================================================== *)

Section Skipping.

Context {consts : Constants} {helpers : Helpers} {world : World}
        {contents : Contents}.
Variable cfg : config.Globals.

(** X1. With the outputs of [kallisto bus] in place and [overwrite] unset,
    [count] redoes none of the BUS-generating stage: it runs neither
    [kallisto bus] nor [bustools mash] nor [bustools merge]. *)
Theorem count_skips_kallisto_bus :
  forall index_paths t2g_path technology out_dir fastqs whitelist_path tcc mm
         filter filter_threshold kite FB temp_dir threads memory loom h5ad
         cellranger inspect report fragment_l fragment_s paired strand
         umi_gene em,
    (forall h p,
        In p [join out_dir BUS_FILENAME; join out_dir ECMAP_FILENAME;
              join out_dir TXNAMES_FILENAME;
              join out_dir KALLISTO_INFO_FILENAME;
              join out_dir SAVED_INDEX_FILENAME] ->
        path_exists h p = true) ->
    always (fun e => subcommand e <> Some "bus" /\
                     subcommand e <> Some "mash" /\
                     subcommand e <> Some "merge")
      (count cfg index_paths t2g_path technology out_dir fastqs
         whitelist_path tcc mm filter filter_threshold kite FB temp_dir
         threads memory false loom h5ad cellranger inspect report fragment_l
         fragment_s paired strand umi_gene em).
Proof.
  intros until em. intros Hexists. unfold count. norm.
  apply always_bind; [hush other_subcommand|]. intros _. norm.
  apply always_bind; [hush other_subcommand|]. intros _. norm.
  apply always_bind_val with (P := fun missing => missing = false).
  - intros h d a Hrun. unfold any_missing, ask in Hrun.
    injection Hrun as _ <-.
    match goal with |- context [if ?b then _ else _] => destruct b end;
      cbn; rewrite !Hexists by (cbn; tauto); reflexivity.
  - hush other_subcommand.
  - intros missing ->. cbn [orb]. hush other_subcommand.
Qed.

End Skipping.

(** An effect that neither reads nor writes the contents of a file. *)
Definition leaves_files_alone (e : Event) : Prop := touches_contents e = false.

Section DryRun.

Context {consts : Constants} {helpers : Helpers} {world : World}
        {contents : Contents}.
Variable cfg : config.Globals.
Hypothesis Hdry : config.is_dry cfg = true.

Lemma dry_bustools_mash out_dirs out_dir :
  always leaves_files_alone (bustools_mash cfg out_dirs out_dir).
Proof.
  unfold bustools_mash. rewrite Hdry. cbn [negb]. hush reflexivity.
Qed.

Lemma dry_stream_batch batch_path temp_dir :
  always leaves_files_alone (stream_batch cfg batch_path temp_dir).
Proof. unfold stream_batch, dryable. rewrite Hdry. hush reflexivity. Qed.

Lemma dry_write_smartseq3_capture capture_path :
  always leaves_files_alone (write_smartseq3_capture cfg capture_path).
Proof.
  unfold write_smartseq3_capture, dryable. rewrite Hdry. hush reflexivity.
Qed.

Local Hint Resolve dry_bustools_mash dry_stream_batch
  dry_write_smartseq3_capture : always.


End DryRun.

Section DeadEnds.

Context {consts : Constants} {helpers : Helpers} {world : World}
        {contents : Contents}.
Variable cfg : config.Globals.

(** X3. [count] cannot succeed with [report] set and [inspect] unset: the
    report is made from [inspect_result], which is only bound when
    [inspect] is set, so the run ends in an exception whatever the other
    arguments are. *)
Theorem count_report_needs_inspect :
  forall index_paths t2g_path technology out_dir fastqs whitelist_path tcc mm
         filter filter_threshold kite FB temp_dir threads memory overwrite
         loom h5ad cellranger fragment_l fragment_s paired strand umi_gene
         em,
    never_returns
      (count cfg index_paths t2g_path technology out_dir fastqs
         whitelist_path tcc mm filter filter_threshold kite FB temp_dir
         threads memory overwrite loom h5ad cellranger false true fragment_l
         fragment_s paired strand umi_gene em).
Proof.
  intros. unfold count. sink.
Qed.

(** X4. [count] cannot succeed with both [tcc] and [cellranger] set: unlike
    [filter_with_bustools] it does not check [tcc] before the conversion,
    which looks up the key [genes], and a TCC count does not produce that
    key. *)
Theorem count_cellranger_with_tcc_fails :
  forall index_paths t2g_path technology out_dir fastqs whitelist_path mm
         filter filter_threshold kite FB temp_dir threads memory overwrite
         loom h5ad inspect report fragment_l fragment_s paired strand
         umi_gene em,
    never_returns
      (count cfg index_paths t2g_path technology out_dir fastqs
         whitelist_path true mm filter filter_threshold kite FB temp_dir
         threads memory overwrite loom h5ad true inspect report fragment_l
         fragment_s paired strand umi_gene em).
Proof.
  intros. unfold count. sink.
Qed.

End DeadEnds.

Section NoIndex.

Context {consts : Constants} {helpers : Helpers} {world : World}
        {contents : Contents}.
Variable cfg : config.Globals.

Lemma bus_stage_no_index fastqs technology out_dir temp_dir threads memory
    paired strand batch_allowed h :
  exists d,
    bus_stage cfg fastqs [] technology out_dir temp_dir threads memory paired
      strand batch_allowed h = (d, inl IndexError) /\
    Forall (fun e => is_run e = false) d.
Proof.
  unfold bus_stage. cbn [length Nat.ltb Nat.leb].
  match goal with |- context [bind ?m _ h] => set (streaming := m) end.
  assert (Hquiet : always (fun e => is_run e = false) streaming).
  { subst streaming. hush reflexivity. }
  assert (Hruns : exists d a, streaming h = (d, inr a)).
  { subst streaming. destruct fastqs as [path|paths].
    - destruct batch_allowed.
      + destruct (stream_batch_runs cfg path temp_dir h) as (d & p & Hp).
        rewrite (run_bind_known _ Hp). do 2 eexists. reflexivity.
      + destruct (stream_fastqs_runs (Batch path) temp_dir h)
          as (d & l & Hl & _).
        rewrite (run_bind_known _ Hl). do 2 eexists. reflexivity.
    - destruct (stream_fastqs_runs (Files paths) temp_dir h)
        as (d & l & Hl & _).
      rewrite (run_bind_known _ Hl). do 2 eexists. reflexivity. }
  destruct Hruns as (d & a & Hrun).
  specialize (Hquiet h). unfold trace in Hquiet. rewrite Hrun in Hquiet.
  rewrite (run_bind_known _ Hrun). cbn [first]. rewrite run_bind_raise.
  exists d. split; [|exact Hquiet].
  unfold app_trace. cbn [fst snd]. now rewrite app_nil_r.
Qed.


End NoIndex.

Lemma dict_of_two {V} (a b : string) (x y : V) kv :
  In kv (dict_of [(a, x); (b, y)]) -> kv = (a, x) \/ kv = (b, y).
Proof.
  unfold dict_of, dict_update. cbn.
  destruct (String.eqb_spec a b) as [->|Hab]; cbn.
  - intros [<-|[]]. now right.
  - intros [<-|[<-|[]]]; [now left|now right].
Qed.

Section Velocity.

Context {consts : Constants} {helpers : Helpers} {world : World}
        {contents : Contents}.
Variable cfg : config.Globals.

(** A [bustools capture] of [count_velocity]: with [--complement], into the
    spliced BUS file from the intron list, or into the unspliced BUS file
    from the cDNA list. *)
Definition velocity_capture (cdna_t2c_path intron_t2c_path temp_dir : string)
    (e : Event) : Prop :=
  exists bus ecmap txnames,
    e = Run (bustools_capture_command cfg bus
               (join temp_dir (BUS_CDNA_PREFIX ++ ".bus")) intron_t2c_path
               (Some ecmap) (Some txnames) "transcripts" true) \/
    e = Run (bustools_capture_command cfg bus
               (join temp_dir (BUS_INTRON_PREFIX ++ ".bus")) cdna_t2c_path
               (Some ecmap) (Some txnames) "transcripts" true).

Ltac capture_leaf :=
  intro;
  first
    [ exfalso;
      match goal with
      | Hc : subcommand _ = Some _ |- _ =>
          autorewrite with subcommands in Hc; cbn [subcommand] in Hc;
          discriminate Hc
      end
    | match goal with
      | Hin : In _ (dict_of _) |- _ =>
          apply dict_of_two in Hin; destruct Hin as [Hin|Hin];
          injection Hin as -> ->;
          do 3 eexists; first [left; reflexivity | right; reflexivity]
      end ].

(** X6. The lists are swapped on purpose: every [bustools capture] that
    [count_velocity] runs, before and after filtering, takes the complement
    of a capture list, the intron list for the spliced records and the cDNA
    list for the unspliced ones. *)
Theorem count_velocity_captures_complement :
  forall index_paths t2g_path cdna_t2c_path intron_t2c_path technology
         out_dir fastqs whitelist_path tcc mm filter filter_threshold
         temp_dir threads memory overwrite loom h5ad cellranger report
         inspect nucleus strand umi_gene em,
    always (fun e => subcommand e = Some "capture" ->
                     velocity_capture cdna_t2c_path intron_t2c_path temp_dir e)
      (count_velocity cfg index_paths t2g_path cdna_t2c_path intron_t2c_path
         technology out_dir fastqs whitelist_path tcc mm filter
         filter_threshold temp_dir threads memory overwrite loom h5ad
         cellranger report inspect nucleus strand umi_gene em).
Proof.
  intros. unfold count_velocity, velocity_capture. hush capture_leaf.
Qed.

End Velocity.

Section Smartseq3.

Context {consts : Constants} {helpers : Helpers} {world : World}
        {contents : Contents}.
Variable cfg : config.Globals.

(** The two BUS files [count_smartseq3] splits the corrected records
    into. *)
Definition internal_bus (out_dir : string) : string :=
  join out_dir ("output" ++ INTERNAL_SUFFIX ++ ".bus").
Definition umi_bus (out_dir : string) : string :=
  join out_dir ("output" ++ UMI_SUFFIX ++ ".bus").

(** What [count_smartseq3] captures and counts: the internal reads are the
    records captured by the list (no [--complement]) and are counted with
    [--cm]; the UMI reads are the complement and are counted with
    [--umi-gene]. *)
Definition smartseq3_split (t2g_path out_dir : string) (tcc mm : bool)
    (e : Event) : Prop :=
  (subcommand e = Some "capture" ->
   exists bus capture_path,
     e = Run (bustools_capture_command cfg bus (internal_bus out_dir)
                capture_path None None "umis" false) \/
     e = Run (bustools_capture_command cfg bus (umi_bus out_dir)
                capture_path None None "umis" true)) /\
  (subcommand e = Some "count" ->
   exists ecmap txnames,
     e = Run (bustools_count_command cfg (internal_bus out_dir)
                (join (join out_dir (UNFILTERED_COUNTS_DIR ++ INTERNAL_SUFFIX))
                      (if tcc then TCC_PREFIX else COUNTS_PREFIX))
                t2g_path ecmap txnames tcc (orb mm tcc) true false false) \/
     e = Run (bustools_count_command cfg (umi_bus out_dir)
                (join (join out_dir (UNFILTERED_COUNTS_DIR ++ UMI_SUFFIX))
                      (if tcc then TCC_PREFIX else COUNTS_PREFIX))
                t2g_path ecmap txnames tcc (orb mm tcc) false true false)).

Ltac split_leaf :=
  split; intro;
  first
    [ exfalso;
      match goal with
      | Hc : subcommand _ = Some _ |- _ =>
          autorewrite with subcommands in Hc; cbn [subcommand] in Hc;
          discriminate Hc
      end
    | do 2 eexists; first [left; reflexivity | right; reflexivity] ].

(** X7. Every [bustools capture] and [bustools count] of
    [count_smartseq3] is one of the two of its split: the internal reads
    are captured without [--complement] and counted with [--cm], the UMI
    reads are the complement and are counted with [--umi-gene]. *)
Theorem count_smartseq3_splits_reads :
  forall index_paths t2g_path out_dir fastqs tcc mm temp_dir threads memory
         overwrite loom h5ad inspect strand,
    always (smartseq3_split t2g_path out_dir tcc mm)
      (count_smartseq3 cfg index_paths t2g_path out_dir fastqs tcc mm
         temp_dir threads memory overwrite loom h5ad inspect strand).
Proof.
  intros. unfold count_smartseq3, smartseq3_split, internal_bus, umi_bus.
  hush split_leaf.
Qed.

End Smartseq3.

Section Counting.

Context {consts : Constants} {helpers : Helpers} {world : World}
        {contents : Contents}.
Variable cfg : config.Globals.

(** The [bustools count] and [kallisto quant-tcc] commands of [count]: the
    count before filtering gets [--cm] exactly for the bulk technologies and
    [--multimapping] when [mm] or [tcc] is set; the count after filtering
    gets neither; [quant-tcc] needs a bulk technology and [tcc]. *)
Definition count_counting (t2g_path technology out_dir : string)
    (tcc mm kite umi_gene em : bool) (e : Event) : Prop :=
  let bulk := str_in (upper technology) ["BULK"; "SMARTSEQ2"] in
  let prefix := if tcc then TCC_PREFIX
                else if kite then FEATURE_PREFIX else COUNTS_PREFIX in
  (subcommand e = Some "count" ->
   exists bus ecmap txnames,
     e = Run (bustools_count_command cfg bus
                (join (join out_dir UNFILTERED_COUNTS_DIR) prefix)
                t2g_path ecmap txnames tcc (orb mm tcc) bulk umi_gene em) \/
     e = Run (bustools_count_command cfg bus
                (join (join out_dir FILTERED_COUNTS_DIR) prefix)
                t2g_path ecmap txnames tcc false false umi_gene em)) /\
  (subcommand e = Some "quant-tcc" -> bulk = true /\ tcc = true).

Ltac counting_leaf :=
  split; intro;
  first
    [ exfalso;
      match goal with
      | Hc : subcommand _ = Some _ |- _ =>
          autorewrite with subcommands in Hc; cbn [subcommand] in Hc;
          discriminate Hc
      end
    | do 3 eexists; first [left; reflexivity | right; reflexivity]
    | match goal with
      | Hq : andb _ _ = true |- _ => apply andb_true_iff in Hq; exact Hq
      end ].

(** X8. Every [bustools count] of [count] is the count before filtering,
    with [--cm] exactly for the technologies [BULK] and [SMARTSEQ2] and with
    [--multimapping] when [mm] or [tcc] is set, or the count after
    filtering, with neither; [kallisto quant-tcc] is only run for those two
    technologies with [tcc] set. *)
Theorem count_counts_by_technology :
  forall index_paths t2g_path technology out_dir fastqs whitelist_path tcc mm
         filter filter_threshold kite FB temp_dir threads memory overwrite
         loom h5ad cellranger inspect report fragment_l fragment_s paired
         strand umi_gene em,
    always (count_counting t2g_path technology out_dir tcc mm kite umi_gene em)
      (count cfg index_paths t2g_path technology out_dir fastqs
         whitelist_path tcc mm filter filter_threshold kite FB temp_dir
         threads memory overwrite loom h5ad cellranger inspect report
         fragment_l fragment_s paired strand umi_gene em).
Proof.
  intros. unfold count, count_counting. hush counting_leaf.
Qed.

Ltac bus_leaf :=
  intro;
  first
    [ exfalso;
      match goal with
      | Hc : subcommand _ = Some _ |- _ =>
          autorewrite with subcommands in Hc; cbn [subcommand] in Hc;
          discriminate Hc
      end
    | do 5 eexists; reflexivity ].

(** X9. Every [kallisto bus] that [count] runs, on one index or on the parts of
    a split index, is given [BULK] as technology when the technology is
    [SMARTSEQ2] in any case, and the technology as it was passed
    otherwise. *)
Theorem count_bus_technology :
  forall index_paths t2g_path technology out_dir fastqs whitelist_path tcc mm
         filter filter_threshold kite FB temp_dir threads memory overwrite
         loom h5ad cellranger inspect report fragment_l fragment_s paired
         strand umi_gene em,
    always (fun e =>
              subcommand e = Some "bus" ->
              exists fs index_path dir n k,
                e = Run (kallisto_bus_command cfg fs index_path
                           (if String.eqb (upper technology) "SMARTSEQ2"
                            then "BULK" else technology)
                           dir threads n k paired strand))
      (count cfg index_paths t2g_path technology out_dir fastqs
         whitelist_path tcc mm filter filter_threshold kite FB temp_dir
         threads memory overwrite loom h5ad cellranger inspect report
         fragment_l fragment_s paired strand umi_gene em).
Proof.
  intros. unfold count. hush bus_leaf.
Qed.

End Counting.

Section Streaming.

Context {consts : Constants} {helpers : Helpers} {world : World}
        {contents : Contents}.
Variable cfg : config.Globals.

(** X10. [stream_fastqs] keeps the list aligned with its input: it streams the
    remote FASTQs, in order and each into [temp_dir] under its own base
    name, returns one path per input and returns every local path
    unchanged at its place. *)
Theorem stream_fastqs_keeps_local :
  forall paths temp_dir h,
  exists locals,
    stream_fastqs (Files paths) temp_dir h
    = (map (fun f => StreamFile f (join temp_dir (basename f)))
           (filter in_url_schemes paths),
       inr locals) /\
    length locals = length paths /\
    (forall i f, nth_error paths i = Some f -> in_url_schemes f = false ->
                 nth_error locals i = Some f).
Proof.
  intros paths temp_dir. unfold stream_fastqs, stream_file. cbn [iterate].
  induction paths as [|f fs IH]; intros h; cbn [mapM filter map length].
  - exists []. repeat split. intros [|i] f H; discriminate H.
  - destruct (in_url_schemes f) eqn:Hf.
    + repeat step.
      match goal with |- context [bind (mapM ?g fs) ?k ?h'] =>
        destruct (IH h') as (locals & Hrun & Hlen & Hnth)
      end.
      steps.
      eexists. split; [reflexivity|]. split; [cbn; now rewrite Hlen|].
      intros [|i] f' Hi Hf'; cbn in *.
      * injection Hi as <-. congruence.
      * now apply Hnth.
    + repeat step.
      match goal with |- context [bind (mapM ?g fs) ?k ?h'] =>
        destruct (IH h') as (locals & Hrun & Hlen & Hnth)
      end.
      steps.
      eexists. split; [reflexivity|]. split; [cbn; now rewrite Hlen|].
      intros [|i] f' Hi Hf'; cbn in *.
      * injection Hi as <-. reflexivity.
      * now apply Hnth.
Qed.

(** What [stream_batch] may do: stream a file into the directory [tmp],
    take a temporary file in [temp_dir], and anything but run a command. *)
Definition streams_into_tmp (temp_dir : string) (e : Event) : Prop :=
  match e with
  | StreamFile url path => path = join "tmp" (basename url)
  | TemporaryFile dir _ => dir = temp_dir
  | Run _ => False
  | _ => True
  end.

(** X11. The remote FASTQs of a batch file are streamed into the directory
    [tmp], whatever [temp_dir] is passed: only the new batch file is placed
    in [temp_dir].  [stream_batch] runs no command. *)
Theorem stream_batch_streams_into_tmp :
  forall batch_path temp_dir,
    always (streams_into_tmp temp_dir) (stream_batch cfg batch_path temp_dir).
Proof.
  intros. unfold stream_batch, dryable.
  hush ltac:(cbn; first [reflexivity | exact I]).
Qed.

End Streaming.

(** ** The combined run information of [bustools_mash] *)

(** The values under [key] in a combined run information, and in the items
    of one [run_info.json]. *)
Definition values_of (key : string) (run_info : list (string * list string))
  : list string :=
  match dict_get run_info key with
  | Some vs => vs
  | None => []
  end.

Definition values_in (key : string) (info : list (string * string))
  : list string :=
  map snd (filter (fun kv => String.eqb (fst kv) key) info).

Lemma values_of_setdefault_append run_info k v key :
  values_of key (setdefault_append run_info k v)
  = values_of key run_info ++ (if String.eqb k key then [v] else []).
Proof.
  unfold values_of.
  induction run_info as [|[k' vs] rest IH]; cbn [setdefault_append dict_get].
  - destruct (String.eqb k key); reflexivity.
  - destruct (String.eqb_spec k' k) as [->|Hk]; cbn [dict_get].
    + destruct (String.eqb k key); [reflexivity|].
      destruct (dict_get rest key); now rewrite app_nil_r.
    + destruct (String.eqb_spec k' key) as [->|Hkey].
      * destruct (String.eqb_spec k key) as [->|_];
          [congruence|now rewrite app_nil_r].
      * exact IH.
Qed.

Lemma keys_setdefault_append run_info k v :
  NoDup (map fst run_info) ->
  NoDup (map fst (setdefault_append run_info k v)) /\
  (forall x, In x (map fst (setdefault_append run_info k v)) <->
             x = k \/ In x (map fst run_info)).
Proof.
  induction run_info as [|[k' vs] rest IH]; cbn [setdefault_append map fst].
  - intros _. split; [repeat constructor; intros []|].
    intros x. cbn. intuition.
  - intros Hnd. inversion Hnd as [|? ? Hnotin Hrest]; subst.
    destruct (String.eqb_spec k' k) as [->|Hk]; cbn [map fst].
    + split; [exact Hnd|]. intros x. cbn. intuition.
    + destruct (IH Hrest) as [IHnd IHin].
      split.
      * constructor; [|exact IHnd].
        intros Hin. apply IHin in Hin as [Hin|Hin]; [congruence|contradiction].
      * intros x. cbn. rewrite IHin. intuition.
Qed.

Lemma combine_one_info info :
  forall run_info,
    NoDup (map fst run_info) ->
    let run_info' :=
      fold_left (fun acc kv => setdefault_append acc (fst kv) (snd kv))
                info run_info in
    NoDup (map fst run_info') /\
    (forall key, values_of key run_info'
                 = values_of key run_info ++ values_in key info).
Proof.
  induction info as [|[k v] info IH]; intros run_info Hnd; cbn [fold_left].
  - split; [exact Hnd|]. intros key. unfold values_in. cbn.
    now rewrite app_nil_r.
  - destruct (@keys_setdefault_append run_info k v Hnd) as [Hnd' _].
    destruct (IH _ Hnd') as [Hnd'' Hvals].
    split; [exact Hnd''|]. intros key. cbn [fst snd] in *.
    rewrite Hvals, values_of_setdefault_append, <- app_assoc.
    f_equal. unfold values_in. cbn [filter fst].
    destruct (String.eqb k key); reflexivity.
Qed.

Section RunInfo.

Context {consts : Constants} {helpers : Helpers} {world : World}
        {contents : Contents}.
Variable cfg : config.Globals.

Lemma combine_run_info_from out_dirs :
  forall run_info h,
    NoDup (map fst run_info) ->
    exists infos run_info',
      Forall2 (fun o info =>
                 exists h', info = json_items h' (join o KALLISTO_INFO_FILENAME))
              out_dirs infos /\
      foldM (fun run_info o_dir =>
               info <- json_load (join o_dir KALLISTO_INFO_FILENAME) ;;
               ret (fold_left (fun acc kv =>
                      setdefault_append acc (fst kv) (snd kv)) info run_info))
            run_info out_dirs h
      = (map (fun o => JsonLoad (join o KALLISTO_INFO_FILENAME)) out_dirs,
         inr run_info') /\
      NoDup (map fst run_info') /\
      (forall key, values_of key run_info'
                   = values_of key run_info ++ flat_map (values_in key) infos).
Proof.
  unfold json_load.
  induction out_dirs as [|o l IH]; intros run_info h Hnd; cbn [foldM map].
  - exists [], run_info. split; [constructor|]. split; [reflexivity|].
    split; [exact Hnd|]. intros key. cbn. now rewrite app_nil_r.
  - repeat step.
    match goal with |- context [foldM ?f ?s l ?h'] =>
      destruct (@combine_one_info
                  (json_items h (join o KALLISTO_INFO_FILENAME)) run_info Hnd)
        as [Hnd' Hvals];
      destruct (IH s h' Hnd') as (infos & r' & Hall & Hrun & Hnd'' & Hvals')
    end.
    rewrite Hrun.
    exists (json_items h (join o KALLISTO_INFO_FILENAME) :: infos), r'.
    split; [constructor; [now exists h|exact Hall]|].
    split; [reflexivity|]. split; [exact Hnd''|].
    intros key. rewrite Hvals', Hvals. cbn [flat_map].
    now rewrite app_assoc.
Qed.

Lemma combine_run_info_values out_dirs h :
  exists infos run_info,
    Forall2 (fun o info =>
               exists h', info = json_items h' (join o KALLISTO_INFO_FILENAME))
            out_dirs infos /\
    combine_run_info out_dirs h
    = (map (fun o => JsonLoad (join o KALLISTO_INFO_FILENAME)) out_dirs,
       inr run_info) /\
    NoDup (map fst run_info) /\
    (forall key, values_of key run_info = flat_map (values_in key) infos).
Proof.
  unfold combine_run_info.
  destruct (@combine_run_info_from out_dirs [] h (NoDup_nil _))
    as (infos & run_info & Hall & Hrun & Hnd & Hvals).
  exists infos, run_info. repeat split; assumption.
Qed.


End RunInfo.

(** ** Small file writers *)

Lemma fold_left_snoc_map {A B} (g : A -> B) l acc :
  fold_left (fun out x => out ++ [g x]) l acc = acc ++ map g l.
Proof.
  revert acc. induction l as [|x l IH]; intros acc; simpl.
  - now rewrite app_nil_r.
  - rewrite IH. now rewrite <- app_assoc.
Qed.

Lemma dict_get_set_other {V} (d : odict V) k k' v :
  k <> k' -> dict_get (dict_set d k v) k' = dict_get d k'.
Proof.
  intros Hk. induction d as [|[k0 v0] d IH]; cbn [dict_set dict_get].
  - destruct (String.eqb_spec k k'); [contradiction|reflexivity].
  - destruct (String.eqb_spec k0 k) as [->|H0]; cbn [dict_get].
    + destruct (String.eqb_spec k k'); [contradiction|reflexivity].
    + destruct (String.eqb k0 k'); [reflexivity|exact IH].
Qed.

Section Writers.

Context {consts : Constants} {helpers : Helpers} {world : World}
        {contents : Contents}.
Variable cfg : config.Globals.

(** The line of the batch file for one cell. *)
Definition batch_line (row : string * (string * string)) : string :=
  fst row ++ tabs ++ fst (snd row) ++ tabs ++ snd (snd row) ++ nl.

Lemma write_smartseq_batch_runs fastq_pairs cell_ids out_path h :
  write_smartseq_batch fastq_pairs cell_ids out_path h
  = ([WriteLines out_path (map batch_line (combine cell_ids fastq_pairs))],
     inr [("batch", PStr out_path)]).
Proof.
  unfold write_smartseq_batch.
  assert (E : forall l acc,
             fold_left (fun out (row : string * (string * string)) =>
                          let '(cell_id, (fastq_1, fastq_2)) := row in
                          out ++ [(cell_id ++ tabs ++ fastq_1 ++ tabs
                                   ++ fastq_2 ++ nl)%string]) l acc
             = acc ++ map batch_line l).
  { induction l as [|[c [f1 f2]] l IH]; intros acc; cbn [fold_left map].
    - now rewrite app_nil_r.
    - rewrite IH, <- app_assoc. reflexivity. }
  cbv zeta. rewrite E, app_nil_l. reflexivity.
Qed.

(** X13. [write_smartseq_batch] pairs the cell ids with the FASTQ pairs as
    [zip] does: it writes one line per cell, in order, for as many cells as
    there are both an id and a pair, and drops what is left of the longer
    list without complaint. *)
Theorem write_smartseq_batch_zips :
  forall fastq_pairs cell_ids out_path h,
  exists lines,
    write_smartseq_batch fastq_pairs cell_ids out_path h
    = ([WriteLines out_path lines], inr [("batch", PStr out_path)]) /\
    lines = map batch_line (combine cell_ids fastq_pairs) /\
    length lines = Nat.min (length cell_ids) (length fastq_pairs).
Proof.
  intros. eexists. split; [apply write_smartseq_batch_runs|].
  split; [reflexivity|]. now rewrite length_map, length_combine.
Qed.

(** The name [matrix_to_cellranger] writes next to a gene: the third column
    of the mapping of that gene. *)
Definition gene_names (t2g_lines : list string) : odict string :=
  fold_left (fun gene_to_name line =>
               if isspace line then gene_to_name
               else match split_on tab (strip line) with
                    | _ :: g :: name :: _ => dict_set gene_to_name g name
                    | _ => gene_to_name
                    end) t2g_lines [].

Definition cellranger_gene (names : odict string) (line : string) : string :=
  let gene := strip line in
  gene ++ tabs
  ++ match dict_get names gene with Some name => name | None => gene end
  ++ nl.

(** No line of the mapping gives [gene] a name. *)
Definition unnamed (t2g_lines : list string) (gene : string) : Prop :=
  forall line t g name rest,
    In line t2g_lines -> isspace line = false ->
    split_on tab (strip line) = t :: g :: name :: rest -> g <> gene.

Lemma gene_names_unnamed t2g_lines gene :
  unnamed t2g_lines gene -> dict_get (gene_names t2g_lines) gene = None.
Proof.
  unfold gene_names, unnamed.
  assert (G : forall l (acc : odict string),
             dict_get acc gene = None ->
             (forall line t g name rest,
                 In line l -> isspace line = false ->
                 split_on tab (strip line) = t :: g :: name :: rest ->
                 g <> gene) ->
             dict_get
               (fold_left (fun gene_to_name line =>
                             if isspace line then gene_to_name
                             else match split_on tab (strip line) with
                                  | _ :: g :: name :: _ =>
                                      dict_set gene_to_name g name
                                  | _ => gene_to_name
                                  end) l acc) gene = None).
  { induction l as [|line l IH]; intros acc Hacc Hl; cbn [fold_left].
    - exact Hacc.
    - apply IH; [|intros; eapply Hl; eauto; now right].
      destruct (isspace line) eqn:Hsp; [exact Hacc|].
      destruct (split_on tab (strip line)) as [|t [|g [|name rest]]] eqn:Hs;
        try exact Hacc.
      rewrite dict_get_set_other; [exact Hacc|].
      eapply Hl; eauto. now left. }
  intros H. apply G; [reflexivity|exact H].
Qed.

(** X14. [matrix_to_cellranger] transposes the matrix, writes every non-blank
    barcode with the suffix [-1], and writes every non-blank gene followed
    by its name; a gene the mapping gives no name is written with its own
    identifier as name.  Order and multiplicity of the lines are kept. *)
Theorem matrix_to_cellranger_writes :
  forall matrix_path barcodes_path genes_path t2g_path out_dir h,
  exists barcodes t2g genes,
    (exists h', barcodes = file_lines h' barcodes_path) /\
    (exists h', t2g = file_lines h' t2g_path) /\
    (exists h', genes = file_lines h' genes_path) /\
    matrix_to_cellranger matrix_path barcodes_path genes_path t2g_path
      out_dir h
    = ([MakeDirectory out_dir;
        MMRead matrix_path;
        MMWriteTransposed (join out_dir CELLRANGER_MATRIX) matrix_path
          "integer";
        ReadLines barcodes_path;
        WriteLines (join out_dir CELLRANGER_BARCODES)
          (map (fun line => (strip line ++ "-1" ++ nl)%string)
               (filter nonblank barcodes));
        ReadLines t2g_path;
        ReadLines genes_path;
        WriteLines (join out_dir CELLRANGER_GENES)
          (map (cellranger_gene (gene_names t2g)) (filter nonblank genes))],
       inr [("mtx", PStr (join out_dir CELLRANGER_MATRIX));
            ("barcodes", PStr (join out_dir CELLRANGER_BARCODES));
            ("genes", PStr (join out_dir CELLRANGER_GENES))]) /\
    (forall line, In line genes -> nonblank line = true ->
                  unnamed t2g (strip line) ->
                  cellranger_gene (gene_names t2g) line
                  = (strip line ++ tabs ++ strip line ++ nl)%string).
Proof.
  intros. unfold matrix_to_cellranger, make_directory, read_lines.
  repeat step. steps.
  do 3 eexists.
  split; [eexists; reflexivity|]. split; [eexists; reflexivity|].
  split; [eexists; reflexivity|].
  split.
  - rewrite !fold_left_snoc_filter. reflexivity.
  - intros line _ _ Hun. unfold cellranger_gene. cbv zeta.
    now rewrite (gene_names_unnamed Hun).
Qed.

End Writers.

Section Filtering.

Context {consts : Constants} {helpers : Helpers} {world : World}
        {contents : Contents}.
Variable cfg : config.Globals.

(** The three commands every call of [filter_with_bustools] starts with:
    a whitelist is generated from the BUS file, the BUS file is corrected
    against that very whitelist, and the result is sorted into
    [filtered_bus_path]. *)
Definition filter_commands (bus_path whitelist_path filtered_bus_path : string)
    (filter_threshold : option Z) (temp_dir : string) (threads : Z)
    (memory : string) : list Event :=
  let corrected :=
    join temp_dir (update_filename (basename bus_path) CORRECT_CODE) in
  [Run (bustools_whitelist_command cfg bus_path whitelist_path
          filter_threshold);
   Run (bustools_correct_command cfg bus_path corrected (Some whitelist_path));
   Run (bustools_sort_command cfg corrected filtered_bus_path temp_dir
          threads memory false)].



(** X17. A TCC matrix is never converted to the cellranger format by
    [filter_with_bustools]: with [tcc] set, and even with [cellranger] set,
    it reads and writes no text or matrix file itself, which is all that
    [matrix_to_cellranger] does. *)
Theorem filter_with_bustools_tcc_no_cellranger :
  forall bus_path ecmap_path txnames_path t2g_path whitelist_path
         filtered_bus_path filter_threshold counts_prefix mm kite temp_dir
         threads memory count loom h5ad cellranger umi_gene em,
    always leaves_files_alone
      (filter_with_bustools cfg bus_path ecmap_path txnames_path t2g_path
         whitelist_path filtered_bus_path filter_threshold counts_prefix
         true mm kite temp_dir threads memory count loom h5ad cellranger
         umi_gene em).
Proof.
  intros. unfold filter_with_bustools. hush reflexivity.
Qed.

End Filtering.

Section Smartseq.

Context {consts : Constants} {helpers : Helpers} {world : World}
        {contents : Contents}.
Variable cfg : config.Globals.

Ltac pseudo_leaf :=
  intro;
  first
    [ exfalso;
      match goal with
      | Hc : is_run _ = true |- _ => cbn in Hc; discriminate Hc
      end
    | eexists; reflexivity ].

(** X18. The only command [count_smartseq] ever runs is [kallisto pseudo], on
    the batch file it has written to [out_dir]: it runs no [bustools]
    command. *)
Theorem count_smartseq_runs_only_pseudo :
  forall index_paths t2g_path technology out_dir fastq_pairs cell_ids
         temp_dir threads memory overwrite loom h5ad,
    always (fun e =>
              is_run e = true ->
              exists index_path,
                e = Run (kallisto_pseudo_command cfg
                           (join out_dir BATCH_FILENAME) index_path out_dir
                           threads))
      (count_smartseq cfg index_paths t2g_path technology out_dir fastq_pairs
         cell_ids temp_dir threads memory overwrite loom h5ad).
Proof.
  intros. unfold count_smartseq. hush pseudo_leaf.
Qed.

(** X19. When no FASTQ is remote and no cell ids are given,
    [count_smartseq] numbers the cells from 0
    in the batch file it writes, one line per FASTQ pair, and hands that
    file and the single index to [kallisto pseudo]. *)
Theorem count_smartseq_numbers_cells :
  forall index_path t2g_path technology out_dir fastq_pairs temp_dir threads
         memory loom h5ad h,
    existsb (fun pair => orb (in_url_schemes (fst pair))
                             (in_url_schemes (snd pair))) fastq_pairs
    = false ->
    exists rest,
      trace (count_smartseq cfg (IndexList [index_path]) t2g_path technology
               out_dir fastq_pairs None temp_dir threads memory true loom
               h5ad) h
      = StatsStart
        :: MakeDirectory out_dir
        :: WriteLines (join out_dir BATCH_FILENAME)
             (map batch_line
                  (combine (map str_of_nat (seq 0 (length fastq_pairs)))
                           fastq_pairs))
        :: Run (kallisto_pseudo_command cfg (join out_dir BATCH_FILENAME)
                  index_path out_dir threads)
        :: rest.
Proof.
  intros until h. intros Hlocal. unfold trace, count_smartseq.
  rewrite Hlocal. cbn [as_list length Nat.ltb Nat.leb].
  pose proof (write_smartseq_batch_runs fastq_pairs
                (map str_of_nat (seq 0 (length fastq_pairs)))
                (join out_dir BATCH_FILENAME) h) as Hrun.
  unfold write_smartseq_batch, bind, emit, ret in Hrun. cbn in Hrun.
  injection Hrun as Hrun. rewrite <- Hrun. clear Hrun.
  do 6 step. rewrite orb_true_r.
  repeat (lazymatch goal with
          | |- context [cons_trace (Run _) _] => fail
          | _ => step
          end).
  match goal with |- context [cons_trace (Run _) ?R] => set (after := R) end.
  cbv beta iota delta [cons_trace app_trace fst snd].
  eexists. reflexivity.
Qed.

End Smartseq.

Section GivenWhitelist.

Context {consts : Constants} {helpers : Helpers} {world : World}
        {contents : Contents}.
Variable cfg : config.Globals.

(** How [count] uses a whitelist it is given: none is copied, none is
    generated except the one of the filter, and barcodes are corrected
    against the given one, or against the filter's own after filtering. *)
Definition uses_whitelist (whitelist out_dir : string)
    (filter_threshold : option Z) (e : Event) : Prop :=
  (forall technology dir, e <> CopyWhitelist technology dir) /\
  (subcommand e = Some "whitelist" ->
   exists bus,
     e = Run (bustools_whitelist_command cfg bus
                (join out_dir FILTER_WHITELIST_FILENAME) filter_threshold)) /\
  (subcommand e = Some "correct" ->
   exists bus out,
     e = Run (bustools_correct_command cfg bus out (Some whitelist)) \/
     e = Run (bustools_correct_command cfg bus out
                (Some (join out_dir FILTER_WHITELIST_FILENAME)))).

Ltac whitelist_leaf :=
  split; [intros; discriminate|];
  split; intro;
  first
    [ exfalso;
      match goal with
      | Hc : subcommand _ = Some _ |- _ =>
          autorewrite with subcommands in Hc; cbn [subcommand] in Hc;
          discriminate Hc
      end
    | eexists; reflexivity
    | do 2 eexists; first [left; reflexivity | right; reflexivity] ].

(** X20. Given a whitelist, [count] copies none and generates none except
    the one of the filter; every [bustools correct] is against the given
    whitelist or, after filtering, against the filter's own. *)
Theorem count_uses_given_whitelist :
  forall index_paths t2g_path technology out_dir fastqs whitelist tcc mm
         filter filter_threshold kite FB temp_dir threads memory overwrite
         loom h5ad cellranger inspect report fragment_l fragment_s paired
         strand umi_gene em,
    whitelist <> EmptyString ->
    always (uses_whitelist whitelist out_dir filter_threshold)
      (count cfg index_paths t2g_path technology out_dir fastqs
         (Some whitelist) tcc mm filter filter_threshold kite FB temp_dir
         threads memory overwrite loom h5ad cellranger inspect report
         fragment_l fragment_s paired strand umi_gene em).
Proof.
  intros until em. intros Hw. apply String.eqb_neq in Hw.
  unfold count, uses_whitelist, truthy. rewrite Hw.
  cbn [negb andb]. hush whitelist_leaf.
Qed.

End GivenWhitelist.

Section Smartseq3SplitIndex.

Context {consts : Constants} {helpers : Helpers} {world : World}
        {contents : Contents}.
Variable cfg : config.Globals.

(** X21. On a split index, every run of [count_smartseq3] with [tcc] that
    redoes the [kallisto bus] stage stops with [KeyError 'saved_index']:
    [kallisto_bus_split] does not return the saved index that [quant-tcc]
    is to be given. *)
Theorem count_smartseq3_split_index_tcc_raises :
  forall index_paths t2g_path out_dir fastqs mm temp_dir threads memory loom
         h5ad inspect strand h,
    Nat.ltb 1 (length (as_list index_paths)) = true ->
    snd (count_smartseq3 cfg index_paths t2g_path out_dir fastqs true mm
           temp_dir threads memory true loom h5ad inspect strand h)
    = inl (KeyError "saved_index").
Proof.
  intros until h. intros Hsplit.
  unfold count_smartseq3, write_smartseq3_capture, dryable.
  assert (Hne : as_list index_paths <> []).
  { intros E. rewrite E in Hsplit. discriminate Hsplit. }
  do 4 step. rewrite orb_true_r.
  match goal with |- context [bind (bus_stage ?c ?f ?i ?t ?o ?td ?th ?m ?p ?s ?b) _ ?h'] =>
    destruct (@bus_stage_runs _ _ _ _ cfg f i t o td th m p s b h' Hne)
      as (d0 & r & Hrun & Hbus & Hecmap & Htxnames & Hinfo & Hsaved) end.
  specialize (Hsaved Hsplit).
  repeat step; reflexivity.
Qed.

End Smartseq3SplitIndex.

Section Conversion.

Context {consts : Constants} {helpers : Helpers} {world : World}
        {contents : Contents}.

(** The files [convert_matrices] reads next to each matrix: the gene files
    when every matrix has one, else the equivalence-class files. *)
Definition genes_or_ecs (genes_paths ec_paths : list (option string))
  : list (option string) :=
  if orb (match genes_paths with [] => true | _ => false end)
         (existsb is_none genes_paths)
  then ec_paths else genes_paths.

Definition import_event (t2g_path txnames_path : option string)
    (name : string) (tcc : bool) (threads : Z)
    (row : string * (string * option string)) : Event :=
  let '(matrix_path, (barcodes_path, genes_ec_path)) := row in
  if tcc
  then ImportTCC matrix_path barcodes_path genes_ec_path txnames_path threads
  else ImportMatrix matrix_path barcodes_path genes_ec_path t2g_path name.

Lemma import_all_runs t2g_path txnames_path name tcc threads rows :
  forall h,
  exists units,
    mapM (fun row : string * (string * option string) =>
            let '(matrix_path, (barcodes_path, genes_ec_path)) := row in
            import_adata matrix_path barcodes_path genes_ec_path genes_ec_path
              t2g_path txnames_path name tcc threads) rows h
    = (map (import_event t2g_path txnames_path name tcc threads) rows,
       inr units) /\
    length units = length rows.
Proof.
  induction rows as [|[m [b g]] rows IH]; intros h; cbn [mapM map].
  - exists []. split; reflexivity.
  - unfold import_adata at 1. destruct tcc; cbn [import_event].
    + step.
      match goal with |- context [bind (mapM ?f rows) ?k ?h'] =>
        destruct (IH h') as (units & Hrun & Hlen) end.
      steps. eexists. split; [reflexivity|]. cbn. now rewrite Hlen.
    + step.
      match goal with |- context [bind (mapM ?f rows) ?k ?h'] =>
        destruct (IH h') as (units & Hrun & Hlen) end.
      steps. eexists. split; [reflexivity|]. cbn. now rewrite Hlen.
Qed.

(** X22. [convert_matrices] imports as many matrices as it has a matrix, a
    barcodes file and a gene (or equivalence-class) file for, silently
    leaving out what the shortest of the three lists does not cover; it
    combines exactly those, by summing for nuclei and by overlaying
    otherwise, and returns a path for each format asked for and for no
    other. *)
Theorem convert_matrices_combines :
  forall counts_dir matrix_paths barcodes_paths genes_paths ec_paths t2g_path
         txnames_path name loom h5ad nucleus tcc threads h,
  let rows :=
    combine matrix_paths
            (combine barcodes_paths (genes_or_ecs genes_paths ec_paths)) in
  exists r,
    convert_matrices counts_dir matrix_paths barcodes_paths genes_paths
      ec_paths t2g_path txnames_path name loom h5ad nucleus tcc threads h
    = (map (import_event t2g_path txnames_path name tcc threads) rows
       ++ [if nucleus then SumAnndatas (length rows)
           else OverlayAnndatas (length rows)]
       ++ (if loom
           then [WriteLoom (join counts_dir (ADATA_PREFIX ++ ".loom"))]
           else [])
       ++ (if h5ad
           then [WriteH5ad (join counts_dir (ADATA_PREFIX ++ ".h5ad"))]
           else []),
       inr r) /\
    length rows
    = Nat.min (length matrix_paths)
              (Nat.min (length barcodes_paths)
                       (length (genes_or_ecs genes_paths ec_paths))) /\
    dict_get r "loom"
    = (if loom then Some (PStr (join counts_dir (ADATA_PREFIX ++ ".loom")))
       else None) /\
    dict_get r "h5ad"
    = (if h5ad then Some (PStr (join counts_dir (ADATA_PREFIX ++ ".h5ad")))
       else None).
Proof.
  intros. unfold convert_matrices. fold (genes_or_ecs genes_paths ec_paths).
  fold rows. cbv zeta.
  destruct (import_all_runs t2g_path txnames_path name tcc threads rows h)
    as (units & Hrun & Hlen).
  step. rewrite Hlen. unfold write_adata.
  destruct nucleus, loom, h5ad; steps;
    (eexists; split; [reflexivity|]);
    (split; [subst rows; now rewrite !length_combine|]);
    split; reflexivity.
Qed.

End Conversion.

Section ConfigDefaults.

Import config.

(** X23. When the module is imported each binary path is the compiled binary if
    that file exists, else the provided one if that file exists, else
    [None]: a path that is set names an existing file.  The run is not dry
    and validation is on. *)
Theorem initial_globals_prefer_compiled :
  forall os i,
    let g := initial_globals os i in
    (forall p, KALLISTO_PATH g = Some p -> isfile os p = true) /\
    (forall p, BUSTOOLS_PATH g = Some p -> isfile os p = true) /\
    (forall p, get_compiled_kallisto_path os i = Some p -> p <> EmptyString ->
               KALLISTO_PATH g = Some p) /\
    (forall p, get_compiled_bustools_path os i = Some p -> p <> EmptyString ->
               BUSTOOLS_PATH g = Some p) /\
    (get_compiled_kallisto_path os i = None ->
     KALLISTO_PATH g = get_provided_kallisto_path os i) /\
    (get_compiled_bustools_path os i = None ->
     BUSTOOLS_PATH g = get_provided_bustools_path os i) /\
    is_dry g = false /\ is_validate g = true.
Proof.
  intros os i g. subst g. unfold initial_globals, or_else.
  cbn [KALLISTO_PATH BUSTOOLS_PATH is_dry DRY is_validate VALIDATE].
  unfold get_compiled_kallisto_path, get_provided_kallisto_path,
    get_compiled_bustools_path, get_provided_bustools_path.
  cbv zeta.
  repeat match goal with
         | |- context [isfile os ?p] =>
             let E := fresh "E" in destruct (isfile os p) eqn:E
         end; cbn [negb];
  repeat match goal with
         | |- context [String.eqb ?a EmptyString] =>
             destruct (String.eqb_spec a EmptyString)
         end; cbn [negb];
  repeat split; intros; try congruence;
  repeat match goal with
         | H : Some _ = Some _ |- _ => injection H as H; subst
         end; try congruence.
Qed.

(** X24. The four setters act on four separate globals: a path setter, whether
    it succeeds or raises, changes neither the other path nor the two flags,
    its outcome does not depend on what was set before, so that the two
    paths can be set in either order; [set_dry] and [no_validate] change
    their own flag only, and no setter undoes them. *)
Theorem setters_are_independent :
  forall os path_k path_b g,
    let gk := fst (set_kallisto_binary_path os path_k g) in
    let gb := fst (set_bustools_binary_path os path_b g) in
    (BUSTOOLS_PATH gk = BUSTOOLS_PATH g /\ DRY gk = DRY g /\
     VALIDATE gk = VALIDATE g) /\
    (KALLISTO_PATH gb = KALLISTO_PATH g /\ DRY gb = DRY g /\
     VALIDATE gb = VALIDATE g) /\
    snd (set_kallisto_binary_path os path_k gb)
    = snd (set_kallisto_binary_path os path_k g) /\
    snd (set_bustools_binary_path os path_b gk)
    = snd (set_bustools_binary_path os path_b g) /\
    fst (set_bustools_binary_path os path_b gk)
    = fst (set_kallisto_binary_path os path_k gb) /\
    (is_dry (set_dry g) = true /\
     is_dry (fst (set_kallisto_binary_path os path_k (set_dry g))) = true /\
     is_dry (no_validate (set_dry g)) = true) /\
    (is_validate (no_validate g) = false /\
     is_validate (fst (set_bustools_binary_path os path_b (no_validate g)))
     = false /\
     is_validate (set_dry (no_validate g)) = false) /\
    set_dry (no_validate g) = no_validate (set_dry g).
Proof.
  intros os path_k path_b g gk gb. subst gk gb.
  unfold set_kallisto_binary_path, set_bustools_binary_path, set_dry,
    no_validate, is_dry, is_validate.
  destruct (resolve os path_k) as [ek|pk], (resolve os path_b) as [eb|pb];
    cbn;
    try destruct (access_X_OK os pk); try destruct (access_X_OK os pb);
    cbn; repeat split; reflexivity.
Qed.

End ConfigDefaults.

(** ** What a pipeline returns *)

(** Whenever [m] returns, what it returns satisfies [P]. *)
Definition returns_only {A} (P : A -> Prop) (m : M A) : Prop :=
  forall h d a, m h = (d, inr a) -> P a.

Section ReturnsOnly.

Context {A : Type}.
Variable P : A -> Prop.

Lemma returns_only_ret a : P a -> returns_only P (ret a).
Proof. intros Ha h d a' E. injection E as _ <-. exact Ha. Qed.

Lemma returns_only_raise e : returns_only P (raise e).
Proof. intros h d a E. discriminate E. Qed.

Lemma returns_only_bind_val {B} (m : M B) (k : B -> M A) (Q : B -> Prop) :
  returns_only Q m -> (forall b, Q b -> returns_only P (k b)) ->
  returns_only P (bind m k).
Proof.
  intros Hm Hk h d a. unfold bind.
  destruct (m h) as [d0 [e|b]] eqn:Hrun; [discriminate|].
  destruct (k b (rev_append d0 h)) as [d1 r] eqn:Hrun'.
  intros E. injection E as _ ->.
  exact (Hk b (Hm _ _ _ Hrun) _ _ _ Hrun').
Qed.

Lemma returns_only_bind {B} (m : M B) (k : B -> M A) :
  (forall b, returns_only P (k b)) -> returns_only P (bind m k).
Proof.
  intros Hk. apply returns_only_bind_val with (Q := fun _ => True); auto.
  intros h d b _. exact I.
Qed.

Lemma returns_only_if (c : bool) (m1 m2 : M A) :
  (c = true -> returns_only P m1) -> (c = false -> returns_only P m2) ->
  returns_only P (if c then m1 else m2).
Proof. destruct c; auto. Qed.

End ReturnsOnly.

Section Results.

Context {consts : Constants} {helpers : Helpers} {world : World}
        {contents : Contents}.
Variable cfg : config.Globals.

(** [filter == 'bustools'] *)
Definition is_bustools (filter : option string) : bool :=
  match filter with
  | Some f => String.eqb f "bustools"
  | None => false
  end.

Ltac to_filter :=
  norm;
  lazymatch goal with
  | |- returns_only _ (bind (if _ then _ else ret None) _) => idtac
  | |- returns_only _ (bind _ _) => apply returns_only_bind; intro; to_filter
  end.

Ltac to_end :=
  norm;
  lazymatch goal with
  | |- returns_only _ (bind _ _) => apply returns_only_bind; intro; to_end
  | |- returns_only _ (ret _) => apply returns_only_ret
  end.


End Results.

Section BatchFile.

Context {consts : Constants} {helpers : Helpers} {world : World}
        {contents : Contents}.
Variable cfg : config.Globals.

(** What [count] does about barcodes when it is given a batch file: it
    copies no whitelist, and it generates a whitelist and corrects against
    it in the filter only. *)
Definition corrects_in_filter_only (out_dir : string)
    (filter_threshold : option Z) (e : Event) : Prop :=
  (forall technology dir, e <> CopyWhitelist technology dir) /\
  (subcommand e = Some "whitelist" ->
   exists bus,
     e = Run (bustools_whitelist_command cfg bus
                (join out_dir FILTER_WHITELIST_FILENAME) filter_threshold)) /\
  (subcommand e = Some "correct" ->
   exists bus out,
     e = Run (bustools_correct_command cfg bus out
                (Some (join out_dir FILTER_WHITELIST_FILENAME)))).

Ltac batch_leaf :=
  split; [intros; discriminate|];
  split; intro;
  first
    [ exfalso;
      match goal with
      | Hc : subcommand _ = Some _ |- _ =>
          autorewrite with subcommands in Hc; cbn [subcommand] in Hc;
          discriminate Hc
      end
    | eexists; reflexivity
    | do 2 eexists; reflexivity ].

(** X26. Given a batch file, [count] copies no whitelist and does not
    correct the barcodes of the sorted BUS file: the only
    [bustools whitelist] and [bustools correct] are those of the filter,
    the correction against the whitelist the filter has generated. *)
Theorem count_batch_corrects_in_filter_only :
  forall index_paths t2g_path technology out_dir batch_path whitelist_path
         tcc mm filter filter_threshold kite FB temp_dir threads memory
         overwrite loom h5ad cellranger inspect report fragment_l fragment_s
         paired strand umi_gene em,
    always (corrects_in_filter_only out_dir filter_threshold)
      (count cfg index_paths t2g_path technology out_dir (Batch batch_path)
         whitelist_path tcc mm filter filter_threshold kite FB temp_dir
         threads memory overwrite loom h5ad cellranger inspect report
         fragment_l fragment_s paired strand umi_gene em).
Proof.
  intros. unfold count, corrects_in_filter_only.
  cbn [isinstance_str negb andb]. rewrite andb_false_r.
  hush batch_leaf.
Qed.

End BatchFile.

(** ** Sample runs of the further properties *)

(** The sample world after a first run: every path exists. *)
Definition settled_world : World := {|
  path_exists := fun _ _ => true;
  temporary_filename := @temporary_filename sample_world;
  stream_file_result := @stream_file_result sample_world;
  copy_whitelist_result := @copy_whitelist_result sample_world;
  copy_map_result := @copy_map_result sample_world;
  stats_save_result := @stats_save_result sample_world;
  render_report_result := @render_report_result sample_world;
  dry_call_result := @dry_call_result sample_world
|}.

Lemma count_skips_kallisto_bus_witness :
  Forall (fun e => subcommand e <> Some "bus" /\
                   subcommand e <> Some "mash" /\
                   subcommand e <> Some "merge")
    (fst (@count sample_constants sample_helpers settled_world
            sample_contents sample_globals (IndexList ["a.idx"]) "t2g.txt"
            "10xv2" "out" (Files ["r1.fq"; "r2.fq"]) None false false None
            None false false "tmp" 8%Z "4G" false false false false true
            false None None false None false false [])).
Proof.
  apply (@count_skips_kallisto_bus sample_constants sample_helpers
           settled_world sample_contents sample_globals).
  intros h p _. reflexivity.
Defined.



Lemma count_smartseq_numbers_cells_witness :
  exists rest,
    fst (@count_smartseq sample_constants sample_helpers sample_world
           sample_contents sample_globals (IndexList ["a.idx"]) "t2g.txt"
           "smartseq2" "out" [("a_1.fq", "a_2.fq"); ("b_1.fq", "b_2.fq")]
           None "tmp" 8%Z "4G" true false false [])
    = StatsStart
      :: MakeDirectory "out"
      :: WriteLines "out/batch.txt"
           [("0" ++ tabs ++ "a_1.fq" ++ tabs ++ "a_2.fq" ++ nl)%string;
            ("1" ++ tabs ++ "b_1.fq" ++ tabs ++ "b_2.fq" ++ nl)%string]
      :: Run (kallisto_pseudo_command sample_globals
                "out/batch.txt" "a.idx" "out" 8%Z)
      :: rest.
Proof.
  apply (@count_smartseq_numbers_cells sample_constants sample_helpers
           sample_world sample_contents sample_globals "a.idx" "t2g.txt"
           "smartseq2" "out" [("a_1.fq", "a_2.fq"); ("b_1.fq", "b_2.fq")]
           "tmp" 8%Z "4G" false false []).
  reflexivity.
Defined.

Lemma count_uses_given_whitelist_witness :
  Forall (@uses_whitelist sample_constants sample_globals "10x.txt" "out" None)
    (fst (@count sample_constants sample_helpers sample_world sample_contents
            sample_globals (IndexList ["a.idx"]) "t2g.txt" "10xv2" "out"
            (Files ["r1.fq"; "r2.fq"]) (Some "10x.txt") false false
            (Some "bustools") None false false "tmp" 8%Z "4G" true false
            false false true false None None false None false false [])).
Proof.
  apply (@count_uses_given_whitelist sample_constants sample_helpers
           sample_world sample_contents sample_globals).
  discriminate.
Defined.

Lemma count_smartseq3_split_index_tcc_raises_witness :
  snd (@count_smartseq3 sample_constants sample_helpers sample_world
         sample_contents sample_globals (IndexList ["a.idx"; "b.idx"])
         "t2g.txt" "out" (Files ["r1.fq"; "r2.fq"]) true false "tmp" 8%Z
         "4G" true false false true None [])
  = inl (KeyError "saved_index").
Proof.
  apply (@count_smartseq3_split_index_tcc_raises sample_constants
           sample_helpers sample_world sample_contents sample_globals).
  reflexivity.
Defined.

(** [count] in the sample environment with the filter of [bustools]. *)
Definition sample_filtered_count : list Event * (Exn + dict) :=
  @count sample_constants sample_helpers sample_world sample_contents
    sample_globals (IndexList ["a.idx"]) "t2g.txt" "10xv2" "out"
    (Files ["r1.fq"; "r2.fq"]) None false false (Some "bustools") None false
    false "tmp" 8%Z "4G" true false false false true false None None false
    None false false [].

